(** * Transaction matching engine: reconciliation and duplicate detection

    A shallow embedding of [bank/reconciliation.py] (class
    [BankReconciliation], [ReconciliationResult]) and of
    [card_processor/duplicate_detector.py] (class [DuplicateDetector]) with
    [card_processor/csv_parsers/base.py] ([ParsedTransaction]), followed by
    the properties of the matching engine.

    Conventions of the embedding.
    - [Decimal] keeps the printed representation (coefficient and exponent),
      which is what [str(amount)] and hence the content hash sees; its value
      is the rational [dval]. The tolerance tests and the recorded amount
      difference compute [a - b], [a * b] and [abs(a)] in the default
      context of [decimal]: the exact result rounded to 28 significant
      digits, ties to even ([Py.rounded]); comparisons are exact. The
      exponent limits of the context (999999 and -999999), beyond which the
      code raises [Overflow] or rounds to a subnormal, are not modelled.
      Sums of amounts and the closing difference are kept exact, as they
      are in the code while every partial sum has at most 28 significant
      digits.
    - A [datetime.date] is its day ordinal; a naive [datetime.datetime] is a
      count of microseconds, so that [timedelta.days] is a floor division.
    - Python objects that are compared with [is] or [id()] carry their
      identity in a field [oid].
    - The detector adds up confidences in binary64, and the sums are not the
      decimal sums (0.3 + 0.4 + 0.2 is below 0.9): they are primitive floats
      here. The reconciliation engine only ever produces the doubles nearest
      to 1, 0.95, 0.9, 0.8 and 0.7, which are ordered like those rationals,
      so its confidences are rationals. *)

From Stdlib Require Import ZArith QArith Qabs Qround Qpower PrimFloat Uint63.
From Stdlib Require Import String Ascii List Bool Lia Lqa Permutation.
From stdpp Require Import gmap strings list fin_maps sorting.

Set Warnings "-inexact-float,-clear-no-such-hyp".

(** ** Python primitives used by both modules *)

Module Py.

(** [decimal.Decimal]: finite values only, [dmant * 10 ^ dexp]. *)
Record Decimal := mkDecimal { dmant : Z; dexp : Z }.

Definition dval (d : Decimal) : Q := (inject_Z (dmant d) * Qpower (10 # 1) (dexp d))%Q.

#[global] Instance Decimal_eq_dec : EqDecision Decimal.
Proof. solve_decision. Defined.

#[global] Instance Decimal_countable : Countable Decimal.
Proof.
  refine (inj_countable' (fun d => (dmant d, dexp d)) (fun p => mkDecimal p.1 p.2) _).
  intros [m e]. reflexivity.
Defined.

(** [Decimal("n")] for an integer literal. *)
Definition dec (n : Z) : Decimal := mkDecimal n 0.

Definition Qlt_bool (x y : Q) : bool := negb (Qle_bool y x).

(** The arithmetic context of [decimal], with its defaults [prec = 28] and
    [ROUND_HALF_EVEN]: an operation returns the exact result rounded to
    [prec] significant digits, a tie going to the even last digit. The
    result is given by its value. [adjusted y] is the exponent of the leading
    digit of [y > 0], found by a search downwards from a power of ten above
    [y]; the last kept digit of [y] then has the exponent
    [adjusted y - (prec - 1)]. *)
Definition prec : Z := 28.

(** The integer nearest to [r], the even one of two that are equally near. *)
Definition half_even (r : Q) : Z :=
  let f := Qfloor r in
  let twice := ((r - inject_Z f) * 2)%Q in
  if Qlt_bool twice 1 then f
  else if Qlt_bool 1 twice then (f + 1)%Z
  else if Z.even f then f else (f + 1)%Z.

Fixpoint leading (fuel : nat) (e : Z) (y : Q) : Z :=
  match fuel with
  | O => e
  | S fuel' => if Qle_bool (Qpower (10 # 1) e) y then e else leading fuel' (e - 1) y
  end.

Definition adjusted (y : Q) : Z :=
  let hi := (Z.log2 (Qnum y) + 1)%Z in
  let lo := (- (Z.log2 (Zpos (Qden y)) + 1))%Z in
  leading (Z.to_nat (hi - lo)) hi y.

Definition round_magnitude (y : Q) : Q :=
  if Qle_bool y 0 then 0%Q
  else
    let quantum := Qpower (10 # 1) (adjusted y - (prec - 1)) in
    (inject_Z (half_even (y / quantum)) * quantum)%Q.

Definition rounded (x : Q) : Q :=
  if Qlt_bool x 0 then (- round_magnitude (- x))%Q else round_magnitude x.

(** [a - b], [a * b] and [abs(a)] on decimals. *)
Definition dsub (a b : Q) : Q := rounded (a - b).
Definition dmul (a b : Q) : Q := rounded (a * b).
Definition dabs (a : Q) : Q := rounded (Qabs a).



(** [max(a, b)] on two arguments returns [b] only when [b > a]. *)
Definition max (a b : Q) : Q := if Qlt_bool a b then b else a.

(** [a / b] on integers; [None] stands for [ZeroDivisionError]. *)
Definition truediv (a b : Z) : option Q :=
  if (b =? 0)%Z then None else Some (Qmake a 1 / Qmake b 1)%Q.

(** Truth value of an [Optional[str]]: [None] and the empty string are false. *)
Definition truthy (o : option string) : bool :=
  match o with
  | Some (String _ _) => true
  | _ => false
  end.

(** [needle in hay] on strings. *)
Fixpoint contains (needle hay : string) : bool :=
  String.prefix needle hay ||
  match hay with
  | EmptyString => false
  | String _ hay' => contains needle hay'
  end.

(** [str.lower] and [str.split()] on the ASCII range. *)
Definition lower_ascii (c : ascii) : ascii :=
  let n := nat_of_ascii c in
  if (65 <=? n)%nat && (n <=? 90)%nat then ascii_of_nat (n + 32) else c.

Fixpoint lower (s : string) : string :=
  match s with
  | EmptyString => EmptyString
  | String c s' => String (lower_ascii c) (lower s')
  end.

Definition is_space (c : ascii) : bool :=
  let n := nat_of_ascii c in
  ((9 <=? n)%nat && (n <=? 13)%nat) || ((28 <=? n)%nat && (n <=? 32)%nat).

Fixpoint split_from (cur : option string) (s : string) : list string :=
  match s with
  | EmptyString => match cur with Some w => [w] | None => [] end
  | String c s' =>
    if is_space c then
      match cur with
      | Some w => w :: split_from None s'
      | None => split_from None s'
      end
    else split_from (Some (default EmptyString cur +:+ String c EmptyString)) s'
  end.

Definition split (s : string) : list string := split_from None s.

(** [sorted] and [list.sort] are stable. [before y x] says that the key of
    [y] is strictly ahead of the key of [x] in the requested order; an
    element is inserted behind everything that is strictly ahead of it and
    in front of the rest, so equal keys keep their input order. *)
Fixpoint insert_by {A} (before : A -> A -> bool) (x : A) (l : list A) : list A :=
  match l with
  | [] => [x]
  | y :: ys => if before y x then y :: insert_by before x ys else x :: y :: ys
  end.

Definition sorted_by {A} (before : A -> A -> bool) (l : list A) : list A :=
  fold_right (insert_by before) [] l.

(** The first result of a scan that returns as soon as [f] yields one. *)
Fixpoint first_some {A B} (f : A -> option B) (l : list A) : option B :=
  match l with
  | [] => None
  | x :: xs => match f x with Some y => Some y | None => first_some f xs end
  end.

End Py.

(** ** bank/reconciliation.py *)

Module Bank.
Import Py.

Inductive MatchStatus := MATCHED | PARTIAL | UNMATCHED | DUPLICATE | MANUAL_REVIEW.

Inductive MatchType := EXACT | AMOUNT_ONLY | FUZZY | REFERENCE | DESCRIPTION.

#[global] Instance MatchType_eq_dec : EqDecision MatchType.
Proof. solve_decision. Defined.

(** The [raw_data] payload is opaque to the engine and left out. *)
Module BankTransaction.
Record t := mk {
  id : string;
  date : Z;
  description : string;
  amount : Decimal;
  balance : option Decimal;
  reference : option string;
  transaction_type : string
}.
End BankTransaction.

Module BookTransaction.
Record t := mk {
  id : string;
  date : Z;
  description : string;
  amount : Decimal;
  account_code : string;
  account_name : string;
  entity : string;
  reference : option string;
  source : string;
  reconciled : bool
}.
End BookTransaction.

Module MatchedTransaction.
Record t := mk {
  bank_txn : BankTransaction.t;
  book_txn : BookTransaction.t;
  match_type : MatchType;
  confidence : Q;
  date_diff_days : Z;
  amount_diff : Q;
  notes : string
}.
End MatchedTransaction.

(** An entry of [possible_matches], a dict with these five keys. *)
Module PossibleMatch.
Record t := mk {
  book_id : string;
  amount : Decimal;
  date : Z;
  description : string;
  date_diff_days : Z
}.
End PossibleMatch.

Module UnmatchedItem.
Record t := mk {
  transaction : BankTransaction.t + BookTransaction.t;
  source : string;
  status : MatchStatus;
  possible_matches : list PossibleMatch.t;
  notes : string
}.
End UnmatchedItem.

(** [reconciled_at] is the wall clock at construction and plays no part. *)
Module ReconciliationResult.
Record t := mk {
  entity : string;
  account : string;
  period_start : Z;
  period_end : Z;
  bank_opening_balance : Decimal;
  bank_closing_balance : Decimal;
  book_opening_balance : Decimal;
  book_closing_balance : Decimal;
  matched : list MatchedTransaction.t;
  unmatched_bank : list UnmatchedItem.t;
  unmatched_book : list UnmatchedItem.t
}.

Definition match_rate (self : t) : option Q :=
  let total_bank := (Z.of_nat (length (matched self)) + Z.of_nat (length (unmatched_bank self)))%Z in
  if (total_bank =? 0)%Z then Some 0%Q
  else q ← truediv (Z.of_nat (length (matched self))) total_bank; Some (q * 100)%Q.


Definition difference (self : t) : Q :=
  (dval (bank_closing_balance self) - dval (book_closing_balance self))%Q.

Definition is_reconciled (self : t) : bool :=
  Qlt_bool (Qabs (difference self)) (1 # 100) &&
  (length (unmatched_bank self) =? 0)%nat.
End ReconciliationResult.

(** The engine: the two thresholds are instance attributes (class defaults
    3 and 0.01, overridden by [reconciliation_rules.yaml]);
    [AMOUNT_TOLERANCE_PERCENT] is the value of [Decimal(str(...))]. *)
Module BankReconciliation.
Record t := mk {
  DATE_TOLERANCE_DAYS : Z;
  AMOUNT_TOLERANCE_PERCENT : Q
}.
End BankReconciliation.

Definition MIN_CONFIDENCE_THRESHOLD : Q := 7 # 10.

Definition default_engine : BankReconciliation.t := BankReconciliation.mk 3 (1 # 100).

Definition days_apart (bank_txn : BankTransaction.t) (book_txn : BookTransaction.t) : Z :=
  Z.abs (BankTransaction.date bank_txn - BookTransaction.date book_txn).

Definition _create_match (bank_txn : BankTransaction.t) (book_txn : BookTransaction.t)
    (match_type : MatchType) (confidence : Q) : MatchedTransaction.t :=
  MatchedTransaction.mk bank_txn book_txn match_type confidence
    (days_apart bank_txn book_txn)
    (dabs (dsub (dval (BankTransaction.amount bank_txn)) (dval (BookTransaction.amount book_txn))))
    "".

Definition _amounts_match (self : BankReconciliation.t) (amount1 amount2 : Decimal) : bool :=
  if Qeq_bool (dval amount1) (dval amount2) then true
  else
    let tolerance := dmul (dabs (dval amount1)) (BankReconciliation.AMOUNT_TOLERANCE_PERCENT self) in
    Qle_bool (dabs (dsub (dval amount1) (dval amount2))) tolerance.

(** [confidence] is a float in the source. [1.0 - date_diff * 0.1] is 0.9
    and 0.8 for one and two days and at most 0.7 from three days on, where
    [max] returns 0.7, so the values are those of the rationals below. *)
Definition _try_match (self : BankReconciliation.t) (bank_txn : BankTransaction.t)
    (book_txn : BookTransaction.t) : option MatchedTransaction.t :=
  if negb (_amounts_match self (BankTransaction.amount bank_txn) (BookTransaction.amount book_txn))
  then None
  else
    let date_diff := days_apart bank_txn book_txn in
    if (BankReconciliation.DATE_TOLERANCE_DAYS self <? date_diff)%Z then None
    else
      let '(match_type, confidence) :=
        if (date_diff =? 0)%Z &&
           Qeq_bool (dval (BankTransaction.amount bank_txn)) (dval (BookTransaction.amount book_txn))
        then (EXACT, 1%Q)
        else if (date_diff =? 0)%Z then (AMOUNT_ONLY, 95 # 100)
        else (FUZZY, max (7 # 10) (1 - inject_Z date_diff * (1 # 10))%Q) in
      Some (_create_match bank_txn book_txn match_type confidence).

(** The loop state of [reconcile]: [result.matched] and the two id sets. *)
Record Progress := mkProgress {
  so_far : list MatchedTransaction.t;
  matched_bank_ids : gset string;
  matched_book_ids : gset string
}.

Definition commit (st : Progress) (m : MatchedTransaction.t) : Progress :=
  mkProgress (so_far st ++ [m])
    ({[ BankTransaction.id (MatchedTransaction.bank_txn m) ]} ∪ matched_bank_ids st)
    ({[ BookTransaction.id (MatchedTransaction.book_txn m) ]} ∪ matched_book_ids st).

Definition is_exact (m : MatchedTransaction.t) : bool :=
  bool_decide (MatchedTransaction.match_type m = EXACT).

(** Phase 1, inner loop: the first unmatched book transaction that matches
    exactly. *)
Definition phase1_scan (self : BankReconciliation.t) (book_sorted : list BookTransaction.t)
    (st : Progress) (bank_txn : BankTransaction.t) : option MatchedTransaction.t :=
  first_some (fun book_txn =>
    if bool_decide (BookTransaction.id book_txn ∈ matched_book_ids st) then None
    else match _try_match self bank_txn book_txn with
         | Some m => if is_exact m then Some m else None
         | None => None
         end) book_sorted.

Definition phase1_step (self : BankReconciliation.t) (book_sorted : list BookTransaction.t)
    (st : Progress) (bank_txn : BankTransaction.t) : Progress :=
  if bool_decide (BankTransaction.id bank_txn ∈ matched_bank_ids st) then st
  else match phase1_scan self book_sorted st bank_txn with
       | Some m => commit st m
       | None => st
       end.

(** Phase 2, inner loop: the first unmatched book transaction whose
    reference contains the bank reference. *)
Definition phase2_scan (book_sorted : list BookTransaction.t)
    (st : Progress) (bank_txn : BankTransaction.t) : option MatchedTransaction.t :=
  first_some (fun book_txn =>
    if bool_decide (BookTransaction.id book_txn ∈ matched_book_ids st) then None
    else if truthy (BookTransaction.reference book_txn) &&
            contains (default EmptyString (BankTransaction.reference bank_txn))
                     (default EmptyString (BookTransaction.reference book_txn))
    then Some (_create_match bank_txn book_txn REFERENCE (9 # 10))
    else None) book_sorted.

Definition phase2_step (book_sorted : list BookTransaction.t)
    (st : Progress) (bank_txn : BankTransaction.t) : Progress :=
  if bool_decide (BankTransaction.id bank_txn ∈ matched_bank_ids st) then st
  else if negb (truthy (BankTransaction.reference bank_txn)) then st
  else match phase2_scan book_sorted st bank_txn with
       | Some m => commit st m
       | None => st
       end.

(** Phase 3: all unmatched book transactions that pass [_try_match] with
    enough confidence, in the order of [book_sorted]. *)
Definition phase3_candidates (self : BankReconciliation.t) (book_sorted : list BookTransaction.t)
    (st : Progress) (bank_txn : BankTransaction.t)
    : list (MatchedTransaction.t * BookTransaction.t) :=
  flat_map (fun book_txn =>
    if bool_decide (BookTransaction.id book_txn ∈ matched_book_ids st) then []
    else match _try_match self bank_txn book_txn with
         | Some m =>
           if Qle_bool MIN_CONFIDENCE_THRESHOLD (MatchedTransaction.confidence m)
           then [(m, book_txn)] else []
         | None => []
         end) book_sorted.

(** [candidates.sort(key=lambda x: x[0].confidence, reverse=True)]. *)
Definition more_confident (y x : MatchedTransaction.t * BookTransaction.t) : bool :=
  Qlt_bool (MatchedTransaction.confidence (fst x)) (MatchedTransaction.confidence (fst y)).

Definition best_candidate (candidates : list (MatchedTransaction.t * BookTransaction.t))
    : option (MatchedTransaction.t * BookTransaction.t) :=
  head (sorted_by more_confident candidates).

Definition phase3_step (self : BankReconciliation.t) (book_sorted : list BookTransaction.t)
    (st : Progress) (bank_txn : BankTransaction.t) : Progress :=
  if bool_decide (BankTransaction.id bank_txn ∈ matched_bank_ids st) then st
  else match best_candidate (phase3_candidates self book_sorted st bank_txn) with
       | Some (best_match, best_book) =>
         mkProgress (so_far st ++ [best_match])
           ({[ BankTransaction.id bank_txn ]} ∪ matched_bank_ids st)
           ({[ BookTransaction.id best_book ]} ∪ matched_book_ids st)
       | None => st
       end.

Definition _find_possible_matches (self : BankReconciliation.t) (bank_txn : BankTransaction.t)
    (book_transactions : list BookTransaction.t) (matched_ids : gset string)
    : list PossibleMatch.t :=
  let possible :=
    flat_map (fun book_txn =>
      if bool_decide (BookTransaction.id book_txn ∈ matched_ids) then []
      else if _amounts_match self (BankTransaction.amount bank_txn) (BookTransaction.amount book_txn)
      then [PossibleMatch.mk (BookTransaction.id book_txn) (BookTransaction.amount book_txn)
              (BookTransaction.date book_txn) (BookTransaction.description book_txn)
              (days_apart bank_txn book_txn)]
      else []) book_transactions in
  take 5 (sorted_by (fun y x => (PossibleMatch.date_diff_days y <? PossibleMatch.date_diff_days x)%Z)
            possible).

(** Sort keys [(x.date, x.amount)]: tuples compare on the first component
    that differs. *)
Definition key_before (d1 : Z) (a1 : Decimal) (d2 : Z) (a2 : Decimal) : bool :=
  if (d1 =? d2)%Z then Qlt_bool (dval a1) (dval a2) else (d1 <? d2)%Z.

Definition bank_before (y x : BankTransaction.t) : bool :=
  key_before (BankTransaction.date y) (BankTransaction.amount y)
             (BankTransaction.date x) (BankTransaction.amount x).

Definition book_before (y x : BookTransaction.t) : bool :=
  key_before (BookTransaction.date y) (BookTransaction.amount y)
             (BookTransaction.date x) (BookTransaction.amount x).

Definition no_progress : Progress := mkProgress [] ∅ ∅.

Definition run_phases (self : BankReconciliation.t)
    (bank_sorted : list BankTransaction.t) (book_sorted : list BookTransaction.t) : Progress :=
  let st1 := fold_left (phase1_step self book_sorted) bank_sorted no_progress in
  let st2 := fold_left (phase2_step book_sorted) bank_sorted st1 in
  fold_left (phase3_step self book_sorted) bank_sorted st2.

(** The two dates that the defaults of [period_start] and [period_end] read
    off [date.today()]. *)
Record Today := mkToday { first_of_last_month : Z; today : Z }.

Definition reconcile (self : BankReconciliation.t) (clock : Today)
    (entity account : string)
    (bank_transactions : list BankTransaction.t) (book_transactions : list BookTransaction.t)
    (period_start period_end : option Z)
    (bank_opening bank_closing book_opening book_closing : Decimal)
    : ReconciliationResult.t :=
  let bank_sorted := sorted_by bank_before bank_transactions in
  let book_sorted := sorted_by book_before book_transactions in
  let st := run_phases self bank_sorted book_sorted in
  let unmatched_bank :=
    flat_map (fun bank_txn =>
      if bool_decide (BankTransaction.id bank_txn ∈ matched_bank_ids st) then []
      else
        let possible := _find_possible_matches self bank_txn book_sorted (matched_book_ids st) in
        [UnmatchedItem.mk (inl bank_txn) "bank"
           (match possible with [] => UNMATCHED | _ => MANUAL_REVIEW end) possible ""])
      bank_sorted in
  let unmatched_book :=
    flat_map (fun book_txn =>
      if bool_decide (BookTransaction.id book_txn ∈ matched_book_ids st) then []
      else [UnmatchedItem.mk (inr book_txn) "book" UNMATCHED [] ""])
      book_sorted in
  ReconciliationResult.mk entity account
    (default (first_of_last_month clock) period_start)
    (default (today clock) period_end)
    bank_opening bank_closing book_opening book_closing
    (so_far st) unmatched_bank unmatched_book.

End Bank.

(** ** card_processor/csv_parsers/base.py and card_processor/duplicate_detector.py *)

Module Card.
Import Py.

Module ParsedTransaction.
Record t := mk {
  oid : nat;
  date : Z;
  posting_date : option Z;
  description : string;
  merchant : string;
  amount : Decimal;
  reference : option string;
  balance : option Decimal;
  transaction_type : option string
}.

(** [hash]: the first 16 hex digits of the SHA-256 of
    [f"{date.isoformat()}|{description}|{amount}"]. The digest is taken to
    be free of collisions, so it is the text that is hashed; the text is
    read back uniquely (neither the ISO date nor the printed amount holds
    a bar), so it is the three fields. *)
Definition Digest : Type := Z * string * Decimal.

Definition hash (self : t) : Digest := (date self, description self, amount self).
End ParsedTransaction.

Inductive Reason :=
| Exact_hash_match
| Same_date
| Within_days (date_diff : Z)
| Exact_amount_match
| Amount_within_tolerance (amount_tolerance : Q)
| Description_similar (desc_similarity : float)
| Same_merchant
| Same_reference_number.

Module DuplicateMatch.
Record t := mk {
  transaction : ParsedTransaction.t;
  matched_with : ParsedTransaction.t;
  confidence : float;
  match_reasons : list Reason;
  is_likely_duplicate : bool
}.
End DuplicateMatch.

(** [stats]; [duplicate_rate] is [None] if the division raised. *)
Module Stats.
Record t := mk {
  total_checked : nat;
  unique : nat;
  potential_duplicates : nat;
  definite_duplicates : nat;
  duplicate_rate : option Q
}.
End Stats.

Module DeduplicationResult.
Record t := mk {
  unique_transactions : list ParsedTransaction.t;
  potential_duplicates : list DuplicateMatch.t;
  definite_duplicates : list DuplicateMatch.t;
  stats : Stats.t
}.
End DeduplicationResult.

(** Keys of [_transaction_index]: [inl n] is the amount key
    [str(int(abs(amount)))], a run of digits, and [inr d] the date key
    ["%Y-%m-%d"] of calendar day [d]; the two kinds of text never meet. *)
Abbreviation IndexKey := (Z + Z)%type.

Module DuplicateDetector.
Record t := mk {
  date_tolerance : Z;
  amount_tolerance : Q;
  _seen_hashes : gset ParsedTransaction.Digest;
  _transaction_index : gmap IndexKey (list ParsedTransaction.t)
}.
End DuplicateDetector.

Definition HIGH_CONFIDENCE_THRESHOLD : float := 0.9%float.
Definition MEDIUM_CONFIDENCE_THRESHOLD : float := 0.7%float.

(** [DuplicateDetector(date_tolerance_days, amount_tolerance_percent)];
    the second argument is the value of [Decimal(str(...))]. *)
Definition init (date_tolerance_days : Z) (amount_tolerance_percent : Q) : DuplicateDetector.t :=
  DuplicateDetector.mk date_tolerance_days amount_tolerance_percent ∅ ∅.

Definition microseconds_per_day : Z := 86400000000.

(** [(a - b).days]: timedeltas are normalised with a floor. *)
Definition timedelta_days (a b : Z) : Z := ((a - b) / microseconds_per_day)%Z.

Definition amount_key (txn : ParsedTransaction.t) : IndexKey :=
  inl (Qfloor (dabs (dval (ParsedTransaction.amount txn)))).

Definition date_key (txn : ParsedTransaction.t) : IndexKey :=
  inr (ParsedTransaction.date txn / microseconds_per_day)%Z.

Definition index_append (key : IndexKey) (txn : ParsedTransaction.t)
    (index : gmap IndexKey (list ParsedTransaction.t)) : gmap IndexKey (list ParsedTransaction.t) :=
  <[ key := default [] (index !! key) ++ [txn] ]> index.

Definition _build_index (self : DuplicateDetector.t) (transactions : list ParsedTransaction.t)
    : DuplicateDetector.t :=
  DuplicateDetector.mk (DuplicateDetector.date_tolerance self)
    (DuplicateDetector.amount_tolerance self)
    (DuplicateDetector._seen_hashes self)
    (fold_left (fun index txn => index_append (date_key txn) txn (index_append (amount_key txn) txn index))
       transactions ∅).

Definition float_of_nat (n : nat) : float := PrimFloat.of_uint63 (Uint63.of_Z (Z.of_nat n)).

Definition _string_similarity (s1 s2 : string) : float :=
  if bool_decide (s1 = EmptyString) || bool_decide (s2 = EmptyString) then 0.0%float
  else
    let words1 : gset string := list_to_set (split s1) in
    let words2 : gset string := list_to_set (split s2) in
    if bool_decide (words1 = ∅) || bool_decide (words2 = ∅) then 0.0%float
    else
      let intersection := size (words1 ∩ words2) in
      let union := size (words1 ∪ words2) in
      if (0 <? union)%nat then (float_of_nat intersection / float_of_nat union)%float
      else 0.0%float.

(** [min(confidence, 1.0)] returns its first argument unless the second is
    smaller. *)
Definition min (a b : float) : float := if PrimFloat.ltb b a then b else a.

Definition nonempty (s : string) : bool := negb (bool_decide (s = EmptyString)).

(** [_compare_transactions] threads [confidence] and [reasons] through six
    numbered steps; each step below takes and returns the pair. *)
Abbreviation Score := (float * list Reason)%type.

(** Step 2, after the date gate: same date or within the tolerance. *)
Definition date_signal (date_diff : Z) : Score :=
  if (date_diff =? 0)%Z then ((0.0 + 0.3)%float, [Same_date])
  else ((0.0 + 0.1)%float, [Within_days date_diff]).

(** Step 3: the amount, exact, within tolerance, or too different ([None]). *)
Definition amount_signal (self : DuplicateDetector.t) (txn1 txn2 : ParsedTransaction.t)
    (score : Score) : option Score :=
  let '(confidence, reasons) := score in
  let amount_diff :=
    dabs (dsub (dval (ParsedTransaction.amount txn1)) (dval (ParsedTransaction.amount txn2))) in
  let tolerance :=
    dmul (dabs (dval (ParsedTransaction.amount txn1))) (DuplicateDetector.amount_tolerance self) in
  if Qeq_bool amount_diff 0 then Some ((confidence + 0.4)%float, reasons ++ [Exact_amount_match])
  else if Qle_bool amount_diff tolerance
  then Some ((confidence + 0.2)%float,
             reasons ++ [Amount_within_tolerance (DuplicateDetector.amount_tolerance self)])
  else None.

(** Step 4: description similarity. *)
Definition description_signal (txn1 txn2 : ParsedTransaction.t) (score : Score) : Score :=
  let '(confidence, reasons) := score in
  let desc_similarity :=
    _string_similarity (lower (ParsedTransaction.description txn1))
                       (lower (ParsedTransaction.description txn2)) in
  if PrimFloat.ltb 0.8 desc_similarity
  then ((confidence + 0.3)%float, reasons ++ [Description_similar desc_similarity])
  else if PrimFloat.ltb 0.5 desc_similarity
  then ((confidence + 0.15)%float, reasons ++ [Description_similar desc_similarity])
  else (confidence, reasons).

(** Step 5: merchant match. *)
Definition merchant_signal (txn1 txn2 : ParsedTransaction.t) (score : Score) : Score :=
  let '(confidence, reasons) := score in
  if nonempty (ParsedTransaction.merchant txn1) && nonempty (ParsedTransaction.merchant txn2)
  then
    let merchant_similarity :=
      _string_similarity (lower (ParsedTransaction.merchant txn1))
                         (lower (ParsedTransaction.merchant txn2)) in
    if PrimFloat.ltb 0.8 merchant_similarity
    then ((confidence + 0.2)%float, reasons ++ [Same_merchant])
    else (confidence, reasons)
  else (confidence, reasons).

(** Step 6: reference number, if both have one. *)
Definition reference_signal (txn1 txn2 : ParsedTransaction.t) (score : Score) : Score :=
  let '(confidence, reasons) := score in
  if truthy (ParsedTransaction.reference txn1) && truthy (ParsedTransaction.reference txn2)
  then
    if bool_decide (ParsedTransaction.reference txn1 = ParsedTransaction.reference txn2)
    then ((confidence + 0.3)%float, reasons ++ [Same_reference_number])
    else (confidence, reasons)
  else (confidence, reasons).

(** The end of the function: report from the medium threshold on. *)
Definition verdict (txn1 txn2 : ParsedTransaction.t) (score : Score) : option DuplicateMatch.t :=
  let '(confidence, reasons) := score in
  if PrimFloat.leb MEDIUM_CONFIDENCE_THRESHOLD confidence
  then Some (DuplicateMatch.mk txn1 txn2 (min confidence 1.0) reasons
               (PrimFloat.leb HIGH_CONFIDENCE_THRESHOLD confidence))
  else None.

Definition _compare_transactions (self : DuplicateDetector.t)
    (txn1 txn2 : ParsedTransaction.t) : option DuplicateMatch.t :=
  if (ParsedTransaction.oid txn1 =? ParsedTransaction.oid txn2)%nat then None
  else if bool_decide (ParsedTransaction.hash txn1 = ParsedTransaction.hash txn2)
  then Some (DuplicateMatch.mk txn1 txn2 1.0%float [Exact_hash_match] true)
  else
    let date_diff := Z.abs (timedelta_days (ParsedTransaction.date txn1) (ParsedTransaction.date txn2)) in
    if (DuplicateDetector.date_tolerance self <? date_diff)%Z then None
    else
      match amount_signal self txn1 txn2 (date_signal date_diff) with
      | None => None
      | Some score =>
        verdict txn1 txn2
          (reference_signal txn1 txn2
             (merchant_signal txn1 txn2 (description_signal txn1 txn2 score)))
      end.

Definition check_single (self : DuplicateDetector.t) (transaction : ParsedTransaction.t)
    (existing_transactions : list ParsedTransaction.t) : option DuplicateMatch.t :=
  first_some (_compare_transactions self transaction) existing_transactions.

Definition bucket_ids (self : DuplicateDetector.t) (key : IndexKey) : gset nat :=
  list_to_set (map ParsedTransaction.oid (default [] (DuplicateDetector._transaction_index self !! key))).

Definition _find_duplicate (self : DuplicateDetector.t) (transaction : ParsedTransaction.t)
    (candidates : list ParsedTransaction.t) : option DuplicateMatch.t :=
  let indexed_candidates : gset nat :=
    bucket_ids self (amount_key transaction) ∪ bucket_ids self (date_key transaction) in
  let filtered_candidates :=
    List.filter (fun c => bool_decide (ParsedTransaction.oid c ∈ indexed_candidates)
                          || (length candidates <? 100)%nat) candidates in
  first_some (_compare_transactions self transaction) filtered_candidates.

(** The three lists of the result while the batch is walked. *)
Record Sorting := mkSorting {
  unique_transactions : list ParsedTransaction.t;
  potential_duplicates : list DuplicateMatch.t;
  definite_duplicates : list DuplicateMatch.t
}.

Definition file_match (result : Sorting) (m : DuplicateMatch.t) : Sorting :=
  if PrimFloat.leb HIGH_CONFIDENCE_THRESHOLD (DuplicateMatch.confidence m)
  then mkSorting (unique_transactions result) (potential_duplicates result)
         (definite_duplicates result ++ [m])
  else mkSorting (unique_transactions result) (potential_duplicates result ++ [m])
         (definite_duplicates result).

Definition check_step (self : DuplicateDetector.t) (all_to_compare : list ParsedTransaction.t)
    (result : Sorting) (txn : ParsedTransaction.t) : Sorting :=
  match _find_duplicate self txn all_to_compare with
  | Some m => file_match result m
  | None =>
    match _find_duplicate self txn (unique_transactions result) with
    | Some batch_match => file_match result batch_match
    | None => mkSorting (unique_transactions result ++ [txn]) (potential_duplicates result)
                (definite_duplicates result)
    end
  end.

Definition sort_batch (self : DuplicateDetector.t) (transactions all_to_compare : list ParsedTransaction.t)
    : Sorting :=
  fold_left (check_step self all_to_compare) transactions (mkSorting [] [] []).

(** [check_batch]; the detector is returned with the index it has built. *)
Definition check_batch (self : DuplicateDetector.t) (transactions : list ParsedTransaction.t)
    (existing_transactions : option (list ParsedTransaction.t))
    : DeduplicationResult.t * DuplicateDetector.t :=
  let all_to_compare := default [] existing_transactions in
  let self := _build_index self all_to_compare in
  let result := sort_batch self transactions all_to_compare in
  let total := length transactions in
  let duplicates := (length (potential_duplicates result) + length (definite_duplicates result))%nat in
  (DeduplicationResult.mk (unique_transactions result) (potential_duplicates result)
     (definite_duplicates result)
     (Stats.mk total (length (unique_transactions result))
        (length (potential_duplicates result)) (length (definite_duplicates result))
        (if (0 <? total)%nat then truediv (Z.of_nat duplicates) (Z.of_nat total) else Some 0%Q)),
   self).

Definition reset (self : DuplicateDetector.t) : DuplicateDetector.t :=
  DuplicateDetector.mk (DuplicateDetector.date_tolerance self)
    (DuplicateDetector.amount_tolerance self) ∅ ∅.

End Card.

(** ** Concrete inputs *)

Module Examples.
Import Py.

Definition noon : Bank.Today := Bank.mkToday 0 30.

Definition bank_line (id : string) (date amount : Z) (reference : option string)
    : Bank.BankTransaction.t :=
  Bank.BankTransaction.mk id date "" (dec amount) None reference "".

Definition book_line (id : string) (date amount : Z) (reference : option string)
    : Bank.BookTransaction.t :=
  Bank.BookTransaction.mk id date "" (dec amount) "" "" "solaire" reference "" false.

Definition run (self : Bank.BankReconciliation.t)
    (bank : list Bank.BankTransaction.t) (book : list Bank.BookTransaction.t)
    : Bank.ReconciliationResult.t :=
  Bank.reconcile self noon "solaire" "UB001" bank book (Some 1%Z) (Some 31%Z)
    (dec 0) (dec 0) (dec 0) (dec 0).

(** The payroll transfer of the reference test: one day apart, same
    reference. *)
Definition payroll_bank := bank_line "BT001" 16 50000 (Some "PAY001"%string).
Definition payroll_book := book_line "TX001" 15 50000 (Some "PAY001"%string).


(** Two bank lines competing for the same book entries. *)
Definition rival_banks := [bank_line "B1" 10 1000 None; bank_line "B2" 10 1015 None].
Definition rival_books := [book_line "Kx" 10 1010 None; book_line "Ky" 11 1000 None].

Definition half_percent : Bank.BankReconciliation.t := Bank.BankReconciliation.mk 3 (5 # 1000).
Definition same_day : Bank.BankReconciliation.t := Bank.BankReconciliation.mk 0 (1 # 100).

(** What the default engine commits for the rivals: the first bank line
    takes the book entry of the same day. *)
Definition rival_pair : Bank.MatchedTransaction.t :=
  Bank._create_match (bank_line "B1" 10 1000 None) (book_line "Kx" 10 1010 None)
    Bank.AMOUNT_ONLY (95 # 100).

(** Two candidates one day off, ten and one peso away. *)
Definition tied_bank := bank_line "B1" 10 1000 None.
Definition tied_far := book_line "K1" 9 990 None.
Definition tied_near := book_line "K2" 9 999 None.


Definition zero_bank := bank_line "B0" 10 0 None.
Definition zero_book := book_line "K0" 10 0 None.


Definition midnight (day : Z) : Z := (day * Card.microseconds_per_day)%Z.

Definition card_line (oid : nat) (day amount : Z) (description merchant : string)
    (reference : option string) : Card.ParsedTransaction.t :=
  Card.ParsedTransaction.mk oid (midnight day) None description merchant (dec amount)
    reference None None.

Definition detector : Card.DuplicateDetector.t := Card.init 1 (1 # 100).
Definition strict_detector : Card.DuplicateDetector.t := Card.init 1 (5 # 1000).
Definition same_day_detector : Card.DuplicateDetector.t := Card.init 0 (1 # 100).

(** Three parses of one statement line. *)
Definition coffee (oid : nat) : Card.ParsedTransaction.t :=
  card_line oid 15 500 "PURCHASE - JOLLIBEE MAKATI" "JOLLIBEE MAKATI" None.

Definition coffee_with_reference : Card.ParsedTransaction.t :=
  card_line 9 15 500 "PURCHASE - JOLLIBEE MAKATI" "JOLLIBEE MAKATI" (Some "R-77"%string).


(** A chain of near-duplicates: the second is within 1% of the first, the
    last two are within 0.5% of the second and far from everything else. *)
Definition chain : list Card.ParsedTransaction.t :=
  [card_line 1 0 1010 "x" "m" (Some "r"%string);
   card_line 2 0 1000 "x" "m" (Some "r"%string);
   card_line 3 1 996 "x" "m" (Some "r"%string);
   card_line 4 (-1) 996 "x" "m" (Some "r"%string)].

(** The same idea along the date: the second is a day after the first. *)
Definition day_chain : list Card.ParsedTransaction.t :=
  [card_line 1 0 1008 "a" "m" (Some "r"%string);
   card_line 2 1 1000 "b" "m" (Some "r"%string);
   card_line 3 1 992 "b" "m" (Some "r"%string);
   card_line 4 1 1008 "b" "" None].

(** One hundred purchases ten days apart from each other, and then the
    first one again, parsed a second time. *)
Definition spaced (n : nat) : list Card.ParsedTransaction.t :=
  map (fun i => card_line i (10 * Z.of_nat i) 100 "x" "" None) (seq 0 n).

Definition first_again : Card.ParsedTransaction.t := card_line 100 0 100 "x" "" None.

Definition long_batch : list Card.ParsedTransaction.t := spaced 100 ++ [first_again].
Definition short_batch : list Card.ParsedTransaction.t := spaced 99 ++ [first_again].

End Examples.

(** ** The loop state of [reconcile] as a transition system *)

Module BankState.
Import Py Bank.

Definition bank_id (m : MatchedTransaction.t) : string :=
  BankTransaction.id (MatchedTransaction.bank_txn m).

Definition book_id (m : MatchedTransaction.t) : string :=
  BookTransaction.id (MatchedTransaction.book_txn m).

(** The id sets are the ids of the committed pairs, each of them once. *)
Definition tracked (st : Progress) : Prop :=
  (forall x, x ∈ matched_bank_ids st <-> x ∈ map bank_id (so_far st)) /\
  (forall x, x ∈ matched_book_ids st <-> x ∈ map book_id (so_far st)) /\
  NoDup (map bank_id (so_far st)) /\
  NoDup (map book_id (so_far st)).

(** [grows P st st']: [st'] is reached from [st] by committing pairs that
    satisfy [P] and whose two ids were free at the time. *)
Inductive grows (P : MatchedTransaction.t -> Prop) : Progress -> Progress -> Prop :=
| grows_refl st : grows P st st
| grows_commit st st' m :
    grows P st st' ->
    bank_id m ∉ matched_bank_ids st' ->
    book_id m ∉ matched_book_ids st' ->
    P m ->
    grows P st (commit st' m).

(** Where a committed pair comes from: the reference phase, or
    [_try_match] on the pair itself. *)
Definition by_reference (m : MatchedTransaction.t) : Prop :=
  MatchedTransaction.match_type m = REFERENCE /\ MatchedTransaction.confidence m = 9 # 10.

Definition by_try_match (self : BankReconciliation.t) (m : MatchedTransaction.t) : Prop :=
  _try_match self (MatchedTransaction.bank_txn m) (MatchedTransaction.book_txn m) = Some m.

Definition origin (self : BankReconciliation.t) (m : MatchedTransaction.t) : Prop :=
  by_reference m \/ by_try_match self m.

(** The two hard gates on a committed pair, the tolerance as the engine
    computes it. *)
Definition within_gates (self : BankReconciliation.t) (m : MatchedTransaction.t) : Prop :=
  (MatchedTransaction.date_diff_days m <= BankReconciliation.DATE_TOLERANCE_DAYS self)%Z /\
  (MatchedTransaction.amount_diff m <=
     dmul (dabs (dval (BankTransaction.amount (MatchedTransaction.bank_txn m))))
       (BankReconciliation.AMOUNT_TOLERANCE_PERCENT self))%Q.


(** The sorted lists, as far as the date goes. *)
Definition book_by_date (x y : BookTransaction.t) : Prop :=
  (BookTransaction.date x <= BookTransaction.date y)%Z.

Definition bank_by_date (x y : BankTransaction.t) : Prop :=
  (BankTransaction.date x <= BankTransaction.date y)%Z.

(** Two runs of phase 3 side by side, one with a tighter date tolerance.
    [dead tight books day]: the ids of the book entries that a bank
    transaction of [day] or later can no longer reach under the tighter
    tolerance. [lagging]: the tight run holds no more book entries that the
    wide run has left free than the wide run holds dead entries that the
    tight run has left free. *)
Definition dead (tight : BankReconciliation.t) (books : list BookTransaction.t) (day : Z)
    : gset string :=
  list_to_set (map BookTransaction.id
    (List.filter
       (fun k => (BookTransaction.date k <? day - BankReconciliation.DATE_TOLERANCE_DAYS tight)%Z)
       books)).

Definition lagging (tight : BankReconciliation.t) (books : list BookTransaction.t) (day : Z)
    (sT sW : Progress) : Prop :=
  size (matched_book_ids sT ∖ matched_book_ids sW) <=
  size ((matched_book_ids sW ∖ matched_book_ids sT) ∩ dead tight books day).

End BankState.

(** ** What [check_batch] reports *)

Module CardState.
Import Py Card.

(** The reports of a run, potential and definite alike. *)
Definition reported (result : Sorting) : list DuplicateMatch.t :=
  potential_duplicates result ++ definite_duplicates result.

Definition duplicates (result : DeduplicationResult.t) : list DuplicateMatch.t :=
  DeduplicationResult.potential_duplicates result ++ DeduplicationResult.definite_duplicates result.

Definition new_side (m : DuplicateMatch.t) : nat :=
  ParsedTransaction.oid (DuplicateMatch.transaction m).

Definition counterpart (m : DuplicateMatch.t) : nat :=
  ParsedTransaction.oid (DuplicateMatch.matched_with m).

(** Every transaction of the batch so far, as the new side of a report or
    as an accepted unique transaction. *)
Definition placed (result : Sorting) : list nat :=
  map new_side (reported result) ++ map ParsedTransaction.oid (unique_transactions result).

(** The date difference as the detector measures it, in whole days. *)
Definition days_apart (txn1 txn2 : ParsedTransaction.t) : Z :=
  Z.abs (timedelta_days (ParsedTransaction.date txn1) (ParsedTransaction.date txn2)).

(** The amount difference as the detector computes it. *)
Definition amount_apart (txn1 txn2 : ParsedTransaction.t) : Q :=
  dabs (dsub (dval (ParsedTransaction.amount txn1)) (dval (ParsedTransaction.amount txn2))).

(** The two hard gates on a reported pair, the tolerance as the detector
    computes it. *)
Definition within_gates (self : DuplicateDetector.t) (m : DuplicateMatch.t) : Prop :=
  (days_apart (DuplicateMatch.transaction m) (DuplicateMatch.matched_with m)
     <= DuplicateDetector.date_tolerance self)%Z /\
  (amount_apart (DuplicateMatch.transaction m) (DuplicateMatch.matched_with m)
     <= dmul (dabs (dval (ParsedTransaction.amount (DuplicateMatch.transaction m))))
          (DuplicateDetector.amount_tolerance self))%Q.

(** The report of a content-hash hit. *)
Definition hash_hit (txn1 txn2 : ParsedTransaction.t) : DuplicateMatch.t :=
  DuplicateMatch.mk txn1 txn2 1.0%float [Exact_hash_match] true.

End CardState.

(** ** bank/reconciliation.py: totals and the database entry point *)

Module BankDerived.
Import Py Bank.





(** A row of the query of [_fetch_book_transactions]; [description] may be
    NULL, [amount] is the value of [Decimal(str(row["amount"]))]. *)
Module Row.
Record t := mk {
  id : string;
  txn_date : Z;
  description : option string;
  amount : Decimal;
  account_code : string;
  account_name : string;
  entity : string;
  source : string
}.
End Row.

(** The connection: what the query returns for an entity and a period, or
    [None] when the cursor raises. *)
Abbreviation Database := (string -> Z -> Z -> option (list Row.t)).

Definition book_of_row (row : Row.t) : BookTransaction.t :=
  BookTransaction.mk (Row.id row) (Row.txn_date row)
    (match Row.description row with
     | Some (String c s) => String c s
     | _ => EmptyString
     end)
    (Row.amount row) (Row.account_code row) (Row.account_name row) (Row.entity row)
    None (Row.source row) false.

Definition _fetch_book_transactions (db : option Database) (entity : string)
    (period_start period_end : Z) : list BookTransaction.t :=
  match db with
  | None => []
  | Some query =>
    match query entity period_start period_end with
    | Some rows => map book_of_row rows
    | None => []
    end
  end.

(** [bank_transactions[-1].balance] if there is one and it is not zero. *)
Definition closing_balance (bank_transactions : list BankTransaction.t) : Decimal :=
  match last bank_transactions with
  | Some bank_txn =>
    match BankTransaction.balance bank_txn with
    | Some balance => if Qeq_bool (dval balance) 0 then dec 0 else balance
    | None => dec 0
    end
  | None => dec 0
  end.

(** [auto_reconcile_from_db]; [None] is the [ValueError] raised without a
    database connection. *)
Definition auto_reconcile_from_db (self : BankReconciliation.t) (db : option Database)
    (clock : Today) (entity account : string) (bank_transactions : list BankTransaction.t)
    (period_start period_end : Z) : option ReconciliationResult.t :=
  match db with
  | None => None
  | Some _ =>
    let book_transactions := _fetch_book_transactions db entity period_start period_end in
    let bank_closing := closing_balance bank_transactions in
    Some (reconcile self clock entity account bank_transactions book_transactions
            (Some period_start) (Some period_end) (dec 0) bank_closing (dec 0) (dec 0))
  end.

(** What is recorded with a committed pair, by match type. *)
Definition recorded (self : BankReconciliation.t) (m : MatchedTransaction.t) : Prop :=
  let bank_txn := MatchedTransaction.bank_txn m in
  let book_txn := MatchedTransaction.book_txn m in
  MatchedTransaction.date_diff_days m = days_apart bank_txn book_txn /\
  MatchedTransaction.amount_diff m =
    dabs (dsub (dval (BankTransaction.amount bank_txn)) (dval (BookTransaction.amount book_txn))) /\
  MatchedTransaction.notes m = EmptyString /\
  match MatchedTransaction.match_type m with
  | EXACT =>
    MatchedTransaction.confidence m = 1%Q /\ days_apart bank_txn book_txn = 0%Z /\
    (dval (BankTransaction.amount bank_txn) == dval (BookTransaction.amount book_txn))%Q
  | AMOUNT_ONLY =>
    MatchedTransaction.confidence m = 95 # 100 /\ days_apart bank_txn book_txn = 0%Z /\
    ~ (dval (BankTransaction.amount bank_txn) == dval (BookTransaction.amount book_txn))%Q
  | FUZZY =>
    MatchedTransaction.confidence m = max (7 # 10) (1 - inject_Z (days_apart bank_txn book_txn) * (1 # 10)) /\
    (0 < days_apart bank_txn book_txn <= BankReconciliation.DATE_TOLERANCE_DAYS self)%Z
  | REFERENCE =>
    MatchedTransaction.confidence m = 9 # 10 /\
    truthy (BankTransaction.reference bank_txn) = true /\
    truthy (BookTransaction.reference book_txn) = true /\
    contains (default EmptyString (BankTransaction.reference bank_txn))
             (default EmptyString (BookTransaction.reference book_txn)) = true
  | DESCRIPTION => False
  end.

(** A pair committed in a run over [banks] and [books]. *)
Definition committed (self : BankReconciliation.t) (banks : list BankTransaction.t)
    (books : list BookTransaction.t) (m : MatchedTransaction.t) : Prop :=
  MatchedTransaction.bank_txn m ∈ banks /\ MatchedTransaction.book_txn m ∈ books /\
  recorded self m.

(** The date of either side. *)
Definition transaction_date (x : BankTransaction.t + BookTransaction.t) : Z :=
  match x with
  | inl bank_txn => BankTransaction.date bank_txn
  | inr book_txn => BookTransaction.date book_txn
  end.

(** No free bank transaction of [banks] has an exact match among the free
    book transactions of [books]. *)
Definition exacts_used (self : BankReconciliation.t) (banks : list BankTransaction.t)
    (books : list BookTransaction.t) (st : Progress) : Prop :=
  forall b k m, b ∈ banks -> k ∈ books ->
    BankTransaction.id b ∉ matched_bank_ids st ->
    BookTransaction.id k ∉ matched_book_ids st ->
    _try_match self b k = Some m -> MatchedTransaction.match_type m <> EXACT.

End BankDerived.

(** ** card_processor/csv_parsers/base.py: the parse result *)

Module Statement.
Import Py Card.


(** [summary] as [_post_process] fills it; the source stores the [float(...)]
    of the three amounts, which are kept exact here. *)
Module Summary.
Record t := mk {
  total_transactions : nat;
  total_debits : Q;
  total_credits : Q;
  net_amount : Q
}.
End Summary.

Module ParseResult.
Record t := mk {
  bank : string;
  account_last_four : option string;
  statement_period_start : option Z;
  statement_period_end : option Z;
  transactions : list ParsedTransaction.t;
  summary : option Summary.t;
  errors : list string;
  warnings : list string
}.


Definition total_debits (self : t) : Q :=
  fold_left (fun acc a => (acc + a)%Q)
    (map (fun txn => dval (ParsedTransaction.amount txn))
       (List.filter (fun txn => Qlt_bool 0 (dval (ParsedTransaction.amount txn))) (transactions self)))
    0%Q.

Definition total_credits (self : t) : Q :=
  Qabs (fold_left (fun acc a => (acc + a)%Q)
    (map (fun txn => dval (ParsedTransaction.amount txn))
       (List.filter (fun txn => Qlt_bool (dval (ParsedTransaction.amount txn)) 0) (transactions self)))
    0%Q).
End ParseResult.

(** [result.transactions.sort(key=lambda t: t.date)]. *)
Definition earlier (y x : ParsedTransaction.t) : bool :=
  (ParsedTransaction.date y <? ParsedTransaction.date x)%Z.


(** File content as its UTF-8 bytes: the byte order mark U+FEFF, one
    character of the content, is the three bytes EF BB BF, and the bytes of
    a carriage return and of a line feed occur in no other character. *)
Definition BOM : string :=
  String (ascii_of_nat 239) (String (ascii_of_nat 187) (String (ascii_of_nat 191) EmptyString)).

Definition CR : ascii := ascii_of_nat 13.
Definition LF : ascii := ascii_of_nat 10.

(** [content.replace('\r\n', '\n')]. *)
Fixpoint replace_crlf (content : string) : string :=
  match content with
  | EmptyString => EmptyString
  | String c rest =>
    match rest with
    | String c' rest' =>
      if Ascii.eqb c CR && Ascii.eqb c' LF then String LF (replace_crlf rest')
      else String c (replace_crlf rest)
    | EmptyString => String c EmptyString
    end
  end.

(** [content.replace('\r', '\n')]. *)
Fixpoint replace_cr (content : string) : string :=
  match content with
  | EmptyString => EmptyString
  | String c rest => String (if Ascii.eqb c CR then LF else c) (replace_cr rest)
  end.

Definition _preprocess_content (content : string) : string :=
  let content :=
    if String.prefix BOM content
    then match content with
         | String _ (String _ (String _ rest)) => rest
         | _ => content
         end
    else content in
  replace_cr (replace_crlf content).

(** The bytes of a text. *)
Definition bytes (content : string) : list ascii := list_ascii_of_string content.

End Statement.

(** ** card_processor/duplicate_detector.py: what the proofs speak of *)

Module CardDerived.
Import Py Card.

(** What the end of [_compare_transactions] makes of a raw confidence that
    reaches the medium threshold: the reported value [min(confidence, 1.0)]
    is between the threshold and 1.0 and is on the same side of the high
    threshold as the raw value. *)
Definition well_capped (confidence : float) : bool :=
  implb (PrimFloat.leb MEDIUM_CONFIDENCE_THRESHOLD confidence)
    (PrimFloat.leb MEDIUM_CONFIDENCE_THRESHOLD (min confidence 1.0) &&
     PrimFloat.leb (min confidence 1.0) 1.0 &&
     Bool.eqb (PrimFloat.leb HIGH_CONFIDENCE_THRESHOLD (min confidence 1.0))
              (PrimFloat.leb HIGH_CONFIDENCE_THRESHOLD confidence)).

(** The transactions of [txns] filed under [key] by [_build_index]. *)
Definition filed_under (key : IndexKey) (txns : list ParsedTransaction.t)
    : list ParsedTransaction.t :=
  List.filter (fun txn => bool_decide (amount_key txn = key) || bool_decide (date_key txn = key)) txns.

(** A unique list without duplicates: no member is reported against a
    transaction of [all], nor against a member that comes before it. *)
Definition clean (self : DuplicateDetector.t) (all unique : list ParsedTransaction.t) : Prop :=
  (forall u e, u ∈ unique -> e ∈ all -> _compare_transactions self u e = None) /\
  (forall i j u v, (i < j)%nat -> unique !! i = Some u -> unique !! j = Some v ->
     _compare_transactions self v u = None).

End CardDerived.
(** ** More concrete inputs *)

Module Scenarios.
Import Py Examples.

(** A bank line whose only book entry of the same amount is ten days late. *)
Definition late_bank := bank_line "B9" 10 1000 None.
Definition late_book := book_line "K9" 20 1000 None.

Definition late_item : Bank.UnmatchedItem.t :=
  Bank.UnmatchedItem.mk (inl late_bank) "bank" Bank.MANUAL_REVIEW
    [Bank.PossibleMatch.mk "K9" (dec 1000) 20 "" 10] "".

(** Two rows of the ledger, the second without a description. *)
Definition ledger : BankDerived.Database :=
  fun entity period_start period_end =>
    Some [BankDerived.Row.mk "TX001" 15 (Some "Payroll"%string) (dec 50000) "6000" "Salaries"
            entity "payroll";
          BankDerived.Row.mk "TX002" 16 None (dec 120) "6100" "Fees" entity "bank"].

(** A statement line with its running balance. *)
Definition balance_line (id : string) (date amount balance : Z) : Bank.BankTransaction.t :=
  Bank.BankTransaction.mk id date "" (dec amount) (Some (dec balance)) None "".

(** Another purchase of the same day, far off in amount. *)
Definition lunch : Card.ParsedTransaction.t := card_line 3 15 900 "LUNCH" "" None.

(** A purchase of the same day and amount as the coffee, elsewhere. *)
Definition tea : Card.ParsedTransaction.t := card_line 4 15 500 "TEA HOUSE ORTIGAS" "" None.

End Scenarios.

(** ** Facts about the primitives *)

Module PyFacts.
Import Py.

Lemma Qlt_bool_iff (x y : Q) : Qlt_bool x y = true <-> (x < y)%Q.
Proof.
  unfold Qlt_bool. rewrite negb_true_iff. split.
  - intros H. apply Qnot_le_lt. intros Hle. apply Qle_bool_iff in Hle. congruence.
  - intros H. destruct (Qle_bool y x) eqn:E; [|reflexivity].
    apply Qle_bool_iff in E. exfalso. exact (Qlt_not_le _ _ H E).
Qed.

Lemma Qlt_bool_false (x y : Q) : Qlt_bool x y = false <-> (y <= x)%Q.
Proof.
  unfold Qlt_bool. rewrite negb_false_iff. apply Qle_bool_iff.
Qed.

Lemma Qle_bool_false (x y : Q) : Qle_bool x y = false -> (y < x)%Q.
Proof.
  intros H. apply Qnot_le_lt. intros Hle. apply Qle_bool_iff in Hle. congruence.
Qed.

Lemma truediv_is_Some (a b : Z) : b ≠ 0%Z -> is_Some (truediv a b).
Proof.
  intros Hb. unfold truediv. destruct (Z.eqb_spec b 0); [contradiction|eauto].
Qed.

(** A scan that stops at the first result: where the result comes from. *)
Lemma first_some_Some {A B} (f : A -> option B) (l : list A) (y : B) :
  first_some f l = Some y ->
  exists pre x post, l = pre ++ x :: post /\ f x = Some y /\ Forall (fun z => f z = None) pre.
Proof.
  induction l as [|x l IH]; simpl; [discriminate|].
  destruct (f x) as [y'|] eqn:E.
  - intros [= <-]. exists [], x, l. auto.
  - intros H. destruct (IH H) as (pre & x' & post & -> & Hx' & Hpre).
    exists (x :: pre), x', post. auto.
Qed.

Lemma first_some_elem {A B} (f : A -> option B) (l : list A) (y : B) :
  first_some f l = Some y -> exists x, x ∈ l /\ f x = Some y.
Proof.
  intros H. destruct (first_some_Some f l y H) as (pre & x & post & -> & Hx & _).
  exists x. split; [|exact Hx]. apply elem_of_app. right. apply elem_of_cons. auto.
Qed.

Lemma first_some_is_Some {A B} (f : A -> option B) (l : list A) (x : A) :
  x ∈ l -> is_Some (f x) -> is_Some (first_some f l).
Proof.
  induction l as [|z l IH]; intros Hin Hx.
  - apply elem_of_nil in Hin. contradiction.
  - simpl. destruct (f z) eqn:E; [eauto|].
    apply elem_of_cons in Hin as [->|Hin]; [|auto].
    rewrite E in Hx. destruct Hx as [? [=]].
Qed.

Lemma first_some_None {A B} (f : A -> option B) (l : list A) :
  first_some f l = None <-> Forall (fun z => f z = None) l.
Proof.
  induction l as [|z l IH]; simpl.
  - split; auto.
  - destruct (f z) eqn:E.
    + split; [discriminate|]. intros H. inversion H; congruence.
    + rewrite IH. split; [auto|]. intros H. inversion H; auto.
Qed.

(** The stable sort keeps the elements. *)
Lemma insert_by_perm {A} (before : A -> A -> bool) (x : A) (l : list A) :
  Permutation (insert_by before x l) (x :: l).
Proof.
  induction l as [|y l IH]; simpl; [reflexivity|].
  destruct (before y x); [|reflexivity].
  rewrite IH. apply perm_swap.
Qed.

Lemma sorted_by_perm {A} (before : A -> A -> bool) (l : list A) :
  Permutation (sorted_by before l) l.
Proof.
  induction l as [|x l IH]; simpl; [reflexivity|].
  rewrite insert_by_perm. apply perm_skip, IH.
Qed.

Lemma sorted_by_elem {A} (before : A -> A -> bool) (l : list A) (x : A) :
  x ∈ sorted_by before l <-> x ∈ l.
Proof. rewrite (sorted_by_perm before l). reflexivity. Qed.

Lemma head_insert_by {A} (before : A -> A -> bool) (x : A) (l : list A) :
  head (insert_by before x l) =
  match head l with
  | Some y => if before y x then Some y else Some x
  | None => Some x
  end.
Proof. destruct l as [|y l]; simpl; [reflexivity|]. destruct (before y x); reflexivity. Qed.


(** Sortedness of the stable sort. *)
Lemma insert_by_sorted {A} (R : relation A) (before : A -> A -> bool) (x : A) (l : list A) :
  Transitive R ->
  (forall y x, before y x = true -> R y x) ->
  (forall y x, before y x = false -> R x y) ->
  StronglySorted R l -> StronglySorted R (insert_by before x l).
Proof.
  intros HR Ht Hf. induction l as [|y l IH]; simpl; intros Hs.
  - repeat constructor.
  - apply StronglySorted_cons in Hs as [Hy Hl].
    destruct (before y x) eqn:E.
    + apply StronglySorted_cons. split; [|auto].
      rewrite (insert_by_perm before x l). constructor; [auto|exact Hy].
    + apply StronglySorted_cons. split.
      * constructor; [auto|]. eapply Forall_impl; [exact Hy|].
        intros z Hz. etransitivity; [apply Hf, E|exact Hz].
      * apply StronglySorted_cons. auto.
Qed.

Lemma sorted_by_sorted {A} (R : relation A) (before : A -> A -> bool) (l : list A) :
  Transitive R ->
  (forall y x, before y x = true -> R y x) ->
  (forall y x, before y x = false -> R x y) ->
  StronglySorted R (sorted_by before l).
Proof.
  intros HR Ht Hf. induction l as [|x l IH]; simpl; [constructor|].
  apply insert_by_sorted; assumption.
Qed.

(** In a list without repetition two elements come in one order only. *)
Lemma NoDup_split_order {A} (p1 q1 p2 q2 : list A) (x y : A) :
  NoDup (p1 ++ x :: q1) -> p1 ++ x :: q1 = p2 ++ y :: q2 -> y ∈ q1 -> x ∈ q2 -> False.
Proof.
  intros Hnd E Hy Hx.
  assert (Hnd2 : NoDup (p2 ++ y :: q2)) by (rewrite <- E; exact Hnd).
  apply NoDup_app in Hnd as (_ & Hp1 & Hxq1). apply NoDup_cons in Hxq1 as [Hxq1 _].
  apply NoDup_app in Hnd2 as (_ & Hp2 & Hyq2). apply NoDup_cons in Hyq2 as [Hyq2 _].
  apply app_eq_app in E as (l & [[-> E]|[-> E]]).
  - destruct l as [|z l]; simpl in E.
    + injection E as -> ->. contradiction.
    + injection E as <- ->. apply (Hp1 y).
      * apply elem_of_app. right. apply elem_of_cons. auto.
      * apply elem_of_cons. auto.
  - destruct l as [|z l]; simpl in E.
    + injection E as -> ->. contradiction.
    + injection E as <- ->. apply (Hp2 x).
      * apply elem_of_app. right. apply elem_of_cons. auto.
      * apply elem_of_cons. auto.
Qed.

(** A [flat_map] of lists with at most one element splits where its image
    splits. *)
Lemma flat_map_split {A B} (f : A -> list B) (l : list A) (a b : list B) (x : B) :
  (forall y, (length (f y) <= 1)%nat) ->
  flat_map f l = a ++ x :: b ->
  exists pre y post, l = pre ++ y :: post /\ flat_map f pre = a /\ f y = [x] /\ flat_map f post = b.
Proof.
  intros Hlen. revert a. induction l as [|z l IH]; intros a E; simpl in E.
  - destruct a; discriminate.
  - pose proof (Hlen z) as Hz. destruct (f z) as [|u [|v r]] eqn:Efz; simpl in *; [| |lia].
    + destruct (IH a E) as (pre & y & post & -> & Ha & Hy & Hb).
      exists (z :: pre), y, post. simpl. rewrite Efz. auto.
    + destruct a as [|u' a]; simpl in E.
      * injection E as -> E. exists [], z, l. auto.
      * injection E as -> E. destruct (IH a E) as (pre & y & post & -> & Ha & Hy & Hb).
        exists (z :: pre), y, post. simpl. rewrite Efz. simpl. rewrite Ha. auto.
Qed.

Lemma max_lower (a b : Q) : (a <= max a b)%Q.
Proof.
  unfold max. destruct (Qlt_bool a b) eqn:E; [|apply Qle_refl].
  apply Qlt_bool_iff in E. apply Qlt_le_weak, E.
Qed.

Lemma max_cases (a b : Q) : (max a b = b /\ (a < b)%Q) \/ (max a b = a /\ (b <= a)%Q).
Proof.
  unfold max. destruct (Qlt_bool a b) eqn:E.
  - left. split; [reflexivity|]. apply Qlt_bool_iff, E.
  - right. split; [reflexivity|]. apply Qlt_bool_false, E.
Qed.

Lemma size_le_between (A A' B B' : gset string) :
  A' ⊆ A -> B ⊆ B' -> size A <= size B -> size A' <= size B'.
Proof.
  intros HA HB Hle. apply subseteq_size in HA, HB. lia.
Qed.

Lemma size_le_swap (A A' B B' : gset string) (x y : string) :
  A' ⊆ {[ x ]} ∪ (A ∖ {[ y ]}) -> y ∈ A -> B ⊆ B' -> size A <= size B -> size A' <= size B'.
Proof.
  intros HA Hy HB Hle. apply subseteq_size in HA, HB.
  rewrite size_union_alt, size_singleton in HA.
  assert (H1 : size ((A ∖ {[ y ]}) ∖ {[ x ]}) <= size (A ∖ {[ y ]})) by (apply subseteq_size; set_solver).
  assert (H2 : size (A ∖ {[ y ]}) = size A - 1).
  { rewrite size_difference by set_solver. rewrite size_singleton. reflexivity. }
  assert (H3 : 0 < size A).
  { apply (Nat.lt_le_trans _ (size ({[ y ]} : gset string))); [rewrite size_singleton; lia|].
    apply subseteq_size. set_solver. }
  lia.
Qed.

Lemma size_le_grow (A A' B B' : gset string) (x y : string) :
  A' ⊆ {[ x ]} ∪ A -> {[ y ]} ∪ B ⊆ B' -> y ∉ B -> size A <= size B -> size A' <= size B'.
Proof.
  intros HA HB Hy Hle. apply subseteq_size in HA, HB.
  rewrite size_union_alt, size_singleton in HA.
  rewrite size_union, size_singleton in HB by set_solver.
  assert (H1 : size (A ∖ {[ x ]}) <= size A) by (apply subseteq_size; set_solver).
  lia.
Qed.

End PyFacts.

(** ** The decimal context *)

Module Rounding.
Import Py PyFacts.

Lemma floor_bounds (r : Q) : (inject_Z (Qfloor r) <= r < inject_Z (Qfloor r) + 1)%Q.
Proof.
  split; [apply Qfloor_le|]. pose proof (Qlt_floor r) as H.
  rewrite inject_Z_plus in H. exact H.
Qed.

Lemma half_even_bounds (r : Q) : (Qfloor r <= half_even r <= Qfloor r + 1)%Z.
Proof.
  unfold half_even. destruct (Qlt_bool _ 1); [lia|].
  destruct (Qlt_bool 1 _); [lia|]. destruct (Z.even _); lia.
Qed.

Lemma half_even_Z (n : Z) : half_even (inject_Z n) = n.
Proof.
  unfold half_even. rewrite Qfloor_Z.
  destruct (Qlt_bool _ 1) eqn:E; [reflexivity|].
  apply Qlt_bool_false in E. exfalso. revert E. generalize (inject_Z n). intros q E. lra.
Qed.

Lemma half_even_low (r : Q) :
  ((r - inject_Z (Qfloor r)) * 2 < 1)%Q -> half_even r = Qfloor r.
Proof.
  intros H. unfold half_even. apply Qlt_bool_iff in H. rewrite H. reflexivity.
Qed.

Lemma half_even_high (r : Q) :
  (1 < (r - inject_Z (Qfloor r)) * 2)%Q -> half_even r = (Qfloor r + 1)%Z.
Proof.
  intros H. unfold half_even.
  assert (E : Qlt_bool ((r - inject_Z (Qfloor r)) * 2) 1 = false).
  { apply Qlt_bool_false. apply Qlt_le_weak, H. }
  rewrite E. apply Qlt_bool_iff in H. rewrite H. reflexivity.
Qed.

Lemma half_even_tie (r : Q) :
  ((r - inject_Z (Qfloor r)) * 2 == 1)%Q ->
  half_even r = if Z.even (Qfloor r) then Qfloor r else (Qfloor r + 1)%Z.
Proof.
  intros H. unfold half_even.
  assert (E1 : Qlt_bool ((r - inject_Z (Qfloor r)) * 2) 1 = false).
  { apply Qlt_bool_false. rewrite H. apply Qle_refl. }
  assert (E2 : Qlt_bool 1 ((r - inject_Z (Qfloor r)) * 2) = false).
  { apply Qlt_bool_false. rewrite H. apply Qle_refl. }
  rewrite E1, E2. reflexivity.
Qed.

Lemma half_even_mono (r s : Q) : (r <= s)%Q -> (half_even r <= half_even s)%Z.
Proof.
  intros Hrs. pose proof (Qfloor_resp_le _ _ Hrs) as Hf.
  pose proof (half_even_bounds r) as Hr. pose proof (half_even_bounds s) as Hs.
  destruct (Z.eq_dec (Qfloor r) (Qfloor s)) as [E|N]; [|lia].
  destruct (Qlt_le_dec ((r - inject_Z (Qfloor r)) * 2) 1) as [Rl|Rh].
  { rewrite (half_even_low r Rl). lia. }
  destruct (Qlt_le_dec 1 ((s - inject_Z (Qfloor s)) * 2)) as [Sh|Sl].
  { rewrite (half_even_high s Sh). lia. }
  assert (Tr : ((r - inject_Z (Qfloor r)) * 2 == 1)%Q).
  { rewrite <- E in Sl. revert Rh Sl. generalize (inject_Z (Qfloor r)). intros q Rh Sl. lra. }
  assert (Ts : ((s - inject_Z (Qfloor s)) * 2 == 1)%Q).
  { rewrite E in Rh. revert Rh Sl. generalize (inject_Z (Qfloor s)). intros q Rh Sl. lra. }
  rewrite (half_even_tie r Tr), (half_even_tie s Ts), E. lia.
Qed.

Lemma ten_pos (e : Z) : (0 < Qpower (10 # 1) e)%Q.
Proof. apply Qpower_0_lt. reflexivity. Qed.

Lemma ten_le (a b : Z) : (a <= b)%Z -> (Qpower (10 # 1) a <= Qpower (10 # 1) b)%Q.
Proof. intros H. apply Qpower_le_compat_l; [exact H|]. discriminate. Qed.

Lemma ten_lt_inv (a b : Z) : (Qpower (10 # 1) a < Qpower (10 # 1) b)%Q -> (a < b)%Z.
Proof. intros H. eapply Qpower_lt_compat_l_inv; [exact H|reflexivity]. Qed.

Lemma ten_plus (a b : Z) :
  (Qpower (10 # 1) (a + b) == Qpower (10 # 1) a * Qpower (10 # 1) b)%Q.
Proof. apply Qpower_plus. discriminate. Qed.

Lemma ten_Z (n : Z) : (0 <= n)%Z -> (inject_Z (10 ^ n) == Qpower (10 # 1) n)%Q.
Proof. intros H. rewrite (Zpower_Qpower 10 n H). reflexivity. Qed.

Lemma leading_spec (fuel : nat) :
  forall (e : Z) (y : Q),
  (y < Qpower (10 # 1) (e + 1))%Q ->
  (Qpower (10 # 1) (e - Z.of_nat fuel) <= y)%Q ->
  (Qpower (10 # 1) (leading fuel e y) <= y < Qpower (10 # 1) (leading fuel e y + 1))%Q.
Proof.
  induction fuel as [|fuel IH]; intros e y Hhi Hlo.
  - simpl. replace (e - Z.of_nat 0)%Z with e in Hlo by lia. auto.
  - cbn [leading]. destruct (Qle_bool (Qpower (10 # 1) e) y) eqn:E.
    + apply Qle_bool_iff in E. auto.
    + apply IH.
      * replace (e - 1 + 1)%Z with e by lia.
        apply Qnot_le_lt. intros H. apply Qle_bool_iff in H. congruence.
      * replace (e - 1 - Z.of_nat fuel)%Z with (e - Z.of_nat (S fuel))%Z by lia. exact Hlo.
Qed.

Lemma two_le_ten (k : Z) : (0 <= k)%Z -> (2 ^ k <= 10 ^ k)%Z.
Proof. intros H. apply Z.pow_le_mono_l. lia. Qed.

Lemma adjusted_spec (y : Q) :
  (0 < y)%Q ->
  (Qpower (10 # 1) (adjusted y) <= y < Qpower (10 # 1) (adjusted y + 1))%Q.
Proof.
  intros Hy. unfold adjusted.
  destruct y as [n d]. cbn [Qnum Qden].
  assert (Hn : (0 < n)%Z) by (unfold Qlt in Hy; simpl in Hy; lia).
  pose proof (Z.log2_nonneg n) as Ln. pose proof (Z.log2_nonneg (Z.pos d)) as Ld.
  destruct (Z.log2_spec n Hn) as [_ Hn2].
  destruct (Z.log2_spec (Z.pos d) ltac:(lia)) as [_ Hd2].
  pose proof (two_le_ten (Z.succ (Z.log2 n)) ltac:(lia)) as Tn.
  pose proof (two_le_ten (Z.succ (Z.log2 (Z.pos d))) ltac:(lia)) as Td.
  apply leading_spec.
  - apply Qlt_le_trans with (Qpower (10 # 1) (Z.log2 n + 1)); [|apply ten_le; lia].
    rewrite <- ten_Z by lia.
    apply Qle_lt_trans with (inject_Z n).
    + unfold Qle, inject_Z. simpl. nia.
    + rewrite <- Zlt_Qlt. unfold Z.succ in *. lia.
  - rewrite Z2Nat.id by lia.
    replace (Z.log2 n + 1 - (Z.log2 n + 1 - - (Z.log2 (Z.pos d) + 1)))%Z
      with (- (Z.log2 (Z.pos d) + 1))%Z by lia.
    apply (Qmult_le_r _ _ (Qpower (10 # 1) (Z.log2 (Z.pos d) + 1))); [apply ten_pos|].
    rewrite <- ten_plus. replace (- (Z.log2 (Z.pos d) + 1) + (Z.log2 (Z.pos d) + 1))%Z with 0%Z by lia.
    change (Qpower (10 # 1) 0) with 1%Q.
    rewrite <- (ten_Z (Z.log2 (Z.pos d) + 1)) by lia.
    unfold Z.succ in *. revert Hd2 Td. generalize (10 ^ (Z.log2 (Z.pos d) + 1))%Z.
    generalize (2 ^ (Z.log2 (Z.pos d) + 1))%Z. intros t2 t10 Hd2 Td.
    unfold Qle, Qmult, inject_Z. simpl. nia.
Qed.

Lemma adjusted_mono (x y : Q) :
  (0 < x)%Q -> (x <= y)%Q -> (adjusted x <= adjusted y)%Z.
Proof.
  intros Hx Hxy. assert (Hy : (0 < y)%Q) by (eapply Qlt_le_trans; eassumption).
  destruct (adjusted_spec x Hx) as [Lx _]. destruct (adjusted_spec y Hy) as [_ Uy].
  assert (H : (adjusted x < adjusted y + 1)%Z).
  { apply ten_lt_inv. eapply Qle_lt_trans; [exact Lx|]. eapply Qle_lt_trans; eassumption. }
  lia.
Qed.

Lemma round_magnitude_pos_eq (y : Q) :
  (0 < y)%Q ->
  round_magnitude y =
  (inject_Z (half_even (y / Qpower (10 # 1) (adjusted y - (prec - 1)))) *
   Qpower (10 # 1) (adjusted y - (prec - 1)))%Q.
Proof.
  intros Hy. unfold round_magnitude.
  destruct (Qle_bool y 0) eqn:E; [|reflexivity].
  apply Qle_bool_iff in E. exfalso. eapply Qlt_not_le; eassumption.
Qed.

Lemma round_magnitude_nonpos (y : Q) : (y <= 0)%Q -> round_magnitude y = 0%Q.
Proof. intros H. unfold round_magnitude. apply Qle_bool_iff in H. rewrite H. reflexivity. Qed.

(** The coefficient of a rounded value has [prec] digits, or is the next
    power of ten. *)
Lemma coefficient_bounds (y : Q) :
  (0 < y)%Q ->
  (10 ^ (prec - 1) <= half_even (y / Qpower (10 # 1) (adjusted y - (prec - 1))) <= 10 ^ prec)%Z.
Proof.
  intros Hy. destruct (adjusted_spec y Hy) as [L U].
  set (k := (adjusted y - (prec - 1))%Z) in *.
  pose proof (ten_pos k) as Hk.
  assert (Lq : (inject_Z (10 ^ (prec - 1)) <= y / Qpower (10 # 1) k)%Q).
  { apply Qle_shift_div_l; [exact Hk|].
    rewrite (ten_Z (prec - 1)) by (unfold prec; lia). rewrite <- ten_plus.
    replace (prec - 1 + k)%Z with (adjusted y) by (unfold k; lia). exact L. }
  assert (Uq : (y / Qpower (10 # 1) k <= inject_Z (10 ^ prec))%Q).
  { apply Qle_shift_div_r; [exact Hk|].
    rewrite (ten_Z prec) by (unfold prec; lia). rewrite <- ten_plus.
    replace (prec + k)%Z with (adjusted y + 1)%Z by (unfold k; lia).
    apply Qlt_le_weak, U. }
  apply half_even_mono in Lq. apply half_even_mono in Uq.
  rewrite half_even_Z in Lq, Uq. split; assumption.
Qed.

Lemma round_magnitude_bounds (y : Q) :
  (0 < y)%Q ->
  (Qpower (10 # 1) (adjusted y) <= round_magnitude y <= Qpower (10 # 1) (adjusted y + 1))%Q.
Proof.
  intros Hy. rewrite (round_magnitude_pos_eq y Hy).
  destruct (coefficient_bounds y Hy) as [L U].
  set (k := (adjusted y - (prec - 1))%Z) in *.
  pose proof (ten_pos k) as Hk.
  replace (adjusted y) with (prec - 1 + k)%Z at 1 by (unfold k; lia).
  replace (adjusted y + 1)%Z with (prec + k)%Z by (unfold k; lia).
  rewrite !ten_plus, <- (ten_Z (prec - 1)), <- (ten_Z prec) by (unfold prec; lia).
  split; (apply Qmult_le_compat_r; [rewrite <- Zle_Qle; assumption|apply Qlt_le_weak, Hk]).
Qed.

Lemma round_magnitude_pos (y : Q) : (0 < y)%Q -> (0 < round_magnitude y)%Q.
Proof.
  intros Hy. eapply Qlt_le_trans; [apply (ten_pos (adjusted y))|].
  apply round_magnitude_bounds, Hy.
Qed.

Lemma round_magnitude_nonneg (y : Q) : (0 <= round_magnitude y)%Q.
Proof.
  destruct (Qlt_le_dec 0 y) as [H|H].
  - apply Qlt_le_weak, round_magnitude_pos, H.
  - rewrite (round_magnitude_nonpos y H). apply Qle_refl.
Qed.

Lemma round_magnitude_mono (x y : Q) :
  (x <= y)%Q -> (round_magnitude x <= round_magnitude y)%Q.
Proof.
  intros Hxy. destruct (Qlt_le_dec 0 x) as [Hx|Hx].
  2:{ rewrite (round_magnitude_nonpos x Hx). apply round_magnitude_nonneg. }
  assert (Hy : (0 < y)%Q) by (eapply Qlt_le_trans; eassumption).
  pose proof (adjusted_mono x y Hx Hxy) as Ha.
  destruct (Z.eq_dec (adjusted x) (adjusted y)) as [E|N].
  - rewrite (round_magnitude_pos_eq x Hx), (round_magnitude_pos_eq y Hy), E.
    pose proof (ten_pos (adjusted y - (prec - 1))) as Hk.
    apply Qmult_le_compat_r; [|apply Qlt_le_weak, Hk].
    rewrite <- Zle_Qle. apply half_even_mono.
    apply Qmult_le_compat_r; [exact Hxy|]. apply Qlt_le_weak, Qinv_lt_0_compat, Hk.
  - destruct (round_magnitude_bounds x Hx) as [_ Ux].
    destruct (round_magnitude_bounds y Hy) as [Ly _].
    eapply Qle_trans; [exact Ux|]. eapply Qle_trans; [|exact Ly]. apply ten_le. lia.
Qed.

(** *** Rounding in the context *)

Lemma rounded_neg (x : Q) : (x < 0)%Q -> rounded x = (- round_magnitude (- x))%Q.
Proof. intros H. unfold rounded. apply Qlt_bool_iff in H. rewrite H. reflexivity. Qed.

Lemma rounded_nonneg (x : Q) : (0 <= x)%Q -> rounded x = round_magnitude x.
Proof. intros H. unfold rounded. apply Qlt_bool_false in H. rewrite H. reflexivity. Qed.

Lemma rounded_mono (x y : Q) : (x <= y)%Q -> (rounded x <= rounded y)%Q.
Proof.
  intros Hxy. destruct (Qlt_le_dec x 0) as [Hx|Hx]; destruct (Qlt_le_dec y 0) as [Hy|Hy].
  - rewrite (rounded_neg x Hx), (rounded_neg y Hy). apply Qopp_le_compat.
    apply round_magnitude_mono. apply Qopp_le_compat. exact Hxy.
  - rewrite (rounded_neg x Hx), (rounded_nonneg y Hy).
    pose proof (round_magnitude_nonneg (- x)) as H1.
    pose proof (round_magnitude_nonneg y) as H2.
    revert H1 H2. generalize (round_magnitude (- x)) (round_magnitude y). intros a b H1 H2. lra.
  - exfalso. lra.
  - rewrite (rounded_nonneg x Hx), (rounded_nonneg y Hy). apply round_magnitude_mono, Hxy.
Qed.

Lemma rounded_comp (x y : Q) : (x == y)%Q -> (rounded x == rounded y)%Q.
Proof.
  intros E. apply Qle_antisym; apply rounded_mono; rewrite E; apply Qle_refl.
Qed.

Lemma rounded_zero : (rounded 0 == 0)%Q.
Proof. reflexivity. Qed.

Lemma rounded_pos (x : Q) : (0 < x)%Q -> (0 < rounded x)%Q.
Proof.
  intros H. rewrite (rounded_nonneg x (Qlt_le_weak _ _ H)). apply round_magnitude_pos, H.
Qed.

Lemma rounded_opp (x : Q) : (rounded (- x) == - rounded x)%Q.
Proof.
  destruct (Qlt_le_dec x 0) as [Hx|Hx].
  - rewrite (rounded_neg x Hx), (rounded_nonneg (- x)) by lra.
    rewrite Qopp_involutive. reflexivity.
  - destruct (Qlt_le_dec 0 x) as [Hp|Hz].
    + rewrite (rounded_nonneg x Hx), (rounded_neg (- x)) by lra.
      apply Qopp_comp. apply Qle_antisym; apply round_magnitude_mono; lra.
    + rewrite (rounded_nonneg x Hx), (rounded_nonneg (- x)) by lra.
      rewrite (round_magnitude_nonpos x Hz), (round_magnitude_nonpos (- x)) by lra. reflexivity.
Qed.

Lemma rounded_sign (x : Q) :
  ((0 <= x)%Q -> (0 <= rounded x)%Q) /\ ((x <= 0)%Q -> (rounded x <= 0)%Q) /\
  ((rounded x == 0)%Q -> (x == 0)%Q).
Proof.
  split; [|split].
  - intros H. apply rounded_mono in H. rewrite rounded_zero in H. exact H.
  - intros H. apply rounded_mono in H. rewrite rounded_zero in H. exact H.
  - intros H. destruct (Qlt_le_dec 0 x) as [Hp|Hn].
    + apply rounded_pos in Hp. lra.
    + destruct (Qlt_le_dec x 0) as [Hq|Hz]; [|lra].
      assert (Hp : (0 < - x)%Q) by lra. apply rounded_pos in Hp.
      rewrite rounded_opp in Hp. lra.
Qed.

(** Thirty digits are cut to twenty-eight, a tie goes to the even digit,
    and a third has twenty-eight threes. *)
Example rounded_ties :
  (rounded (inject_Z 100000000000000000000000000050) ==
     inject_Z 100000000000000000000000000000)%Q /\
  (rounded (inject_Z 100000000000000000000000000150) ==
     inject_Z 100000000000000000000000000200)%Q /\
  (rounded (inject_Z 100000000000000000000000000250) ==
     inject_Z 100000000000000000000000000200)%Q /\
  (rounded (inject_Z (-100000000000000000000000000051)) ==
     inject_Z (-100000000000000000000000000100))%Q /\
  (rounded (1 # 3) == 3333333333333333333333333333 # 10000000000000000000000000000)%Q.
Proof. repeat split; vm_compute; reflexivity. Qed.

#[global] Instance rounded_Proper : Proper (Qeq ==> Qeq) rounded.
Proof. intros x y E. apply rounded_comp, E. Qed.

#[global] Instance dsub_Proper : Proper (Qeq ==> Qeq ==> Qeq) dsub.
Proof. intros a a' Ea b b' Eb. unfold dsub. rewrite Ea, Eb. reflexivity. Qed.

#[global] Instance dmul_Proper : Proper (Qeq ==> Qeq ==> Qeq) dmul.
Proof. intros a a' Ea b b' Eb. unfold dmul. rewrite Ea, Eb. reflexivity. Qed.

#[global] Instance dabs_Proper : Proper (Qeq ==> Qeq) dabs.
Proof. intros a a' Ea. unfold dabs. rewrite Ea. reflexivity. Qed.


(** *** The operations *)

Lemma dabs_nonneg (a : Q) : (0 <= dabs a)%Q.
Proof. apply (proj1 (rounded_sign (Qabs a))), Qabs_nonneg. Qed.


Lemma dabs_zero (a : Q) : (a == 0)%Q -> (dabs a == 0)%Q.
Proof. intros E. rewrite E. reflexivity. Qed.


Lemma dsub_diag (a b : Q) : (a == b)%Q -> (dsub a b == 0)%Q.
Proof. intros E. unfold dsub. assert (E0 : (a - b == 0)%Q) by lra. rewrite E0. reflexivity. Qed.




Lemma apart_diag (a b : Q) : (a == b)%Q -> (dabs (dsub a b) == 0)%Q.
Proof. intros E. apply dabs_zero, dsub_diag, E. Qed.



Lemma dmul_mono_r (a p q : Q) : (0 <= a)%Q -> (p <= q)%Q -> (dmul a p <= dmul a q)%Q.
Proof.
  intros Ha Hpq. apply rounded_mono. rewrite !(Qmult_comm a).
  apply Qmult_le_compat_r; assumption.
Qed.





Lemma tolerance_mono (a p q : Q) : (p <= q)%Q -> (dmul (dabs a) p <= dmul (dabs a) q)%Q.
Proof. apply dmul_mono_r, dabs_nonneg. Qed.


(** *** Values that the context keeps *)




End Rounding.

(** ** Facts about the reconciliation engine *)

Module BankFacts.
Import Py Bank BankState PyFacts.


(** What a successful [_try_match] says about the pair. *)
Lemma try_match_Some (self : BankReconciliation.t) (b : BankTransaction.t)
    (k : BookTransaction.t) (m : MatchedTransaction.t) :
  _try_match self b k = Some m ->
  MatchedTransaction.bank_txn m = b /\ MatchedTransaction.book_txn m = k /\
  _amounts_match self (BankTransaction.amount b) (BookTransaction.amount k) = true /\
  (days_apart b k <= BankReconciliation.DATE_TOLERANCE_DAYS self)%Z /\
  MatchedTransaction.date_diff_days m = days_apart b k /\
  MatchedTransaction.amount_diff m =
    dabs (dsub (dval (BankTransaction.amount b)) (dval (BookTransaction.amount k))) /\
  MatchedTransaction.match_type m <> REFERENCE.
Proof.
  unfold _try_match.
  destruct (_amounts_match self _ _) eqn:Ha; simpl; [|discriminate].
  destruct (Z.ltb_spec (BankReconciliation.DATE_TOLERANCE_DAYS self) (days_apart b k)) as [Hd|Hd];
    [discriminate|].
  destruct ((days_apart b k =? 0)%Z && _) eqn:E1; [|destruct (days_apart b k =? 0)%Z];
    intros [= <-]; simpl; repeat split; auto; discriminate.
Qed.


(** *** The id sets follow the committed pairs *)

Lemma tracked_start : tracked no_progress.
Proof.
  repeat split; simpl; try (intros H; set_solver); constructor.
Qed.

Lemma tracked_commit (st : Progress) (m : MatchedTransaction.t) :
  tracked st ->
  bank_id m ∉ matched_bank_ids st ->
  book_id m ∉ matched_book_ids st ->
  tracked (commit st m).
Proof.
  intros (Hb & Hk & Nb & Nk) Fb Fk. unfold tracked, commit; simpl.
  rewrite !map_app; simpl. repeat split.
  - rewrite elem_of_union, elem_of_singleton, Hb. intros [->|H]; apply elem_of_app;
      [right; apply list_elem_of_singleton; reflexivity|left; exact H].
  - rewrite elem_of_union, elem_of_singleton, Hb. intros H. apply elem_of_app in H as [H|H];
      [right; exact H|left; apply list_elem_of_singleton in H; exact H].
  - rewrite elem_of_union, elem_of_singleton, Hk. intros [->|H]; apply elem_of_app;
      [right; apply list_elem_of_singleton; reflexivity|left; exact H].
  - rewrite elem_of_union, elem_of_singleton, Hk. intros H. apply elem_of_app in H as [H|H];
      [right; exact H|left; apply list_elem_of_singleton in H; exact H].
  - apply NoDup_app. repeat split; [exact Nb| |apply NoDup_singleton].
    intros x Hx Hx'. apply list_elem_of_singleton in Hx' as ->. apply Fb, Hb, Hx.
  - apply NoDup_app. repeat split; [exact Nk| |apply NoDup_singleton].
    intros x Hx Hx'. apply list_elem_of_singleton in Hx' as ->. apply Fk, Hk, Hx.
Qed.

Lemma grows_tracked P (st st' : Progress) : grows P st st' -> tracked st -> tracked st'.
Proof.
  induction 1 as [|st st' m _ IH Fb Fk _]; intros Ht; [exact Ht|].
  apply tracked_commit; auto.
Qed.

Lemma grows_trans P (st1 st2 st3 : Progress) :
  grows P st1 st2 -> grows P st2 st3 -> grows P st1 st3.
Proof.
  intros H12 H23. induction H23 as [|st2 st3 m _ IH Fb Fk Pm]; [exact H12|].
  apply grows_commit; auto.
Qed.

Lemma grows_weaken (P Q : MatchedTransaction.t -> Prop) (st st' : Progress) :
  (forall m, P m -> Q m) -> grows P st st' -> grows Q st st'.
Proof.
  intros HPQ. induction 1; [apply grows_refl|apply grows_commit; auto].
Qed.

Lemma grows_one P (st : Progress) (m : MatchedTransaction.t) :
  bank_id m ∉ matched_bank_ids st -> book_id m ∉ matched_book_ids st -> P m ->
  grows P st (commit st m).
Proof. intros. apply grows_commit; auto. apply grows_refl. Qed.

(** Nothing is ever taken back, and what is added satisfies [P]. *)
Lemma grows_so_far P (st st' : Progress) :
  grows P st st' -> exists added, so_far st' = so_far st ++ added /\ Forall P added.
Proof.
  induction 1 as [st|st st' m _ (added & E & HP) _ _ Pm].
  - exists []. rewrite app_nil_r. auto.
  - exists (added ++ [m]). simpl. rewrite E, app_assoc. split; [reflexivity|].
    apply Forall_app. auto.
Qed.

Lemma grows_book_ids P (st st' : Progress) :
  grows P st st' -> matched_book_ids st ⊆ matched_book_ids st'.
Proof. induction 1; simpl; set_solver. Qed.

Lemma grows_fold P (step : Progress -> BankTransaction.t -> Progress) :
  (forall st b, grows P st (step st b)) ->
  forall l st, grows P st (fold_left step l st).
Proof.
  intros Hstep l. induction l as [|b l IH]; intros st; simpl; [apply grows_refl|].
  eapply grows_trans; [apply Hstep|apply IH].
Qed.

(** *** One step of each phase *)

Lemma phase1_step_grows (self : BankReconciliation.t) (books : list BookTransaction.t)
    (st : Progress) (b : BankTransaction.t) :
  grows (by_try_match self) st (phase1_step self books st b).
Proof.
  unfold phase1_step. case_bool_decide as Hb; [apply grows_refl|].
  destruct (phase1_scan self books st b) as [m|] eqn:E; [|apply grows_refl].
  unfold phase1_scan in E. apply first_some_elem in E as (k & Hk & E).
  case_bool_decide as Hkid; [discriminate|].
  destruct (_try_match self b k) as [m'|] eqn:T; [|discriminate].
  destruct (is_exact m'); [|discriminate]. injection E as <-.
  destruct (try_match_Some _ _ _ _ T) as (Eb & Ek & _).
  apply grows_one; unfold bank_id, book_id, by_try_match; rewrite ?Eb, ?Ek; auto.
Qed.

Lemma phase2_scan_Some (books : list BookTransaction.t) (st : Progress)
    (b : BankTransaction.t) (m : MatchedTransaction.t) :
  phase2_scan books st b = Some m ->
  exists k, k ∈ books /\ (BookTransaction.id k ∉ matched_book_ids st) /\
            m = _create_match b k REFERENCE (9 # 10).
Proof.
  unfold phase2_scan. intros E. apply first_some_elem in E as (k & Hk & E).
  case_bool_decide as Hkid; [discriminate|].
  destruct (andb (truthy _) (contains _ _)); [|discriminate].
  injection E as <-. eauto.
Qed.

Lemma phase2_step_grows (books : list BookTransaction.t) (st : Progress)
    (b : BankTransaction.t) :
  grows by_reference st (phase2_step books st b).
Proof.
  unfold phase2_step. case_bool_decide as Hb; [apply grows_refl|].
  destruct (negb (truthy (BankTransaction.reference b))); [apply grows_refl|].
  destruct (phase2_scan books st b) as [m|] eqn:E; [|apply grows_refl].
  apply phase2_scan_Some in E as (k & _ & Hkid & ->).
  apply grows_one; [exact Hb|exact Hkid|]. split; reflexivity.
Qed.

Lemma phase3_candidates_elem (self : BankReconciliation.t) (books : list BookTransaction.t)
    (st : Progress) (b : BankTransaction.t) (m : MatchedTransaction.t) (k : BookTransaction.t) :
  (m, k) ∈ phase3_candidates self books st b <->
  k ∈ books /\ (BookTransaction.id k ∉ matched_book_ids st) /\
  _try_match self b k = Some m /\
  (MIN_CONFIDENCE_THRESHOLD <= MatchedTransaction.confidence m)%Q.
Proof.
  unfold phase3_candidates. rewrite list_elem_of_In, in_flat_map. split.
  - intros (k' & Hk' & Hin). apply list_elem_of_In in Hk'.
    case_bool_decide as Hkid; [destruct Hin|].
    destruct (_try_match self b k') as [m'|] eqn:T; [|destruct Hin].
    destruct (Qle_bool _ _) eqn:C; [|destruct Hin].
    destruct Hin as [[= <- <-]|[]]. apply Qle_bool_iff in C. auto.
  - intros (Hk & Hkid & T & C). exists k. split; [apply list_elem_of_In, Hk|].
    rewrite bool_decide_eq_false_2 by exact Hkid. rewrite T.
    apply Qle_bool_iff in C. rewrite C. left. reflexivity.
Qed.

(** The head of the stable descending sort is the first candidate that no
    other candidate beats. *)
Lemma best_candidate_first_maximal (candidates : list (MatchedTransaction.t * BookTransaction.t)) :
  match best_candidate candidates with
  | None => candidates = []
  | Some c =>
    exists ahead behind, candidates = ahead ++ c :: behind /\
      Forall (fun c' => (MatchedTransaction.confidence (fst c') <
                         MatchedTransaction.confidence (fst c))%Q) ahead /\
      Forall (fun c' => (MatchedTransaction.confidence (fst c') <=
                         MatchedTransaction.confidence (fst c))%Q) behind
  end.
Proof.
  unfold best_candidate. induction candidates as [|x l IH]; simpl; [reflexivity|].
  rewrite head_insert_by. destruct (head (sorted_by more_confident l)) as [y|].
  - destruct IH as (ahead & behind & -> & Ha & Hb).
    unfold more_confident at 1. destruct (Qlt_bool _ _) eqn:E.
    + apply Qlt_bool_iff in E. exists (x :: ahead), behind. auto.
    + apply Qlt_bool_false in E. exists [], (ahead ++ y :: behind).
      repeat split; [constructor|]. apply Forall_app. split; [|constructor].
      * eapply Forall_impl; [exact Ha|]. simpl. intros c Hc.
        apply Qlt_le_weak. eapply Qlt_le_trans; eassumption.
      * exact E.
      * eapply Forall_impl; [exact Hb|]. simpl. intros c Hc.
        eapply Qle_trans; eassumption.
  - subst l. exists [], []. auto.
Qed.

Lemma best_candidate_elem (candidates : list (MatchedTransaction.t * BookTransaction.t))
    (c : MatchedTransaction.t * BookTransaction.t) :
  best_candidate candidates = Some c -> c ∈ candidates.
Proof.
  intros E. pose proof (best_candidate_first_maximal candidates) as H. rewrite E in H.
  destruct H as (ahead & behind & -> & _). apply elem_of_app. right. apply elem_of_cons. auto.
Qed.

(** A commit of phase 3 is a [commit] of the chosen pair. *)
Lemma phase3_step_cases (self : BankReconciliation.t) (books : list BookTransaction.t)
    (st : Progress) (b : BankTransaction.t) :
  BankTransaction.id b ∉ matched_bank_ids st ->
  match best_candidate (phase3_candidates self books st b) with
  | None => phase3_step self books st b = st
  | Some (m, k) =>
    phase3_step self books st b = commit st m /\
    MatchedTransaction.bank_txn m = b /\ MatchedTransaction.book_txn m = k /\
    (BookTransaction.id k ∉ matched_book_ids st) /\ _try_match self b k = Some m
  end.
Proof.
  intros Hb. unfold phase3_step. rewrite bool_decide_eq_false_2 by exact Hb.
  destruct (best_candidate _) as [[m k]|] eqn:E; [|reflexivity].
  apply best_candidate_elem, phase3_candidates_elem in E as (_ & Hkid & T & _).
  destruct (try_match_Some _ _ _ _ T) as (Eb & Ek & _).
  unfold commit. rewrite Eb, Ek. auto.
Qed.

Lemma phase3_step_grows (self : BankReconciliation.t) (books : list BookTransaction.t)
    (st : Progress) (b : BankTransaction.t) :
  grows (by_try_match self) st (phase3_step self books st b).
Proof.
  destruct (decide (BankTransaction.id b ∈ matched_bank_ids st)) as [Hb|Hb].
  - unfold phase3_step. rewrite bool_decide_eq_true_2 by exact Hb. apply grows_refl.
  - pose proof (phase3_step_cases self books st b Hb) as H.
    destruct (best_candidate _) as [[m k]|]; [|rewrite H; apply grows_refl].
    destruct H as (-> & Eb & Ek & Hkid & T).
    apply grows_one; unfold bank_id, book_id, by_try_match; rewrite ?Eb, ?Ek; auto.
Qed.

(** *** The whole run *)

Lemma run_phases_grows (self : BankReconciliation.t)
    (banks : list BankTransaction.t) (books : list BookTransaction.t) :
  grows (origin self) no_progress (run_phases self banks books).
Proof.
  unfold run_phases.
  eapply grows_trans; [eapply grows_trans|].
  - apply grows_fold. intros st b. eapply grows_weaken; [|apply phase1_step_grows].
    intros m Hm. right. exact Hm.
  - apply grows_fold. intros st b. eapply grows_weaken; [|apply phase2_step_grows].
    intros m Hm. left. exact Hm.
  - apply grows_fold. intros st b. eapply grows_weaken; [|apply phase3_step_grows].
    intros m Hm. right. exact Hm.
Qed.

Lemma run_phases_tracked (self : BankReconciliation.t)
    (banks : list BankTransaction.t) (books : list BookTransaction.t) :
  tracked (run_phases self banks books).
Proof. eapply grows_tracked; [apply run_phases_grows|apply tracked_start]. Qed.

Lemma run_phases_origin (self : BankReconciliation.t)
    (banks : list BankTransaction.t) (books : list BookTransaction.t) :
  Forall (origin self) (so_far (run_phases self banks books)).
Proof.
  destruct (grows_so_far _ _ _ (run_phases_grows self banks books)) as (added & E & H).
  rewrite E. exact H.
Qed.

(** *** Tolerances *)

Lemma amounts_match_monotone (tight wide : BankReconciliation.t) (a1 a2 : Decimal) :
  (BankReconciliation.AMOUNT_TOLERANCE_PERCENT tight <=
   BankReconciliation.AMOUNT_TOLERANCE_PERCENT wide)%Q ->
  _amounts_match tight a1 a2 = true -> _amounts_match wide a1 a2 = true.
Proof.
  intros Hp. unfold _amounts_match. destruct (Qeq_bool (dval a1) (dval a2)); [auto|].
  rewrite !Qle_bool_iff. intros H. eapply Qle_trans; [exact H|].
  apply Rounding.tolerance_mono, Hp.
Qed.

Lemma try_match_monotone (tight wide : BankReconciliation.t) (b : BankTransaction.t)
    (k : BookTransaction.t) (m : MatchedTransaction.t) :
  (BankReconciliation.DATE_TOLERANCE_DAYS tight <= BankReconciliation.DATE_TOLERANCE_DAYS wide)%Z ->
  (BankReconciliation.AMOUNT_TOLERANCE_PERCENT tight <=
   BankReconciliation.AMOUNT_TOLERANCE_PERCENT wide)%Q ->
  _try_match tight b k = Some m -> _try_match wide b k = Some m.
Proof.
  intros Hd Hp. unfold _try_match.
  destruct (_amounts_match tight _ _) eqn:Ha; simpl; [|discriminate].
  rewrite (amounts_match_monotone tight wide _ _ Hp Ha). simpl.
  destruct (Z.ltb_spec (BankReconciliation.DATE_TOLERANCE_DAYS tight) (days_apart b k)) as [|Hdd];
    [discriminate|].
  destruct (Z.ltb_spec (BankReconciliation.DATE_TOLERANCE_DAYS wide) (days_apart b k)) as [Hw|];
    [lia|]. auto.
Qed.


Lemma grows_so_far_elem P (st st' : Progress) (m : MatchedTransaction.t) :
  grows P st st' -> m ∈ so_far st -> m ∈ so_far st'.
Proof.
  intros H Hm. destruct (grows_so_far _ _ _ H) as (added & -> & _).
  apply elem_of_app. auto.
Qed.

End BankFacts.

(** ** The date tolerance of the reconciliation engine *)

Module BankDates.
Import Py Bank BankState PyFacts BankFacts.

Lemma key_before_true d1 a1 d2 a2 : key_before d1 a1 d2 a2 = true -> (d1 <= d2)%Z.
Proof. unfold key_before. destruct (Z.eqb_spec d1 d2); [lia|]. intros H. apply Z.ltb_lt in H. lia. Qed.

Lemma key_before_false d1 a1 d2 a2 : key_before d1 a1 d2 a2 = false -> (d2 <= d1)%Z.
Proof. unfold key_before. destruct (Z.eqb_spec d1 d2); [lia|]. intros H. apply Z.ltb_ge in H. lia. Qed.

Lemma book_sorted_by_date (books : list BookTransaction.t) :
  StronglySorted book_by_date (sorted_by book_before books).
Proof.
  apply sorted_by_sorted.
  - intros x y z. unfold book_by_date. lia.
  - intros y x. apply key_before_true.
  - intros y x. apply key_before_false.
Qed.

Lemma bank_sorted_by_date (banks : list BankTransaction.t) :
  StronglySorted bank_by_date (sorted_by bank_before banks).
Proof.
  apply sorted_by_sorted.
  - intros x y z. unfold bank_by_date. lia.
  - intros y x. apply key_before_true.
  - intros y x. apply key_before_false.
Qed.

(** The confidence of a tolerance match is at least the threshold. *)
Lemma try_match_confidence (self : BankReconciliation.t) (b : BankTransaction.t)
    (k : BookTransaction.t) (m : MatchedTransaction.t) :
  _try_match self b k = Some m ->
  (MIN_CONFIDENCE_THRESHOLD <= MatchedTransaction.confidence m)%Q.
Proof.
  unfold _try_match, MIN_CONFIDENCE_THRESHOLD.
  destruct (_amounts_match self _ _); simpl; [|discriminate].
  destruct (_ <? _)%Z; [discriminate|].
  destruct ((days_apart b k =? 0)%Z && _); [|destruct (days_apart b k =? 0)%Z];
    intros [= <-]; simpl; [lra|lra|apply max_lower].
Qed.

(** What phase 3 picks, told along the sorted book list. *)
Lemma phase3_pick (self : BankReconciliation.t) (books : list BookTransaction.t)
    (st : Progress) (b : BankTransaction.t) :
  BankTransaction.id b ∉ matched_bank_ids st ->
  (phase3_step self books st b = st /\
   forall k, k ∈ books -> BookTransaction.id k ∉ matched_book_ids st ->
             _try_match self b k = None) \/
  (exists m k pre post,
     books = pre ++ k :: post /\
     (BookTransaction.id k ∉ matched_book_ids st) /\
     _try_match self b k = Some m /\
     phase3_step self books st b = commit st m /\
     MatchedTransaction.book_txn m = k /\
     (forall k' m', k' ∈ pre -> BookTransaction.id k' ∉ matched_book_ids st ->
        _try_match self b k' = Some m' ->
        (MatchedTransaction.confidence m' < MatchedTransaction.confidence m)%Q) /\
     (forall k' m', k' ∈ post -> BookTransaction.id k' ∉ matched_book_ids st ->
        _try_match self b k' = Some m' ->
        (MatchedTransaction.confidence m' <= MatchedTransaction.confidence m)%Q)).
Proof.
  intros Hb.
  pose proof (best_candidate_first_maximal (phase3_candidates self books st b)) as Hbest.
  pose proof (phase3_step_cases self books st b Hb) as Hstep.
  destruct (best_candidate _) as [[m k]|].
  - right. destruct Hstep as (Hstep & _ & Hk & Hkid & Htry).
    destruct Hbest as (ahead & behind & Hc & Ha & Hbh).
    unfold phase3_candidates in Hc. apply flat_map_split in Hc
      as (pre & y & post & -> & Hpre & Hy & Hpost).
    2:{ intros z. destruct (bool_decide _); simpl; [lia|].
        destruct (_try_match self b z); simpl; [|lia]. destruct (Qle_bool _ _); simpl; lia. }
    assert (y = k) as ->.
    { destruct (bool_decide _); [discriminate|]. destruct (_try_match self b y); [|discriminate].
      destruct (Qle_bool _ _); [|discriminate]. congruence. }
    exists m, k, pre, post. repeat split; auto.
    + intros k' m' Hin Hfree Hm'. rewrite Forall_forall in Ha. apply (Ha (m', k')).
      rewrite <- Hpre. apply (phase3_candidates_elem self pre st b m' k').
      repeat split; auto. eapply try_match_confidence, Hm'.
    + intros k' m' Hin Hfree Hm'. rewrite Forall_forall in Hbh. apply (Hbh (m', k')).
      rewrite <- Hpost. apply (phase3_candidates_elem self post st b m' k').
      repeat split; auto. eapply try_match_confidence, Hm'.
  - left. split; [exact Hstep|]. intros k Hin Hfree.
    destruct (_try_match self b k) as [m|] eqn:E; [|reflexivity]. exfalso.
    assert (Hc : (m, k) ∈ phase3_candidates self books st b).
    { apply phase3_candidates_elem. repeat split; auto. eapply try_match_confidence, E. }
    rewrite Hbest in Hc. apply elem_of_nil in Hc. exact Hc.
Qed.

(** *** The date tolerance alone *)

Section date_tolerance.
Context (tight wide : BankReconciliation.t).
Hypothesis tight_nonneg : (0 <= BankReconciliation.DATE_TOLERANCE_DAYS tight)%Z.
Hypothesis tight_wide :
  (BankReconciliation.DATE_TOLERANCE_DAYS tight <= BankReconciliation.DATE_TOLERANCE_DAYS wide)%Z.
Hypothesis same_amount_tolerance :
  BankReconciliation.AMOUNT_TOLERANCE_PERCENT tight = BankReconciliation.AMOUNT_TOLERANCE_PERCENT wide.

Lemma try_match_tight_wide (b : BankTransaction.t) (k : BookTransaction.t)
    (m : MatchedTransaction.t) :
  _try_match tight b k = Some m -> _try_match wide b k = Some m.
Proof.
  apply try_match_monotone; [exact tight_wide|]. rewrite same_amount_tolerance. apply Qle_refl.
Qed.

(** Under the tighter tolerance only the date gate can reject more. *)
Lemma try_match_wide_only (b : BankTransaction.t) (k : BookTransaction.t)
    (m : MatchedTransaction.t) :
  _try_match wide b k = Some m -> _try_match tight b k = None ->
  (BankReconciliation.DATE_TOLERANCE_DAYS tight < days_apart b k)%Z.
Proof.
  unfold _try_match, _amounts_match. rewrite same_amount_tolerance.
  destruct (negb _); [discriminate|].
  destruct (Z.ltb_spec (BankReconciliation.DATE_TOLERANCE_DAYS tight) (days_apart b k)); [auto|].
  destruct (_ <? _)%Z; [discriminate|].
  destruct (_ && _); [discriminate|]. destruct (_ =? _)%Z; discriminate.
Qed.

(** Phases 1 and 2 do not depend on the date tolerance. *)
Lemma phase1_step_same (books : list BookTransaction.t) (st : Progress) (b : BankTransaction.t) :
  phase1_step tight books st b = phase1_step wide books st b.
Proof.
  unfold phase1_step, phase1_scan. destruct (bool_decide _); [reflexivity|].
  replace (first_some _ books) with
    (first_some (fun book_txn =>
       if bool_decide (BookTransaction.id book_txn ∈ matched_book_ids st) then None
       else match _try_match wide b book_txn with
            | Some m => if is_exact m then Some m else None
            | None => None
            end) books); [reflexivity|].
  induction books as [|k l IH]; simpl; [reflexivity|]. rewrite IH.
  destruct (bool_decide _); [reflexivity|].
  replace (match _try_match tight b k with
           | Some m => if is_exact m then Some m else None
           | None => None end)
    with (match _try_match wide b k with
          | Some m => if is_exact m then Some m else None
          | None => None end); [reflexivity|].
  unfold _try_match, _amounts_match. rewrite same_amount_tolerance.
  destruct (negb _); [reflexivity|].
  destruct (Z.eqb_spec (days_apart b k) 0) as [E|E].
  - rewrite E. destruct (Z.ltb_spec (BankReconciliation.DATE_TOLERANCE_DAYS wide) 0); [lia|].
    destruct (Z.ltb_spec (BankReconciliation.DATE_TOLERANCE_DAYS tight) 0); [lia|]. reflexivity.
  - simpl. destruct (_ <? _)%Z, (_ <? _)%Z; reflexivity.
Qed.

Lemma phase12_same (banks : list BankTransaction.t) (books : list BookTransaction.t) :
  fold_left (phase2_step books) banks (fold_left (phase1_step tight books) banks no_progress) =
  fold_left (phase2_step books) banks (fold_left (phase1_step wide books) banks no_progress).
Proof.
  f_equal. generalize no_progress. induction banks as [|b l IH]; intros st; simpl; [reflexivity|].
  rewrite phase1_step_same. apply IH.
Qed.

End date_tolerance.

(** A candidate that is strictly further away in days is not more confident. *)
Lemma confidence_antitone (self : BankReconciliation.t) (b : BankTransaction.t)
    (k1 k2 : BookTransaction.t) (m1 m2 : MatchedTransaction.t) :
  _try_match self b k1 = Some m1 -> _try_match self b k2 = Some m2 ->
  (days_apart b k1 < days_apart b k2)%Z ->
  (MatchedTransaction.confidence m2 <= MatchedTransaction.confidence m1)%Q.
Proof.
  unfold _try_match. intros H1 H2 Hlt.
  assert (H0 : (0 <= days_apart b k1)%Z) by apply Z.abs_nonneg.
  destruct (negb _); [discriminate|]. destruct (negb _); [discriminate|].
  destruct (_ <? _)%Z; [discriminate|]. destruct (_ <? days_apart b k2)%Z; [discriminate|].
  destruct (Z.eqb_spec (days_apart b k2) 0) as [E2|E2]; [lia|].
  rewrite andb_false_l in H2. injection H2 as <-.
  change (MatchedTransaction.confidence (_create_match b k2 FUZZY ?c)) with c.
  assert (H2 : (inject_Z 1 <= inject_Z (days_apart b k2))%Q) by (rewrite <- Zle_Qle; lia).
  change (inject_Z 1) with 1%Q in H2.
  assert (Hm : (max (7 # 10) (1 - inject_Z (days_apart b k2) * (1 # 10)) <= 9 # 10)%Q).
  { unfold max. destruct (Qlt_bool _ _); lra. }
  destruct (Z.eqb_spec (days_apart b k1) 0) as [E1|E1].
  - destruct (_ && _); injection H1 as <-;
      change (MatchedTransaction.confidence (_create_match b k1 ?t ?c)) with c; lra.
  - rewrite andb_false_l in H1. injection H1 as <-.
    change (MatchedTransaction.confidence (_create_match b k1 FUZZY ?c)) with c.
    assert (H : (inject_Z (days_apart b k1) < inject_Z (days_apart b k2))%Q)
      by (rewrite <- Zlt_Qlt; lia).
    destruct (max_cases (7 # 10) (1 - inject_Z (days_apart b k2) * (1 # 10))) as [[-> Ea]|[-> Ea]],
      (max_cases (7 # 10) (1 - inject_Z (days_apart b k1) * (1 # 10))) as [[-> Eb]|[-> Eb]]; lra.
Qed.

(** *** Tight and wide runs of phase 3, side by side *)

Section lagging.
Context (tight wide : BankReconciliation.t) (books : list BookTransaction.t).
Hypothesis tight_nonneg : (0 <= BankReconciliation.DATE_TOLERANCE_DAYS tight)%Z.
Hypothesis tight_wide :
  (BankReconciliation.DATE_TOLERANCE_DAYS tight <= BankReconciliation.DATE_TOLERANCE_DAYS wide)%Z.
Hypothesis same_amount_tolerance :
  BankReconciliation.AMOUNT_TOLERANCE_PERCENT tight = BankReconciliation.AMOUNT_TOLERANCE_PERCENT wide.
Hypothesis books_distinct : NoDup (map BookTransaction.id books).
Hypothesis books_sorted : StronglySorted book_by_date books.

Lemma books_NoDup : NoDup books.
Proof. apply (NoDup_fmap_1 BookTransaction.id). exact books_distinct. Qed.

Lemma book_id_inj (k1 k2 : BookTransaction.t) :
  k1 ∈ books -> k2 ∈ books -> BookTransaction.id k1 = BookTransaction.id k2 -> k1 = k2.
Proof.
  intros H1 H2 E. pose proof books_distinct as Hnd. revert H1 H2 Hnd. clear -E.
  induction books as [|z l IH]; intros H1 H2 Hnd; [apply elem_of_nil in H1; contradiction|].
  simpl in Hnd. apply NoDup_cons in Hnd as [Hz Hnd].
  apply elem_of_cons in H1 as [->|H1], H2 as [->|H2]; auto.
  - exfalso. apply Hz. rewrite E. apply list_elem_of_In, in_map, list_elem_of_In, H2.
  - exfalso. apply Hz. rewrite <- E. apply list_elem_of_In, in_map, list_elem_of_In, H1.
Qed.

Lemma elem_of_dead (k : BookTransaction.t) (day : Z) :
  k ∈ books ->
  BookTransaction.id k ∈ dead tight books day <->
  (BookTransaction.date k < day - BankReconciliation.DATE_TOLERANCE_DAYS tight)%Z.
Proof.
  intros Hk. unfold dead. rewrite elem_of_list_to_set, list_elem_of_In, in_map_iff. split.
  - intros (k' & Hid & Hin). apply filter_In in Hin as [Hin Hlt]. apply Z.ltb_lt in Hlt.
    assert (k' = k) as <-; [|exact Hlt].
    apply book_id_inj; [apply list_elem_of_In, Hin|exact Hk|exact Hid].
  - intros Hlt. exists k. split; [reflexivity|]. apply filter_In. split.
    + apply list_elem_of_In, Hk.
    + apply Z.ltb_lt, Hlt.
Qed.

Lemma dead_mono (day day' : Z) : (day <= day')%Z -> dead tight books day ⊆ dead tight books day'.
Proof.
  intros Hle x. unfold dead. rewrite !elem_of_list_to_set, !list_elem_of_In, !in_map_iff.
  intros (k & Hid & Hin). exists k. split; [exact Hid|].
  apply filter_In in Hin as [Hin Hlt]. apply filter_In. split; [exact Hin|].
  apply Z.ltb_lt in Hlt. apply Z.ltb_lt. lia.
Qed.

(** When the two runs pick different book entries and the wide pick is free
    in the tight run, the wide pick is out of reach of the tight run for
    good. *)
Lemma wide_pick_dead (b : BankTransaction.t) (sT sW : Progress)
    (t w : BookTransaction.t) (mt mw : MatchedTransaction.t)
    (preT postT preW postW : list BookTransaction.t) :
  books = preT ++ t :: postT -> books = preW ++ w :: postW ->
  _try_match tight b t = Some mt -> _try_match wide b w = Some mw ->
  (forall k' m', k' ∈ preT -> BookTransaction.id k' ∉ matched_book_ids sT ->
     _try_match tight b k' = Some m' ->
     (MatchedTransaction.confidence m' < MatchedTransaction.confidence mt)%Q) ->
  (forall k' m', k' ∈ postT -> BookTransaction.id k' ∉ matched_book_ids sT ->
     _try_match tight b k' = Some m' ->
     (MatchedTransaction.confidence m' <= MatchedTransaction.confidence mt)%Q) ->
  (forall k' m', k' ∈ preW -> BookTransaction.id k' ∉ matched_book_ids sW ->
     _try_match wide b k' = Some m' ->
     (MatchedTransaction.confidence m' < MatchedTransaction.confidence mw)%Q) ->
  (forall k' m', k' ∈ postW -> BookTransaction.id k' ∉ matched_book_ids sW ->
     _try_match wide b k' = Some m' ->
     (MatchedTransaction.confidence m' <= MatchedTransaction.confidence mw)%Q) ->
  BookTransaction.id t ∉ matched_book_ids sW ->
  BookTransaction.id w ∉ matched_book_ids sT ->
  w <> t ->
  (BookTransaction.date w < BankTransaction.date b - BankReconciliation.DATE_TOLERANCE_DAYS tight)%Z.
Proof.
  intros ET EW Ht Hw HpreT HpostT HpreW HpostW HtW HwT Hne.
  pose proof (try_match_tight_wide tight wide tight_wide same_amount_tolerance b t mt Ht) as Ht'.
  assert (HwinT : w ∈ preT \/ w ∈ postT).
  { assert (Hin : w ∈ books) by (rewrite EW; apply elem_of_app; right; apply elem_of_cons; auto).
    rewrite ET in Hin. apply elem_of_app in Hin as [Hin|Hin]; [auto|].
    apply elem_of_cons in Hin as [Hin|Hin]; [contradiction|auto]. }
  assert (HtinW : t ∈ preW \/ t ∈ postW).
  { assert (Hin : t ∈ books) by (rewrite ET; apply elem_of_app; right; apply elem_of_cons; auto).
    rewrite EW in Hin. apply elem_of_app in Hin as [Hin|Hin]; [auto|].
    apply elem_of_cons in Hin as [Hin|Hin]; [congruence|auto]. }
  destruct (_try_match tight b w) as [m'|] eqn:Hwt.
  - exfalso.
    pose proof (try_match_tight_wide tight wide tight_wide same_amount_tolerance b w m' Hwt) as E.
    rewrite Hw in E. injection E as <-.
    destruct HwinT as [Hin|Hin], HtinW as [Hin'|Hin'].
    + pose proof (HpreT _ _ Hin HwT Hwt). pose proof (HpreW _ _ Hin' HtW Ht'). lra.
    + pose proof (HpreT _ _ Hin HwT Hwt). pose proof (HpostW _ _ Hin' HtW Ht'). lra.
    + pose proof (HpostT _ _ Hin HwT Hwt). pose proof (HpreW _ _ Hin' HtW Ht'). lra.
    + eapply (NoDup_split_order preT postT preW postW t w); eauto.
      * rewrite <- ET. apply books_NoDup.
      * congruence.
  - pose proof (try_match_wide_only tight wide same_amount_tolerance b w mw Hw Hwt) as Hfar.
    destruct (try_match_Some _ _ _ _ Ht) as (_ & _ & _ & Hnear & _).
    destruct HtinW as [Hin'|Hin'].
    + exfalso. pose proof (HpreW _ _ Hin' HtW Ht') as H1.
      pose proof (confidence_antitone wide b t w mt mw Ht' Hw ltac:(lia)) as H2. lra.
    + assert (Hord : book_by_date w t).
      { rewrite EW in books_sorted. apply StronglySorted_app_1_r in books_sorted.
        apply StronglySorted_cons in books_sorted as [Hall _].
        rewrite Forall_forall in Hall. apply Hall, Hin'. }
      unfold book_by_date in Hord. unfold days_apart in Hfar, Hnear. lia.
Qed.

Lemma lagging_later (day day' : Z) (sT sW : Progress) :
  (day <= day')%Z -> lagging tight books day sT sW -> lagging tight books day' sT sW.
Proof.
  intros Hle. unfold lagging. apply size_le_between; [reflexivity|].
  pose proof (dead_mono day day' Hle). set_solver.
Qed.

(** One bank transaction, in both runs. *)
Lemma lagging_step (b : BankTransaction.t) (day : Z) (sT sW : Progress) :
  (BankTransaction.id b ∈ matched_bank_ids sT <-> BankTransaction.id b ∈ matched_bank_ids sW) ->
  (day <= BankTransaction.date b)%Z ->
  lagging tight books day sT sW ->
  lagging tight books (BankTransaction.date b)
    (phase3_step tight books sT b) (phase3_step wide books sW b).
Proof.
  intros Hskip Hday Hlag. apply (lagging_later _ _ _ _ Hday) in Hlag.
  destruct (decide (BankTransaction.id b ∈ matched_bank_ids sT)) as [HbT|HbT].
  { unfold phase3_step. rewrite !bool_decide_eq_true_2 by tauto. exact Hlag. }
  assert (HbW : BankTransaction.id b ∉ matched_bank_ids sW) by tauto.
  destruct (phase3_pick tight books sT b HbT)
    as [[-> HnoneT]|(mt & t & preT & postT & ET & HtT & Ht & -> & Hmt & HpreT & HpostT)];
  destruct (phase3_pick wide books sW b HbW)
    as [[-> HnoneW]|(mw & w & preW & postW & EW & HwW & Hw & -> & Hmw & HpreW & HpostW)].
  - exact Hlag.
  - revert Hlag. unfold lagging, commit, book_id. simpl. rewrite Hmw.
    apply size_le_between; set_solver.
  - assert (Hin : t ∈ books) by (rewrite ET; apply elem_of_app; right; apply elem_of_cons; auto).
    assert (Hlive : BookTransaction.id t ∉ dead tight books (BankTransaction.date b)).
    { rewrite (elem_of_dead t _ Hin).
      destruct (try_match_Some _ _ _ _ Ht) as (_ & _ & _ & Hnear & _).
      unfold days_apart in Hnear. lia. }
    assert (HtW : BookTransaction.id t ∈ matched_book_ids sW).
    { destruct (decide (BookTransaction.id t ∈ matched_book_ids sW)) as [|Hfree]; [assumption|].
      pose proof (try_match_tight_wide tight wide tight_wide same_amount_tolerance b t mt Ht)
        as Hwide.
      rewrite (HnoneW t Hin Hfree) in Hwide. discriminate. }
    revert Hlag. unfold lagging, commit, book_id. simpl. rewrite Hmt.
    apply size_le_between; set_solver.
  - assert (Hin : t ∈ books) by (rewrite ET; apply elem_of_app; right; apply elem_of_cons; auto).
    assert (Hinw : w ∈ books) by (rewrite EW; apply elem_of_app; right; apply elem_of_cons; auto).
    assert (Hlive : BookTransaction.id t ∉ dead tight books (BankTransaction.date b)).
    { rewrite (elem_of_dead t _ Hin).
      destruct (try_match_Some _ _ _ _ Ht) as (_ & _ & _ & Hnear & _).
      unfold days_apart in Hnear. lia. }
    revert Hlag. unfold lagging, commit, book_id. simpl. rewrite Hmt, Hmw.
    destruct (decide (BookTransaction.id t ∈ matched_book_ids sW)) as [HtW|HtW].
    { apply size_le_between; set_solver. }
    destruct (decide (BookTransaction.id w = BookTransaction.id t)) as [E|Hids].
    { rewrite E. apply size_le_between; set_solver. }
    assert (Hne : w <> t) by congruence.
    destruct (decide (BookTransaction.id w ∈ matched_book_ids sT)) as [HwT|HwT].
    { apply (size_le_swap _ _ _ _ (BookTransaction.id t) (BookTransaction.id w)); set_solver. }
    assert (Hdead : BookTransaction.id w ∈ dead tight books (BankTransaction.date b)).
    { rewrite (elem_of_dead w _ Hinw).
      eapply (wide_pick_dead b sT sW t w mt mw); eauto. }
    apply (size_le_grow _ _ _ _ (BookTransaction.id t) (BookTransaction.id w)); set_solver.
Qed.

Lemma phase3_step_bank_ids (self : BankReconciliation.t) (st : Progress)
    (b : BankTransaction.t) (x : string) :
  x <> BankTransaction.id b ->
  x ∈ matched_bank_ids (phase3_step self books st b) <-> x ∈ matched_bank_ids st.
Proof.
  intros Hne. unfold phase3_step. destruct (bool_decide _); [reflexivity|].
  destruct (best_candidate _) as [[m k]|]; [|reflexivity]. simpl. set_solver.
Qed.

Lemma lagging_fold (rest : list BankTransaction.t) :
  forall (day : Z) (sT sW : Progress),
  NoDup (map BankTransaction.id rest) ->
  StronglySorted bank_by_date rest ->
  Forall (fun b => (day <= BankTransaction.date b)%Z) rest ->
  (forall b, b ∈ rest ->
     BankTransaction.id b ∈ matched_bank_ids sT <-> BankTransaction.id b ∈ matched_bank_ids sW) ->
  lagging tight books day sT sW ->
  exists day', lagging tight books day'
    (fold_left (phase3_step tight books) rest sT) (fold_left (phase3_step wide books) rest sW).
Proof.
  induction rest as [|b rest IH]; intros day sT sW Hnd Hsorted Hday Hskip Hlag; simpl.
  - exists day. exact Hlag.
  - simpl in Hnd. apply NoDup_cons in Hnd as [Hb Hnd].
    apply StronglySorted_cons in Hsorted as [Hle Hsorted].
    apply Forall_cons in Hday as [Hday _].
    apply (IH (BankTransaction.date b)); auto.
    + intros b' Hb'.
      assert (Hne : BankTransaction.id b' <> BankTransaction.id b).
      { intros E. apply Hb. rewrite <- E. apply list_elem_of_In, in_map, list_elem_of_In, Hb'. }
      rewrite !phase3_step_bank_ids by exact Hne. apply Hskip, elem_of_cons. auto.
    + apply (lagging_step b day); auto. apply Hskip, elem_of_cons. auto.
Qed.

End lagging.

Lemma lagging_size (tight : BankReconciliation.t) (books : list BookTransaction.t) (day : Z)
    (sT sW : Progress) :
  lagging tight books day sT sW -> size (matched_book_ids sT) <= size (matched_book_ids sW).
Proof.
  unfold lagging. intros H.
  pose proof (size_difference_alt (matched_book_ids sT) (matched_book_ids sW)) as HT.
  pose proof (size_difference_alt (matched_book_ids sW) (matched_book_ids sT)) as HW.
  assert (H1 : size (matched_book_ids sT ∩ matched_book_ids sW) <= size (matched_book_ids sT))
    by (apply subseteq_size; set_solver).
  assert (H2 : size (matched_book_ids sW ∩ matched_book_ids sT) <= size (matched_book_ids sW))
    by (apply subseteq_size; set_solver).
  assert (H3 : size ((matched_book_ids sW ∖ matched_book_ids sT) ∩ dead tight books day)
               <= size (matched_book_ids sW ∖ matched_book_ids sT))
    by (apply subseteq_size; set_solver).
  assert (H4 : matched_book_ids sT ∩ matched_book_ids sW =
               matched_book_ids sW ∩ matched_book_ids sT) by set_solver.
  rewrite H4 in *. lia.
Qed.

Lemma tracked_length (st : Progress) :
  tracked st -> length (so_far st) = size (matched_book_ids st).
Proof.
  intros (_ & Hk & _ & Hnd).
  assert (E : matched_book_ids st = list_to_set (map book_id (so_far st))).
  { apply set_eq. intros x. rewrite Hk, elem_of_list_to_set. reflexivity. }
  rewrite E, size_list_to_set by exact Hnd. rewrite length_map. reflexivity.
Qed.

(** With distinct ids and the amount tolerance unchanged, a tighter date
    tolerance never matches more pairs. *)
Lemma reconcile_date_monotone (tight wide : BankReconciliation.t) (clock : Today)
    (entity account : string)
    (banks : list BankTransaction.t) (books : list BookTransaction.t)
    (period_start period_end : option Z)
    (bank_opening bank_closing book_opening book_closing : Decimal) :
  (0 <= BankReconciliation.DATE_TOLERANCE_DAYS tight)%Z ->
  (BankReconciliation.DATE_TOLERANCE_DAYS tight <= BankReconciliation.DATE_TOLERANCE_DAYS wide)%Z ->
  BankReconciliation.AMOUNT_TOLERANCE_PERCENT tight = BankReconciliation.AMOUNT_TOLERANCE_PERCENT wide ->
  NoDup (map BankTransaction.id banks) ->
  NoDup (map BookTransaction.id books) ->
  length (ReconciliationResult.matched
            (reconcile tight clock entity account banks books period_start period_end
               bank_opening bank_closing book_opening book_closing)) <=
  length (ReconciliationResult.matched
            (reconcile wide clock entity account banks books period_start period_end
               bank_opening bank_closing book_opening book_closing)).
Proof.
  intros H0 Hle Hp Hbanks Hbooks. simpl.
  rewrite !tracked_length by apply run_phases_tracked.
  set (bank_sorted := sorted_by bank_before banks).
  set (book_sorted := sorted_by book_before books).
  assert (Hbanks' : NoDup (map BankTransaction.id bank_sorted)).
  { unfold bank_sorted. rewrite (sorted_by_perm bank_before banks). exact Hbanks. }
  assert (Hbooks' : NoDup (map BookTransaction.id book_sorted)).
  { unfold book_sorted. rewrite (sorted_by_perm book_before books). exact Hbooks. }
  unfold run_phases. rewrite (phase12_same tight wide H0 Hle Hp bank_sorted book_sorted).
  set (st2 := fold_left (phase2_step book_sorted) bank_sorted
                (fold_left (phase1_step wide book_sorted) bank_sorted no_progress)).
  assert (Hsame : forall day, lagging tight book_sorted day st2 st2).
  { intros day. unfold lagging.
    replace (matched_book_ids st2 ∖ matched_book_ids st2) with (∅ : gset string) by set_solver.
    rewrite size_empty. lia. }
  pose proof (bank_sorted_by_date banks) as Hsorted. fold bank_sorted in Hsorted.
  destruct (lagging_fold tight wide book_sorted H0 Hle Hp Hbooks'
              (book_sorted_by_date books) bank_sorted
              (match bank_sorted with [] => 0%Z | b :: _ => BankTransaction.date b end)
              st2 st2 Hbanks' Hsorted) as [day' Hlag].
  - destruct bank_sorted as [|b rest]; [constructor|].
    apply StronglySorted_cons in Hsorted as [Hall _]. constructor; [lia|exact Hall].
  - reflexivity.
  - apply Hsame.
  - eapply lagging_size, Hlag.
Qed.

End BankDates.

(** ** Facts about the duplicate detector *)

Module CardFacts.
Import Py Card CardState PyFacts.

(** Equal hashes are equal texts: the same instant, description and printed
    amount. *)
Lemma hash_eq (txn1 txn2 : ParsedTransaction.t) :
  ParsedTransaction.hash txn1 = ParsedTransaction.hash txn2 <->
  ParsedTransaction.date txn1 = ParsedTransaction.date txn2 /\
  ParsedTransaction.description txn1 = ParsedTransaction.description txn2 /\
  ParsedTransaction.amount txn1 = ParsedTransaction.amount txn2.
Proof.
  unfold ParsedTransaction.hash. split.
  - intros [= H1 H2 H3]. auto.
  - intros (-> & -> & ->). reflexivity.
Qed.

Lemma compare_hash_hit (self : DuplicateDetector.t) (txn1 txn2 : ParsedTransaction.t) :
  ParsedTransaction.oid txn1 <> ParsedTransaction.oid txn2 ->
  ParsedTransaction.hash txn1 = ParsedTransaction.hash txn2 ->
  _compare_transactions self txn1 txn2 = Some (hash_hit txn1 txn2).
Proof.
  intros Hoid Hh. unfold _compare_transactions.
  destruct (Nat.eqb_spec (ParsedTransaction.oid txn1) (ParsedTransaction.oid txn2)); [contradiction|].
  rewrite bool_decide_eq_true_2 by exact Hh. reflexivity.
Qed.

(** What a report of [_compare_transactions] says about the pair. *)
Lemma verdict_Some (txn1 txn2 : ParsedTransaction.t) (score : Score) (m : DuplicateMatch.t) :
  verdict txn1 txn2 score = Some m ->
  DuplicateMatch.transaction m = txn1 /\ DuplicateMatch.matched_with m = txn2 /\
  DuplicateMatch.confidence m = min (fst score) 1.0 /\
  DuplicateMatch.is_likely_duplicate m = PrimFloat.leb HIGH_CONFIDENCE_THRESHOLD (fst score).
Proof.
  destruct score as [confidence reasons]. unfold verdict.
  destruct (PrimFloat.leb MEDIUM_CONFIDENCE_THRESHOLD confidence); [|discriminate].
  intros [= <-]. simpl. auto.
Qed.

Lemma amount_signal_Some (self : DuplicateDetector.t) (txn1 txn2 : ParsedTransaction.t)
    (score score' : Score) :
  amount_signal self txn1 txn2 score = Some score' ->
  Qeq_bool (amount_apart txn1 txn2) 0 = true \/
  (amount_apart txn1 txn2 <=
     dmul (dabs (dval (ParsedTransaction.amount txn1))) (DuplicateDetector.amount_tolerance self))%Q.
Proof.
  destruct score as [confidence reasons]. unfold amount_signal.
  fold (amount_apart txn1 txn2).
  destruct (Qeq_bool (amount_apart txn1 txn2) 0); [auto|].
  destruct (Qle_bool (amount_apart txn1 txn2) _) eqn:E; [|discriminate].
  intros _. right. apply Qle_bool_iff, E.
Qed.

(** What a report of [_compare_transactions] says about the pair. *)
Lemma compare_Some (self : DuplicateDetector.t) (txn1 txn2 : ParsedTransaction.t)
    (m : DuplicateMatch.t) :
  _compare_transactions self txn1 txn2 = Some m ->
  DuplicateMatch.transaction m = txn1 /\ DuplicateMatch.matched_with m = txn2 /\
  ParsedTransaction.oid txn1 <> ParsedTransaction.oid txn2 /\
  (ParsedTransaction.hash txn1 = ParsedTransaction.hash txn2 \/
   (days_apart txn1 txn2 <= DuplicateDetector.date_tolerance self)%Z /\
   (Qeq_bool (amount_apart txn1 txn2) 0 = true \/
    (amount_apart txn1 txn2 <=
       dmul (dabs (dval (ParsedTransaction.amount txn1)))
         (DuplicateDetector.amount_tolerance self))%Q)).
Proof.
  unfold _compare_transactions.
  destruct (Nat.eqb_spec (ParsedTransaction.oid txn1) (ParsedTransaction.oid txn2)) as [|Hoid];
    [discriminate|].
  case_bool_decide as Hh.
  { intros [= <-]. simpl. auto. }
  fold (days_apart txn1 txn2).
  destruct (Z.ltb_spec (DuplicateDetector.date_tolerance self) (days_apart txn1 txn2)) as [|Hd];
    [discriminate|].
  destruct (amount_signal self txn1 txn2 _) as [score|] eqn:Ea; [|discriminate].
  apply amount_signal_Some in Ea. intros H.
  apply verdict_Some in H as (H1 & H2 & _).
  split; [exact H1|]. split; [exact H2|]. split; [exact Hoid|].
  right. split; [exact Hd|exact Ea].
Qed.


Lemma check_single_Some (self : DuplicateDetector.t) (txn : ParsedTransaction.t)
    (existing : list ParsedTransaction.t) (m : DuplicateMatch.t) :
  check_single self txn existing = Some m ->
  exists c, c ∈ existing /\ _compare_transactions self txn c = Some m.
Proof. apply first_some_elem. Qed.

Lemma find_duplicate_Some (self : DuplicateDetector.t) (txn : ParsedTransaction.t)
    (candidates : list ParsedTransaction.t) (m : DuplicateMatch.t) :
  _find_duplicate self txn candidates = Some m ->
  exists c, c ∈ candidates /\ _compare_transactions self txn c = Some m.
Proof.
  unfold _find_duplicate. intros H. apply first_some_elem in H as (c & Hc & H).
  exists c. split; [|exact H].
  apply list_elem_of_In in Hc. apply filter_In in Hc as [Hc _]. apply list_elem_of_In, Hc.
Qed.


(** *** Walking the batch *)

Lemma file_match_reported (result : Sorting) (m : DuplicateMatch.t) :
  Permutation (reported (file_match result m)) (m :: reported result) /\
  unique_transactions (file_match result m) = unique_transactions result.
Proof.
  unfold file_match, reported. destruct (PrimFloat.leb _ _); simpl; split; try reflexivity.
  - rewrite app_assoc. symmetry. apply Permutation_cons_append.
  - rewrite <- app_assoc. simpl. symmetry. apply Permutation_middle.
Qed.

Lemma check_step_cases (self : DuplicateDetector.t) (all : list ParsedTransaction.t)
    (result : Sorting) (txn : ParsedTransaction.t) :
  (exists m c, (c ∈ all \/ c ∈ unique_transactions result) /\
     _compare_transactions self txn c = Some m /\
     check_step self all result txn = file_match result m) \/
  (_find_duplicate self txn all = None /\
   _find_duplicate self txn (unique_transactions result) = None /\
   check_step self all result txn =
     mkSorting (unique_transactions result ++ [txn]) (potential_duplicates result)
       (definite_duplicates result)).
Proof.
  unfold check_step.
  destruct (_find_duplicate self txn all) as [m|] eqn:E1.
  - left. apply find_duplicate_Some in E1 as (c & Hc & H). exists m, c. auto.
  - destruct (_find_duplicate self txn (unique_transactions result)) as [m|] eqn:E2.
    + left. apply find_duplicate_Some in E2 as (c & Hc & H). exists m, c. auto.
    + right. auto.
Qed.

(** Every transaction of the batch is placed exactly once. *)
Lemma check_step_placed (self : DuplicateDetector.t) (all : list ParsedTransaction.t)
    (result : Sorting) (txn : ParsedTransaction.t) :
  Permutation (placed (check_step self all result txn))
              (placed result ++ [ParsedTransaction.oid txn]).
Proof.
  destruct (check_step_cases self all result txn) as [(m & c & _ & H & ->)|(_ & _ & ->)].
  - destruct (file_match_reported result m) as [Hp Hu]. unfold placed. rewrite Hp, Hu. simpl.
    apply compare_Some in H as (Ht & _). unfold new_side at 1. rewrite Ht.
    apply Permutation_cons_append.
  - unfold placed, reported. simpl. rewrite (map_app ParsedTransaction.oid). simpl.
    rewrite app_assoc. reflexivity.
Qed.

Lemma sort_fold_placed (self : DuplicateDetector.t) (all batch : list ParsedTransaction.t) :
  forall result,
  Permutation (placed (fold_left (check_step self all) batch result))
              (placed result ++ map ParsedTransaction.oid batch).
Proof.
  induction batch as [|txn batch IH]; intros result; simpl.
  - rewrite app_nil_r. reflexivity.
  - rewrite IH, check_step_placed, <- app_assoc. reflexivity.
Qed.

Lemma check_step_unique (self : DuplicateDetector.t) (all : list ParsedTransaction.t)
    (result : Sorting) (txn : ParsedTransaction.t) (u : ParsedTransaction.t) :
  u ∈ unique_transactions result -> u ∈ unique_transactions (check_step self all result txn).
Proof.
  intros Hu. destruct (check_step_cases self all result txn) as [(m & c & _ & _ & ->)|(_ & _ & ->)].
  - destruct (file_match_reported result m) as [_ ->]. exact Hu.
  - simpl. apply elem_of_app. auto.
Qed.

Lemma sort_fold_unique (self : DuplicateDetector.t) (all batch : list ParsedTransaction.t) :
  forall result u,
  u ∈ unique_transactions result ->
  u ∈ unique_transactions (fold_left (check_step self all) batch result).
Proof.
  induction batch as [|txn batch IH]; intros result u Hu; simpl; [exact Hu|].
  apply IH, check_step_unique, Hu.
Qed.

(** Where a report comes from: a comparison of a batch transaction with a
    transaction of the history or with an accepted one. *)
Lemma sort_fold_reported (self : DuplicateDetector.t) (all batch : list ParsedTransaction.t) :
  forall result m,
  m ∈ reported (fold_left (check_step self all) batch result) ->
  m ∈ reported result \/
  (DuplicateMatch.transaction m ∈ batch /\
   (DuplicateMatch.matched_with m ∈ all \/
    DuplicateMatch.matched_with m ∈
      unique_transactions (fold_left (check_step self all) batch result)) /\
   _compare_transactions self (DuplicateMatch.transaction m) (DuplicateMatch.matched_with m)
     = Some m).
Proof.
  induction batch as [|txn batch IH]; intros result m Hm; simpl in *; [auto|].
  destruct (IH _ _ Hm) as [Hr|(Ht & Hw & Hc)].
  - destruct (check_step_cases self all result txn) as [(m' & c & Hin & H & E)|(_ & _ & E)];
      rewrite E in Hr.
    + destruct (file_match_reported result m') as [Hp _]. rewrite Hp in Hr.
      apply elem_of_cons in Hr as [->|Hr]; [|auto]. right.
      destruct (compare_Some _ _ _ _ H) as (-> & -> & _).
      split; [apply elem_of_cons; auto|]. split; [|exact H].
      destruct Hin as [Hin|Hin]; [auto|]. right.
      apply sort_fold_unique, check_step_unique, Hin.
    + left. exact Hr.
  - right. split; [apply elem_of_cons; auto|]. auto.
Qed.

(** *** Tolerances *)

(** The confidence that a step adds does not look at the reasons. *)
Lemma description_signal_fst (txn1 txn2 : ParsedTransaction.t) (s s' : Score) :
  fst s = fst s' -> fst (description_signal txn1 txn2 s) = fst (description_signal txn1 txn2 s').
Proof.
  destruct s as [c r], s' as [c' r']. simpl. intros ->. unfold description_signal.
  repeat case_match; reflexivity.
Qed.

Lemma merchant_signal_fst (txn1 txn2 : ParsedTransaction.t) (s s' : Score) :
  fst s = fst s' -> fst (merchant_signal txn1 txn2 s) = fst (merchant_signal txn1 txn2 s').
Proof.
  destruct s as [c r], s' as [c' r']. simpl. intros ->. unfold merchant_signal.
  repeat case_match; reflexivity.
Qed.

Lemma reference_signal_fst (txn1 txn2 : ParsedTransaction.t) (s s' : Score) :
  fst s = fst s' -> fst (reference_signal txn1 txn2 s) = fst (reference_signal txn1 txn2 s').
Proof.
  destruct s as [c r], s' as [c' r']. simpl. intros ->. unfold reference_signal.
  repeat case_match; reflexivity.
Qed.

Lemma amount_signal_monotone (tight wide : DuplicateDetector.t) (txn1 txn2 : ParsedTransaction.t)
    (s s1 : Score) :
  (DuplicateDetector.amount_tolerance tight <= DuplicateDetector.amount_tolerance wide)%Q ->
  amount_signal tight txn1 txn2 s = Some s1 ->
  exists s2, amount_signal wide txn1 txn2 s = Some s2 /\ fst s2 = fst s1.
Proof.
  intros Hp. destruct s as [c r]. unfold amount_signal.
  destruct (Qeq_bool _ 0).
  - intros [= <-]. eauto.
  - destruct (Qle_bool _ (dmul _ (DuplicateDetector.amount_tolerance tight))) eqn:E; [|discriminate].
    intros [= <-]. apply Qle_bool_iff in E.
    assert (E' : Qle_bool
      (dabs (dsub (dval (ParsedTransaction.amount txn1)) (dval (ParsedTransaction.amount txn2))))
      (dmul (dabs (dval (ParsedTransaction.amount txn1))) (DuplicateDetector.amount_tolerance wide))
      = true).
    { apply Qle_bool_iff. eapply Qle_trans; [exact E|]. apply Rounding.tolerance_mono, Hp. }
    rewrite E'. eauto.
Qed.

Lemma verdict_fst (txn1 txn2 : ParsedTransaction.t) (s s' : Score) (m : DuplicateMatch.t) :
  fst s = fst s' -> verdict txn1 txn2 s = Some m ->
  exists m', verdict txn1 txn2 s' = Some m' /\
    DuplicateMatch.transaction m' = DuplicateMatch.transaction m /\
    DuplicateMatch.matched_with m' = DuplicateMatch.matched_with m /\
    DuplicateMatch.confidence m' = DuplicateMatch.confidence m /\
    DuplicateMatch.is_likely_duplicate m' = DuplicateMatch.is_likely_duplicate m.
Proof.
  destruct s as [c r], s' as [c' r']. simpl. intros <-. unfold verdict.
  destruct (PrimFloat.leb MEDIUM_CONFIDENCE_THRESHOLD c); [|discriminate].
  intros [= <-]. eexists. split; [reflexivity|]. simpl. auto.
Qed.

(** A pair reported under the tighter tolerances is reported under the
    looser ones, with the same confidence. *)
Lemma compare_monotone (tight wide : DuplicateDetector.t) (txn1 txn2 : ParsedTransaction.t)
    (m : DuplicateMatch.t) :
  (DuplicateDetector.date_tolerance tight <= DuplicateDetector.date_tolerance wide)%Z ->
  (DuplicateDetector.amount_tolerance tight <= DuplicateDetector.amount_tolerance wide)%Q ->
  _compare_transactions tight txn1 txn2 = Some m ->
  exists m', _compare_transactions wide txn1 txn2 = Some m' /\
    DuplicateMatch.transaction m' = DuplicateMatch.transaction m /\
    DuplicateMatch.matched_with m' = DuplicateMatch.matched_with m /\
    DuplicateMatch.confidence m' = DuplicateMatch.confidence m /\
    DuplicateMatch.is_likely_duplicate m' = DuplicateMatch.is_likely_duplicate m.
Proof.
  intros Hd Hp. unfold _compare_transactions.
  destruct (ParsedTransaction.oid txn1 =? ParsedTransaction.oid txn2)%nat; [discriminate|].
  case_bool_decide as Hh.
  { intros [= <-]. eexists. split; [reflexivity|]. auto. }
  fold (days_apart txn1 txn2).
  destruct (Z.ltb_spec (DuplicateDetector.date_tolerance tight) (days_apart txn1 txn2)) as [|Hdd];
    [discriminate|].
  destruct (Z.ltb_spec (DuplicateDetector.date_tolerance wide) (days_apart txn1 txn2)) as [Hw|];
    [lia|].
  destruct (amount_signal tight txn1 txn2 _) as [s1|] eqn:Ea; [|discriminate].
  destruct (amount_signal_monotone tight wide _ _ _ _ Hp Ea) as (s2 & -> & Hfst).
  apply verdict_fst.
  apply reference_signal_fst, merchant_signal_fst, description_signal_fst. symmetry. exact Hfst.
Qed.


(** *** Classification *)

Lemma check_step_potential (self : DuplicateDetector.t) (all : list ParsedTransaction.t)
    (result : Sorting) (txn : ParsedTransaction.t) :
  Forall (fun m => PrimFloat.leb HIGH_CONFIDENCE_THRESHOLD (DuplicateMatch.confidence m) = false)
    (potential_duplicates result) ->
  Forall (fun m => PrimFloat.leb HIGH_CONFIDENCE_THRESHOLD (DuplicateMatch.confidence m) = false)
    (potential_duplicates (check_step self all result txn)).
Proof.
  intros H. destruct (check_step_cases self all result txn) as [(m & c & _ & _ & ->)|(_ & _ & ->)];
    [|exact H].
  unfold file_match. destruct (PrimFloat.leb _ _) eqn:E; simpl; [exact H|].
  apply Forall_app. auto.
Qed.

Lemma sort_fold_potential (self : DuplicateDetector.t) (all batch : list ParsedTransaction.t) :
  forall result,
  Forall (fun m => PrimFloat.leb HIGH_CONFIDENCE_THRESHOLD (DuplicateMatch.confidence m) = false)
    (potential_duplicates result) ->
  Forall (fun m => PrimFloat.leb HIGH_CONFIDENCE_THRESHOLD (DuplicateMatch.confidence m) = false)
    (potential_duplicates (fold_left (check_step self all) batch result)).
Proof.
  induction batch as [|txn batch IH]; intros result H; simpl; [exact H|].
  apply IH, check_step_potential, H.
Qed.

(** *** The index *)

Lemma index_append_same (key : IndexKey) (txn x : ParsedTransaction.t)
    (index : gmap IndexKey (list ParsedTransaction.t)) :
  x ∈ default [] (index_append key txn index !! key) <->
  x ∈ default [] (index !! key) \/ x = txn.
Proof.
  unfold index_append. rewrite lookup_insert_eq. simpl.
  rewrite elem_of_app, list_elem_of_singleton. reflexivity.
Qed.

Lemma index_append_keeps (key key' : IndexKey) (txn x : ParsedTransaction.t)
    (index : gmap IndexKey (list ParsedTransaction.t)) :
  x ∈ default [] (index !! key') -> x ∈ default [] (index_append key txn index !! key').
Proof.
  intros H. destruct (decide (key = key')) as [->|Hne].
  - apply index_append_same. auto.
  - unfold index_append. rewrite lookup_insert_ne by exact Hne. exact H.
Qed.

Lemma index_fold_keeps (txns : list ParsedTransaction.t) :
  forall (index : gmap IndexKey (list ParsedTransaction.t)) key x,
  x ∈ default [] (index !! key) ->
  x ∈ default []
    (fold_left (fun index txn =>
       index_append (date_key txn) txn (index_append (amount_key txn) txn index)) txns index
     !! key).
Proof.
  induction txns as [|txn txns IH]; intros index key x H; simpl; [exact H|].
  apply IH. do 2 apply index_append_keeps. exact H.
Qed.

(** Every indexed transaction sits in the bucket of its amount and in the
    bucket of its date. *)
Lemma build_index_elem (self : DuplicateDetector.t) (txns : list ParsedTransaction.t)
    (txn : ParsedTransaction.t) :
  txn ∈ txns ->
  txn ∈ default [] (DuplicateDetector._transaction_index (_build_index self txns) !! amount_key txn) /\
  txn ∈ default [] (DuplicateDetector._transaction_index (_build_index self txns) !! date_key txn).
Proof.
  unfold _build_index. simpl. generalize (∅ : gmap IndexKey (list ParsedTransaction.t)).
  induction txns as [|t txns IH]; intros index Hin; [apply elem_of_nil in Hin; contradiction|].
  simpl. apply elem_of_cons in Hin as [->|Hin]; [|apply IH, Hin].
  split; apply index_fold_keeps.
  - apply index_append_keeps, index_append_same. auto.
  - apply index_append_same. auto.
Qed.

(** An empty index shortlists nothing once the candidates are a hundred. *)
Lemma find_duplicate_unindexed (self : DuplicateDetector.t) (txn : ParsedTransaction.t)
    (candidates : list ParsedTransaction.t) :
  DuplicateDetector._transaction_index self = ∅ ->
  (100 <= length candidates)%nat ->
  _find_duplicate self txn candidates = None.
Proof.
  intros Hidx Hlen. unfold _find_duplicate, bucket_ids. rewrite Hidx, !lookup_empty. simpl.
  destruct (Nat.ltb_spec (length candidates) 100) as [|_]; [lia|].
  replace (List.filter _ candidates) with (@nil ParsedTransaction.t); [reflexivity|].
  symmetry. induction candidates as [|c l IH] in |- *; [reflexivity|]. simpl.
  rewrite bool_decide_eq_false_2; [simpl; exact IH|].
  rewrite elem_of_union. intros [H|H]; exact (not_elem_of_empty _ H).
Qed.

End CardFacts.

(** ** A run of the reconciliation engine, pair by pair *)

Module BankRun.
Import Py Bank BankState BankDerived PyFacts BankFacts BankDates.

Lemma grows_bank_ids P (st st' : Progress) :
  grows P st st' -> matched_bank_ids st ⊆ matched_bank_ids st'.
Proof. induction 1; simpl; set_solver. Qed.

Lemma grows_fold_elem P (step : Progress -> BankTransaction.t -> Progress)
    (l : list BankTransaction.t) :
  (forall st b, b ∈ l -> grows P st (step st b)) ->
  forall st, grows P st (fold_left step l st).
Proof.
  induction l as [|b l IH]; intros Hstep st; simpl; [apply grows_refl|].
  eapply grows_trans.
  - apply Hstep, elem_of_cons. auto.
  - apply IH. intros st' b' Hb'. apply Hstep, elem_of_cons. auto.
Qed.

(** The state in which a fold reaches a given element. *)
Lemma grows_fold_at P (step : Progress -> BankTransaction.t -> Progress)
    (l : list BankTransaction.t) (b : BankTransaction.t) (st0 : Progress) :
  (forall st b, grows P st (step st b)) ->
  b ∈ l ->
  exists st, grows P st0 st /\ grows P (step st b) (fold_left step l st0).
Proof.
  intros Hstep. revert st0. induction l as [|a l IH]; intros st0 Hb.
  - apply elem_of_nil in Hb. destruct Hb.
  - apply elem_of_cons in Hb as [->|Hb]; simpl.
    + exists st0. split; [apply grows_refl|]. apply grows_fold, Hstep.
    + destruct (IH (step st0 a) Hb) as (st & H1 & H2). exists st. split; [|exact H2].
      eapply grows_trans; [apply Hstep|exact H1].
Qed.

Lemma try_match_recorded (self : BankReconciliation.t) (b : BankTransaction.t)
    (k : BookTransaction.t) (m : MatchedTransaction.t) :
  _try_match self b k = Some m ->
  MatchedTransaction.bank_txn m = b /\ MatchedTransaction.book_txn m = k /\ recorded self m.
Proof.
  unfold _try_match.
  destruct (_amounts_match self _ _); simpl; [|discriminate].
  destruct (Z.ltb_spec (BankReconciliation.DATE_TOLERANCE_DAYS self) (days_apart b k)) as [|Hd];
    [discriminate|].
  destruct (Z.eqb_spec (days_apart b k) 0) as [E0|N0]; simpl.
  - destruct (Qeq_bool _ _) eqn:Eq; intros [= <-]; unfold recorded; simpl; repeat split; auto.
    + apply Qeq_bool_iff, Eq.
    + intros Hq. apply Qeq_bool_iff in Hq. congruence.
  - intros [= <-]. unfold recorded; simpl. repeat split; auto.
    unfold days_apart in *. lia.
Qed.

Lemma phase1_step_committed (self : BankReconciliation.t) (banks : list BankTransaction.t)
    (books : list BookTransaction.t) (st : Progress) (b : BankTransaction.t) :
  b ∈ banks ->
  grows (fun m => committed self banks books m /\ MatchedTransaction.match_type m = EXACT)
    st (phase1_step self books st b).
Proof.
  intros Hin. unfold phase1_step. case_bool_decide as Hb; [apply grows_refl|].
  destruct (phase1_scan self books st b) as [m|] eqn:E; [|apply grows_refl].
  unfold phase1_scan in E. apply first_some_elem in E as (k & Hk & E).
  case_bool_decide as Hkid; [discriminate|].
  destruct (_try_match self b k) as [m'|] eqn:T; [|discriminate].
  destruct (is_exact m') eqn:X; [|discriminate]. injection E as <-.
  destruct (try_match_recorded _ _ _ _ T) as (Eb & Ek & Hr).
  apply grows_one; unfold bank_id, book_id, committed; rewrite ?Eb, ?Ek; auto.
  split; [auto|]. apply bool_decide_eq_true in X. exact X.
Qed.

Lemma phase2_step_committed (self : BankReconciliation.t) (banks : list BankTransaction.t)
    (books : list BookTransaction.t) (st : Progress) (b : BankTransaction.t) :
  b ∈ banks -> grows (committed self banks books) st (phase2_step books st b).
Proof.
  intros Hin. unfold phase2_step. case_bool_decide as Hb; [apply grows_refl|].
  destruct (truthy (BankTransaction.reference b)) eqn:Rb; simpl; [|apply grows_refl].
  destruct (phase2_scan books st b) as [m|] eqn:E; [|apply grows_refl].
  unfold phase2_scan in E. apply first_some_elem in E as (k & Hk & E).
  case_bool_decide as Hkid; [discriminate|].
  destruct (truthy (BookTransaction.reference k)) eqn:Rk; simpl in E; [|discriminate].
  destruct (contains _ _) eqn:C; [|discriminate]. injection E as <-.
  apply grows_one; [exact Hb|exact Hkid|].
  unfold committed, recorded; simpl. repeat split; auto.
Qed.

Lemma phase3_step_committed (self : BankReconciliation.t) (banks : list BankTransaction.t)
    (books : list BookTransaction.t) (st : Progress) (b : BankTransaction.t) :
  b ∈ banks -> grows (committed self banks books) st (phase3_step self books st b).
Proof.
  intros Hin. unfold phase3_step. case_bool_decide as Hb; [apply grows_refl|].
  destruct (best_candidate _) as [[m k]|] eqn:E; [|apply grows_refl].
  apply best_candidate_elem, phase3_candidates_elem in E as (Hk & Hkid & T & _).
  destruct (try_match_recorded _ _ _ _ T) as (Eb & Ek & Hr).
  assert (Hc : mkProgress (so_far st ++ [m]) ({[BankTransaction.id b]} ∪ matched_bank_ids st)
                 ({[BookTransaction.id k]} ∪ matched_book_ids st) = commit st m).
  { unfold commit. rewrite Eb, Ek. reflexivity. }
  rewrite Hc. apply grows_one; unfold bank_id, book_id, committed; rewrite ?Eb, ?Ek; auto.
Qed.

Lemma run_phases_committed (self : BankReconciliation.t)
    (banks : list BankTransaction.t) (books : list BookTransaction.t) :
  grows (committed self banks books) no_progress (run_phases self banks books).
Proof.
  unfold run_phases.
  eapply grows_trans; [eapply grows_trans|].
  - apply grows_fold_elem. intros st b Hb. eapply grows_weaken; [|apply phase1_step_committed, Hb].
    intros m [Hm _]. exact Hm.
  - apply grows_fold_elem. intros st b Hb. apply phase2_step_committed, Hb.
  - apply grows_fold_elem. intros st b Hb. apply phase3_step_committed, Hb.
Qed.

Lemma run_phases_all_committed (self : BankReconciliation.t)
    (banks : list BankTransaction.t) (books : list BookTransaction.t) :
  Forall (committed self banks books) (so_far (run_phases self banks books)).
Proof.
  destruct (grows_so_far _ _ _ (run_phases_committed self banks books)) as (added & E & H).
  rewrite E. exact H.
Qed.

(** The confidence that goes with each match type. *)
Lemma recorded_confidence (self : BankReconciliation.t) (m : MatchedTransaction.t) :
  recorded self m ->
  (MIN_CONFIDENCE_THRESHOLD <= MatchedTransaction.confidence m <= 1)%Q.
Proof.
  unfold recorded, MIN_CONFIDENCE_THRESHOLD. intros (_ & _ & _ & H).
  destruct (MatchedTransaction.match_type m).
  - destruct H as (-> & _). lra.
  - destruct H as (-> & _). lra.
  - destruct H as (-> & Hd).
    destruct (max_cases (7 # 10) (1 - inject_Z (days_apart (MatchedTransaction.bank_txn m)
                (MatchedTransaction.book_txn m)) * (1 # 10))) as [[-> Hlt]|[-> Hle]]; [|lra].
    split; [lra|].
    assert (H0 : (inject_Z 0 <= inject_Z (days_apart (MatchedTransaction.bank_txn m)
                     (MatchedTransaction.book_txn m)))%Q).
    { rewrite <- Zle_Qle. lia. }
    change (inject_Z 0) with 0%Q in H0. lra.
  - destruct H as (-> & _). lra.
  - destruct H.
Qed.

End BankRun.

(** ** The two sides of a reconciliation result *)

Module BankParts.
Import Py Bank BankState BankDerived PyFacts BankFacts BankDates BankRun.

Lemma filter_split {A} (f : A -> bool) (l : list A) :
  l ≡ₚ List.filter f l ++ List.filter (fun x => negb (f x)) l.
Proof.
  induction l as [|a l IH]; simpl; [reflexivity|]. destruct (f a); simpl.
  - constructor. exact IH.
  - rewrite <- Permutation_middle. constructor. exact IH.
Qed.

Lemma filter_elem {A} (f : A -> bool) (l : list A) (x : A) :
  x ∈ List.filter f l <-> x ∈ l /\ f x = true.
Proof. rewrite !list_elem_of_In. apply filter_In. Qed.

Lemma filter_NoDup {A} (f : A -> bool) (l : list A) : NoDup l -> NoDup (List.filter f l).
Proof.
  induction 1 as [|a l Ha _ IH]; simpl; [constructor|].
  destruct (f a); [|exact IH]. constructor; [|exact IH].
  intros H. apply filter_elem in H as [H _]. contradiction.
Qed.

(** The items of the two unmatched lists, read back as transactions. *)
Lemma unmatched_transactions {A} (side : A -> BankTransaction.t + BookTransaction.t)
    (c : A -> bool) (item : A -> UnmatchedItem.t) (l : list A) :
  (forall x, UnmatchedItem.transaction (item x) = side x) ->
  map UnmatchedItem.transaction (flat_map (fun x => if c x then [] else [item x]) l) =
  map side (List.filter (fun x => negb (c x)) l).
Proof.
  intros Hs. induction l as [|a l IH]; simpl; [reflexivity|].
  destruct (c a); simpl; [exact IH|]. rewrite Hs, IH. reflexivity.
Qed.

Lemma unmatched_elem {A} (c : A -> bool) (item : A -> UnmatchedItem.t) (l : list A)
    (u : UnmatchedItem.t) :
  u ∈ flat_map (fun x => if c x then [] else [item x]) l <->
  exists x, x ∈ l /\ c x = false /\ u = item x.
Proof.
  rewrite list_elem_of_In, in_flat_map. split.
  - intros (x & Hx & Hu). exists x. apply list_elem_of_In in Hx.
    destruct (c x); [destruct Hu|]. destruct Hu as [<-|[]]. auto.
  - intros (x & Hx & Hc & ->). exists x. split; [apply list_elem_of_In, Hx|].
    rewrite Hc. left. reflexivity.
Qed.

Lemma id_inj_bank (banks : list BankTransaction.t) (x y : BankTransaction.t) :
  NoDup (map BankTransaction.id banks) -> x ∈ banks -> y ∈ banks ->
  BankTransaction.id x = BankTransaction.id y -> x = y.
Proof.
  induction banks as [|a l IH]; simpl; intros Hnd Hx Hy E.
  - apply elem_of_nil in Hx. destruct Hx.
  - apply NoDup_cons in Hnd as [Ha Hnd].
    apply elem_of_cons in Hx as [->|Hx]; apply elem_of_cons in Hy as [->|Hy]; auto.
    + exfalso. apply Ha. rewrite E. apply list_elem_of_In, in_map, list_elem_of_In, Hy.
    + exfalso. apply Ha. rewrite <- E. apply list_elem_of_In, in_map, list_elem_of_In, Hx.
Qed.

Lemma id_inj_book (books : list BookTransaction.t) (x y : BookTransaction.t) :
  NoDup (map BookTransaction.id books) -> x ∈ books -> y ∈ books ->
  BookTransaction.id x = BookTransaction.id y -> x = y.
Proof.
  induction books as [|a l IH]; simpl; intros Hnd Hx Hy E.
  - apply elem_of_nil in Hx. destruct Hx.
  - apply NoDup_cons in Hnd as [Ha Hnd].
    apply elem_of_cons in Hx as [->|Hx]; apply elem_of_cons in Hy as [->|Hy]; auto.
    + exfalso. apply Ha. rewrite E. apply list_elem_of_In, in_map, list_elem_of_In, Hy.
    + exfalso. apply Ha. rewrite <- E. apply list_elem_of_In, in_map, list_elem_of_In, Hx.
Qed.

(** With distinct ids, the bank sides of the committed pairs are the bank
    transactions whose id is in the set, each of them once. *)
Lemma matched_bank_side (self : BankReconciliation.t)
    (banks : list BankTransaction.t) (books : list BookTransaction.t) :
  NoDup (map BankTransaction.id banks) ->
  map MatchedTransaction.bank_txn (so_far (run_phases self banks books)) ≡ₚ
  List.filter (fun b => bool_decide (BankTransaction.id b ∈
                           matched_bank_ids (run_phases self banks books))) banks.
Proof.
  intros Hnd.
  destruct (run_phases_tracked self banks books) as (Hb & _ & Nb & _).
  pose proof (run_phases_all_committed self banks books) as Hall.
  rewrite Forall_forall in Hall.
  apply NoDup_Permutation.
  - apply (NoDup_fmap_1 BankTransaction.id). unfold bank_id in Nb.
    rewrite <- map_map in Nb. exact Nb.
  - apply filter_NoDup. apply (NoDup_fmap_1 BankTransaction.id). exact Hnd.
  - intros x. rewrite filter_elem, bool_decide_eq_true, Hb. split.
    + intros Hx. apply list_elem_of_In, in_map_iff in Hx as (m & <- & Hm).
      apply list_elem_of_In in Hm. split; [apply (Hall m Hm)|].
      apply list_elem_of_In, (in_map bank_id), list_elem_of_In, Hm.
    + intros [Hx Hid]. apply list_elem_of_In, in_map_iff in Hid as (m & E & Hm).
      apply list_elem_of_In in Hm. destruct (Hall m Hm) as (Hin & _).
      rewrite <- (id_inj_bank banks _ _ Hnd Hin Hx E).
      apply list_elem_of_In, in_map, list_elem_of_In, Hm.
Qed.

Lemma matched_book_side (self : BankReconciliation.t)
    (banks : list BankTransaction.t) (books : list BookTransaction.t) :
  NoDup (map BookTransaction.id books) ->
  map MatchedTransaction.book_txn (so_far (run_phases self banks books)) ≡ₚ
  List.filter (fun k => bool_decide (BookTransaction.id k ∈
                           matched_book_ids (run_phases self banks books))) books.
Proof.
  intros Hnd.
  destruct (run_phases_tracked self banks books) as (_ & Hk & _ & Nk).
  pose proof (run_phases_all_committed self banks books) as Hall.
  rewrite Forall_forall in Hall.
  apply NoDup_Permutation.
  - apply (NoDup_fmap_1 BookTransaction.id). unfold book_id in Nk.
    rewrite <- map_map in Nk. exact Nk.
  - apply filter_NoDup. apply (NoDup_fmap_1 BookTransaction.id). exact Hnd.
  - intros x. rewrite filter_elem, bool_decide_eq_true, Hk. split.
    + intros Hx. apply list_elem_of_In, in_map_iff in Hx as (m & <- & Hm).
      apply list_elem_of_In in Hm. split; [apply (Hall m Hm)|].
      apply list_elem_of_In, (in_map book_id), list_elem_of_In, Hm.
    + intros [Hx Hid]. apply list_elem_of_In, in_map_iff in Hid as (m & E & Hm).
      apply list_elem_of_In in Hm. destruct (Hall m Hm) as (_ & Hin & _).
      rewrite <- (id_inj_book books _ _ Hnd Hin Hx E).
      apply list_elem_of_In, in_map, list_elem_of_In, Hm.
Qed.

(** The whole bank side of a result: pairs and unmatched items together
    are the input, rearranged. *)
Lemma reconcile_bank_side (self : BankReconciliation.t) (clock : Today)
    (entity account : string) (banks : list BankTransaction.t) (books : list BookTransaction.t)
    (period_start period_end : option Z) (bo bc ko kc : Decimal) :
  NoDup (map BankTransaction.id banks) ->
  let r := reconcile self clock entity account banks books period_start period_end bo bc ko kc in
  map inl banks ≡ₚ
  map (fun m => inl (MatchedTransaction.bank_txn m)) (ReconciliationResult.matched r) ++
  map UnmatchedItem.transaction (ReconciliationResult.unmatched_bank r).
Proof.
  intros Hnd r. subst r. unfold reconcile; simpl.
  set (bank_sorted := sorted_by bank_before banks).
  set (book_sorted := sorted_by book_before books).
  assert (Hnd' : NoDup (map BankTransaction.id bank_sorted)).
  { unfold bank_sorted. rewrite (sorted_by_perm bank_before banks). exact Hnd. }
  rewrite (unmatched_transactions inl
             (fun b => bool_decide (BankTransaction.id b ∈
                          matched_bank_ids (run_phases self bank_sorted book_sorted))))
    by reflexivity.
  rewrite <- (map_map MatchedTransaction.bank_txn inl).
  rewrite (matched_bank_side self bank_sorted book_sorted Hnd').
  rewrite <- map_app, <- filter_split.
  unfold bank_sorted. rewrite (sorted_by_perm bank_before banks). reflexivity.
Qed.

Lemma reconcile_book_side (self : BankReconciliation.t) (clock : Today)
    (entity account : string) (banks : list BankTransaction.t) (books : list BookTransaction.t)
    (period_start period_end : option Z) (bo bc ko kc : Decimal) :
  NoDup (map BookTransaction.id books) ->
  let r := reconcile self clock entity account banks books period_start period_end bo bc ko kc in
  map inr books ≡ₚ
  map (fun m => inr (MatchedTransaction.book_txn m)) (ReconciliationResult.matched r) ++
  map UnmatchedItem.transaction (ReconciliationResult.unmatched_book r).
Proof.
  intros Hnd r. subst r. unfold reconcile; simpl.
  set (bank_sorted := sorted_by bank_before banks).
  set (book_sorted := sorted_by book_before books).
  assert (Hnd' : NoDup (map BookTransaction.id book_sorted)).
  { unfold book_sorted. rewrite (sorted_by_perm book_before books). exact Hnd. }
  rewrite (unmatched_transactions inr
             (fun k => bool_decide (BookTransaction.id k ∈
                          matched_book_ids (run_phases self bank_sorted book_sorted))))
    by reflexivity.
  rewrite <- (map_map MatchedTransaction.book_txn inr).
  rewrite (matched_book_side self bank_sorted book_sorted Hnd').
  rewrite <- map_app, <- filter_split.
  unfold book_sorted. rewrite (sorted_by_perm book_before books). reflexivity.
Qed.

(** *** Sums of amounts *)






End BankParts.

(** ** What a run leaves unmatched *)

Module BankLeftover.
Import Py Bank BankState BankDerived PyFacts BankFacts BankDates BankRun BankParts.

Lemma any_step_grows (self : BankReconciliation.t) (books : list BookTransaction.t) :
  (forall st b, grows (fun _ => True) st (phase1_step self books st b)) /\
  (forall st b, grows (fun _ => True) st (phase2_step books st b)) /\
  (forall st b, grows (fun _ => True) st (phase3_step self books st b)).
Proof.
  repeat split; intros st b.
  - eapply grows_weaken; [|apply phase1_step_grows]. auto.
  - eapply grows_weaken; [|apply phase2_step_grows]. auto.
  - eapply grows_weaken; [|apply phase3_step_grows]. auto.
Qed.

(** A bank transaction that phase 3 leaves unmatched had no candidate. *)
Lemma phase3_leftover (self : BankReconciliation.t) (books : list BookTransaction.t)
    (st : Progress) (b : BankTransaction.t) (k : BookTransaction.t) :
  BankTransaction.id b ∉ matched_bank_ids (phase3_step self books st b) ->
  k ∈ books -> BookTransaction.id k ∉ matched_book_ids st ->
  _try_match self b k = None.
Proof.
  intros Hb Hk Hkid.
  assert (Hb0 : BankTransaction.id b ∉ matched_bank_ids st).
  { intros H. apply Hb. eapply grows_bank_ids; [apply phase3_step_grows|exact H]. }
  destruct (phase3_pick self books st b Hb0) as [[_ H]|(m & k0 & pre & post & _ & _ & T & E & _)].
  - apply H; assumption.
  - exfalso. apply Hb. rewrite E. destruct (try_match_Some _ _ _ _ T) as (Eb & _).
    simpl. rewrite Eb. set_solver.
Qed.

(** The same for phase 2 and the reference test. *)
Lemma phase2_leftover (books : list BookTransaction.t)
    (st : Progress) (b : BankTransaction.t) (k : BookTransaction.t) :
  BankTransaction.id b ∉ matched_bank_ids (phase2_step books st b) ->
  k ∈ books -> BookTransaction.id k ∉ matched_book_ids st ->
  truthy (BankTransaction.reference b) &&
  (truthy (BookTransaction.reference k) &&
   contains (default EmptyString (BankTransaction.reference b))
            (default EmptyString (BookTransaction.reference k))) = false.
Proof.
  unfold phase2_step. case_bool_decide as Hb0; [contradiction|].
  destruct (truthy (BankTransaction.reference b)); simpl; [|reflexivity].
  destruct (phase2_scan books st b) as [m|] eqn:E.
  - intros Hb. exfalso. apply Hb. apply phase2_scan_Some in E as (k' & _ & _ & ->).
    simpl. set_solver.
  - intros _ Hk Hkid. unfold phase2_scan in E. apply first_some_None in E.
    rewrite Forall_forall in E. specialize (E k Hk). simpl in E.
    rewrite bool_decide_eq_false_2 in E by exact Hkid.
    destruct (andb _ _); [discriminate|reflexivity].
Qed.

(** At the end of a run no unmatched bank transaction and unmatched book
    transaction pass [_try_match] or the reference test. *)
Lemma run_phases_leftover (self : BankReconciliation.t)
    (banks : list BankTransaction.t) (books : list BookTransaction.t)
    (b : BankTransaction.t) (k : BookTransaction.t) :
  b ∈ banks -> k ∈ books ->
  BankTransaction.id b ∉ matched_bank_ids (run_phases self banks books) ->
  BookTransaction.id k ∉ matched_book_ids (run_phases self banks books) ->
  _try_match self b k = None /\
  truthy (BankTransaction.reference b) &&
  (truthy (BookTransaction.reference k) &&
   contains (default EmptyString (BankTransaction.reference b))
            (default EmptyString (BookTransaction.reference k))) = false.
Proof.
  intros Hb Hk Hbid Hkid. unfold run_phases in Hbid, Hkid.
  destruct (any_step_grows self books) as (G1 & G2 & G3).
  set (st1 := fold_left (phase1_step self books) banks no_progress) in *.
  set (st2 := fold_left (phase2_step books) banks st1) in *.
  split.
  - destruct (grows_fold_at _ _ banks b st2 G3 Hb) as (st & H1 & H2).
    apply (phase3_leftover self books st b k).
    + intros H. apply Hbid. eapply grows_bank_ids; [exact H2|exact H].
    + exact Hk.
    + intros H. apply Hkid. eapply grows_book_ids; [|exact H].
      eapply grows_trans; [apply G3|exact H2].
  - destruct (grows_fold_at _ _ banks b st1 G2 Hb) as (st & H1 & H2).
    fold st2 in H2.
    assert (H3 : grows (fun _ => True) st2 (fold_left (phase3_step self books) banks st2))
      by (apply grows_fold, G3).
    apply (phase2_leftover books st b k).
    + intros H. apply Hbid. eapply grows_bank_ids; [exact H3|].
      eapply grows_bank_ids; [exact H2|exact H].
    + exact Hk.
    + intros H. apply Hkid. eapply grows_book_ids; [exact H3|].
      eapply grows_book_ids; [|exact H]. eapply grows_trans; [apply G2|exact H2].
Qed.

(** *** Exact counterparts *)

Lemma try_match_exact (self : BankReconciliation.t) (b : BankTransaction.t)
    (k : BookTransaction.t) :
  (0 <= BankReconciliation.DATE_TOLERANCE_DAYS self)%Z ->
  BankTransaction.date b = BookTransaction.date k ->
  (dval (BankTransaction.amount b) == dval (BookTransaction.amount k))%Q ->
  _try_match self b k = Some (_create_match b k EXACT 1).
Proof.
  intros Htol Hd Ha. apply Qeq_bool_iff in Ha. unfold _try_match, _amounts_match.
  rewrite Ha. simpl.
  assert (E : days_apart b k = 0%Z) by (unfold days_apart; lia).
  rewrite E. destruct (Z.ltb_spec (BankReconciliation.DATE_TOLERANCE_DAYS self) 0); [lia|].
  reflexivity.
Qed.

Lemma phase1_step_exact (self : BankReconciliation.t) (books : list BookTransaction.t)
    (st : Progress) (b : BankTransaction.t) :
  grows (fun m => MatchedTransaction.match_type m = EXACT) st (phase1_step self books st b).
Proof.
  eapply grows_weaken; [|apply (phase1_step_committed self [b] books st b)].
  - intros m [_ H]. exact H.
  - apply elem_of_cons. auto.
Qed.

Lemma grows_all P (st : Progress) : grows P no_progress st -> Forall P (so_far st).
Proof.
  intros H. destruct (grows_so_far _ _ _ H) as (added & -> & Hall). exact Hall.
Qed.

Lemma tracked_bank_pair (st : Progress) (x : string) :
  tracked st -> x ∈ matched_bank_ids st -> exists m, m ∈ so_far st /\ bank_id m = x.
Proof.
  intros (Hb & _) Hx. apply Hb, list_elem_of_In, in_map_iff in Hx as (m & E & Hm).
  exists m. split; [apply list_elem_of_In, Hm|exact E].
Qed.

Lemma tracked_book_pair (st : Progress) (x : string) :
  tracked st -> x ∈ matched_book_ids st -> exists m, m ∈ so_far st /\ book_id m = x.
Proof.
  intros (_ & Hk & _) Hx. apply Hk, list_elem_of_In, in_map_iff in Hx as (m & E & Hm).
  exists m. split; [apply list_elem_of_In, Hm|exact E].
Qed.

(** After phase 1, of a bank and a book transaction that agree in date and
    amount, one at least is in an exact pair. *)
Lemma phase1_exact_counterpart (self : BankReconciliation.t)
    (banks : list BankTransaction.t) (books : list BookTransaction.t)
    (b : BankTransaction.t) (k : BookTransaction.t) :
  (0 <= BankReconciliation.DATE_TOLERANCE_DAYS self)%Z ->
  b ∈ banks -> k ∈ books ->
  BankTransaction.date b = BookTransaction.date k ->
  (dval (BankTransaction.amount b) == dval (BookTransaction.amount k))%Q ->
  exists m, m ∈ so_far (fold_left (phase1_step self books) banks no_progress) /\
    MatchedTransaction.match_type m = EXACT /\
    (bank_id m = BankTransaction.id b \/ book_id m = BookTransaction.id k).
Proof.
  intros Htol Hb Hk Hd Ha.
  destruct (grows_fold_at _ _ banks b no_progress (phase1_step_exact self books) Hb)
    as (st & H1 & H2).
  pose proof (grows_tracked _ _ _ H1 tracked_start) as Ht.
  pose proof (grows_all _ _ H1) as Hall. rewrite Forall_forall in Hall.
  assert (Hlater : forall m, m ∈ so_far (phase1_step self books st b) ->
            m ∈ so_far (fold_left (phase1_step self books) banks no_progress)).
  { intros m Hm. eapply grows_so_far_elem; [exact H2|exact Hm]. }
  assert (Hnow : forall m, m ∈ so_far st -> m ∈ so_far (phase1_step self books st b)).
  { intros m Hm. eapply grows_so_far_elem; [apply phase1_step_exact|exact Hm]. }
  destruct (decide (BankTransaction.id b ∈ matched_bank_ids st)) as [Hbid|Hbid].
  { destruct (tracked_bank_pair st _ Ht Hbid) as (m & Hm & E). exists m. auto. }
  destruct (decide (BookTransaction.id k ∈ matched_book_ids st)) as [Hkid|Hkid].
  { destruct (tracked_book_pair st _ Ht Hkid) as (m & Hm & E). exists m. auto. }
  assert (Hscan : is_Some (phase1_scan self books st b)).
  { unfold phase1_scan. apply (first_some_is_Some _ _ k Hk).
    rewrite bool_decide_eq_false_2 by exact Hkid.
    rewrite (try_match_exact self b k Htol Hd Ha). simpl. eauto. }
  destruct Hscan as [m Hscan].
  assert (Hstep : phase1_step self books st b = commit st m).
  { unfold phase1_step. rewrite bool_decide_eq_false_2 by exact Hbid. rewrite Hscan. reflexivity. }
  unfold phase1_scan in Hscan. apply first_some_elem in Hscan as (k' & _ & E).
  destruct (bool_decide _); [discriminate|].
  destruct (_try_match self b k') as [m'|] eqn:T; [|discriminate].
  destruct (is_exact m') eqn:X; [|discriminate]. injection E as ->.
  exists m. split; [|split].
  - apply Hlater. rewrite Hstep. simpl. apply elem_of_app. right. apply elem_of_cons. auto.
  - apply bool_decide_eq_true in X. exact X.
  - left. unfold bank_id. destruct (try_match_Some _ _ _ _ T) as (-> & _). reflexivity.
Qed.

Lemma run_phases_exact_counterpart (self : BankReconciliation.t)
    (banks : list BankTransaction.t) (books : list BookTransaction.t)
    (b : BankTransaction.t) (k : BookTransaction.t) :
  (0 <= BankReconciliation.DATE_TOLERANCE_DAYS self)%Z ->
  b ∈ banks -> k ∈ books ->
  BankTransaction.date b = BookTransaction.date k ->
  (dval (BankTransaction.amount b) == dval (BookTransaction.amount k))%Q ->
  exists m, m ∈ so_far (run_phases self banks books) /\
    MatchedTransaction.match_type m = EXACT /\
    (bank_id m = BankTransaction.id b \/ book_id m = BookTransaction.id k).
Proof.
  intros Htol Hb Hk Hd Ha.
  destruct (phase1_exact_counterpart self banks books b k Htol Hb Hk Hd Ha) as (m & Hm & H).
  exists m. split; [|exact H]. unfold run_phases.
  destruct (any_step_grows self books) as (_ & G2 & G3).
  eapply grows_so_far_elem; [apply grows_fold, G3|].
  eapply grows_so_far_elem; [apply grows_fold, G2|exact Hm].
Qed.

(** *** Suggestions for an unmatched bank transaction *)

Lemma possible_elem (self : BankReconciliation.t) (b : BankTransaction.t)
    (books : list BookTransaction.t) (ids : gset string) (p : PossibleMatch.t) :
  p ∈ _find_possible_matches self b books ids ->
  exists k, k ∈ books /\ (BookTransaction.id k ∉ ids) /\
    _amounts_match self (BankTransaction.amount b) (BookTransaction.amount k) = true /\
    p = PossibleMatch.mk (BookTransaction.id k) (BookTransaction.amount k)
          (BookTransaction.date k) (BookTransaction.description k) (days_apart b k).
Proof.
  unfold _find_possible_matches. intros H.
  apply elem_of_take in H as (i & H & _). apply list_elem_of_lookup_2 in H.
  apply sorted_by_elem, list_elem_of_In, in_flat_map in H as (k & Hk & H).
  apply list_elem_of_In in Hk. exists k.
  case_bool_decide as Hkid; [destruct H|].
  destruct (_amounts_match self _ _); [|destruct H]. destruct H as [<-|[]]. auto.
Qed.

Lemma possible_nil (self : BankReconciliation.t) (b : BankTransaction.t)
    (books : list BookTransaction.t) (ids : gset string) :
  _find_possible_matches self b books ids = [] <->
  forall k, k ∈ books -> BookTransaction.id k ∉ ids ->
    _amounts_match self (BankTransaction.amount b) (BookTransaction.amount k) = false.
Proof.
  unfold _find_possible_matches. split.
  - intros H k Hk Hkid.
    destruct (_amounts_match self _ _) eqn:Ha; [exfalso|reflexivity].
    assert (Hin : PossibleMatch.mk (BookTransaction.id k) (BookTransaction.amount k)
          (BookTransaction.date k) (BookTransaction.description k) (days_apart b k)
          ∈ sorted_by (fun y x => (PossibleMatch.date_diff_days y <? PossibleMatch.date_diff_days x)%Z)
              (flat_map (fun book_txn =>
                 if bool_decide (BookTransaction.id book_txn ∈ ids) then []
                 else if _amounts_match self (BankTransaction.amount b) (BookTransaction.amount book_txn)
                 then [PossibleMatch.mk (BookTransaction.id book_txn) (BookTransaction.amount book_txn)
                         (BookTransaction.date book_txn) (BookTransaction.description book_txn)
                         (days_apart b book_txn)]
                 else []) books)).
    { apply sorted_by_elem, list_elem_of_In, in_flat_map. exists k.
      split; [apply list_elem_of_In, Hk|].
      rewrite bool_decide_eq_false_2 by exact Hkid. rewrite Ha. left. reflexivity. }
    destruct (sorted_by _ _) as [|x l]; [apply elem_of_nil in Hin; exact Hin|discriminate].
  - intros H.
    match goal with |- take 5 (sorted_by ?f ?l) = [] => assert (E : l = []) end.
    { induction books as [|k l IH]; simpl; [reflexivity|].
      rewrite IH by (intros k' Hk'; apply H, elem_of_cons; auto).
      case_bool_decide as Hkid; [reflexivity|].
      rewrite (H k) by (auto; apply elem_of_cons; auto). reflexivity. }
    rewrite E. reflexivity.
Qed.

Lemma possible_sorted (self : BankReconciliation.t) (b : BankTransaction.t)
    (books : list BookTransaction.t) (ids : gset string) :
  StronglySorted (fun p q => (PossibleMatch.date_diff_days p <= PossibleMatch.date_diff_days q)%Z)
    (_find_possible_matches self b books ids) /\
  length (_find_possible_matches self b books ids) <= 5.
Proof.
  unfold _find_possible_matches. split; [|apply firstn_le_length].
  match goal with |- StronglySorted ?R (take 5 ?l) =>
    apply (StronglySorted_app_1_l R (take 5 l) (drop 5 l)) end.
  rewrite take_drop. apply sorted_by_sorted.
  - intros x y z. lia.
  - intros y x H. apply Z.ltb_lt in H. lia.
  - intros y x H. apply Z.ltb_ge in H. lia.
Qed.

End BankLeftover.

(** ** Reconciling against the database *)

Module BankAuto.
Import Py Bank BankState BankDerived PyFacts BankFacts BankDates BankRun BankParts BankLeftover.

Lemma fold_left_idle (step : Progress -> BankTransaction.t -> Progress)
    (l : list BankTransaction.t) (st : Progress) :
  (forall st b, step st b = st) -> fold_left step l st = st.
Proof.
  intros Hstep. induction l as [|b l IH]; simpl; [reflexivity|]. rewrite Hstep. exact IH.
Qed.

(** Without book transactions nothing is committed. *)
Lemma run_phases_no_books (self : BankReconciliation.t) (banks : list BankTransaction.t) :
  run_phases self banks [] = no_progress.
Proof.
  unfold run_phases.
  rewrite (fold_left_idle (phase1_step self [])).
  2:{ intros st b. unfold phase1_step. destruct (bool_decide _); reflexivity. }
  rewrite (fold_left_idle (phase2_step [])).
  2:{ intros st b. unfold phase2_step.
      destruct (bool_decide _); [reflexivity|]. destruct (negb _); reflexivity. }
  apply (fold_left_idle (phase3_step self [])).
  intros st b. unfold phase3_step. destruct (bool_decide _); reflexivity.
Qed.

Lemma fetched_without_reference (db : option Database) (entity : string) (ps pe : Z)
    (k : BookTransaction.t) :
  k ∈ _fetch_book_transactions db entity ps pe ->
  BookTransaction.reference k = None /\ BookTransaction.reconciled k = false.
Proof.
  unfold _fetch_book_transactions. destruct db as [query|]; [|intros H; apply elem_of_nil in H; destruct H].
  destruct (query entity ps pe) as [rows|]; [|intros H; apply elem_of_nil in H; destruct H].
  intros H. apply list_elem_of_In, in_map_iff in H as (row & <- & _). split; reflexivity.
Qed.

Lemma match_rate_range (r : ReconciliationResult.t) :
  exists q, ReconciliationResult.match_rate r = Some q /\ (0 <= q <= 100)%Q.
Proof.
  unfold ReconciliationResult.match_rate.
  set (m := length (ReconciliationResult.matched r)).
  set (u := length (ReconciliationResult.unmatched_bank r)).
  destruct (Z.eqb_spec (Z.of_nat m + Z.of_nat u) 0) as [E|N].
  - exists 0%Q. split; [reflexivity|lra].
  - unfold truediv. destruct (Z.eqb_spec (Z.of_nat m + Z.of_nat u) 0) as [|_]; [contradiction|].
    simpl. eexists. split; [reflexivity|].
    assert (Hpos : (0 < inject_Z (Z.of_nat m + Z.of_nat u))%Q).
    { change 0%Q with (inject_Z 0). rewrite <- Zlt_Qlt. lia. }
    assert (Hm : (0 <= inject_Z (Z.of_nat m))%Q).
    { change 0%Q with (inject_Z 0). rewrite <- Zle_Qle. lia. }
    assert (Hle : (inject_Z (Z.of_nat m) <= inject_Z (Z.of_nat m + Z.of_nat u))%Q).
    { rewrite <- Zle_Qle. lia. }
    change (Z.of_nat m # 1) with (inject_Z (Z.of_nat m)).
    change ((Z.of_nat m + Z.of_nat u) # 1) with (inject_Z (Z.of_nat m + Z.of_nat u)).
    assert (H0 : (0 <= inject_Z (Z.of_nat m) / inject_Z (Z.of_nat m + Z.of_nat u))%Q).
    { apply Qle_shift_div_l; [exact Hpos|lra]. }
    assert (H1 : (inject_Z (Z.of_nat m) / inject_Z (Z.of_nat m + Z.of_nat u) <= 1)%Q).
    { apply Qle_shift_div_r; [exact Hpos|lra]. }
    lra.
Qed.

End BankAuto.

(** ** The order of a reconciliation result *)

Module BankOrder.
Import Py Bank BankState BankDerived PyFacts BankFacts BankDates BankRun BankParts BankLeftover.

Lemma exacts_used_later P (self : BankReconciliation.t) (banks : list BankTransaction.t)
    (books : list BookTransaction.t) (st st' : Progress) :
  grows P st st' -> exacts_used self banks books st -> exacts_used self banks books st'.
Proof.
  intros Hg H b k m Hb Hk Hbid Hkid. apply (H b k m Hb Hk).
  - intros Hin. apply Hbid. eapply grows_bank_ids; eassumption.
  - intros Hin. apply Hkid. eapply grows_book_ids; eassumption.
Qed.

Lemma phase1_exacts_used (self : BankReconciliation.t) (banks : list BankTransaction.t)
    (books : list BookTransaction.t) :
  exacts_used self banks books (fold_left (phase1_step self books) banks no_progress).
Proof.
  intros b k m Hb Hk Hbid Hkid T X.
  destruct (grows_fold_at _ _ banks b no_progress (phase1_step_exact self books) Hb)
    as (st & H1 & H2).
  assert (Hb1 : BankTransaction.id b ∉ matched_bank_ids (phase1_step self books st b)).
  { intros Hin. apply Hbid. eapply grows_bank_ids; eassumption. }
  assert (Hk0 : BookTransaction.id k ∉ matched_book_ids st).
  { intros Hin. apply Hkid. eapply grows_book_ids; [exact H2|].
    eapply grows_book_ids; [apply phase1_step_exact|exact Hin]. }
  unfold phase1_step in Hb1. case_bool_decide as Hb0; [contradiction|].
  destruct (phase1_scan self books st b) as [m'|] eqn:E.
  - apply Hb1. unfold phase1_scan in E. apply first_some_elem in E as (k' & _ & E).
    destruct (bool_decide _); [discriminate|].
    destruct (_try_match self b k') as [m''|] eqn:T'; [|discriminate].
    destruct (is_exact m''); [|discriminate]. injection E as ->.
    destruct (try_match_Some _ _ _ _ T') as (Eb & _). simpl. rewrite Eb. set_solver.
  - unfold phase1_scan in E. apply first_some_None in E. rewrite Forall_forall in E.
    specialize (E k Hk). simpl in E. rewrite bool_decide_eq_false_2 in E by exact Hk0.
    rewrite T in E. unfold is_exact in E. rewrite bool_decide_eq_true_2 in E by exact X.
    discriminate.
Qed.

Lemma phase3_step_inexact (self : BankReconciliation.t) (banks : list BankTransaction.t)
    (books : list BookTransaction.t) (st : Progress) (b : BankTransaction.t) :
  b ∈ banks -> exacts_used self banks books st ->
  grows (fun m => MatchedTransaction.match_type m = AMOUNT_ONLY \/
                  MatchedTransaction.match_type m = FUZZY) st (phase3_step self books st b).
Proof.
  intros Hin Hex. unfold phase3_step. case_bool_decide as Hb; [apply grows_refl|].
  destruct (best_candidate _) as [[m k]|] eqn:E; [|apply grows_refl].
  apply best_candidate_elem, phase3_candidates_elem in E as (Hk & Hkid & T & _).
  destruct (try_match_recorded _ _ _ _ T) as (Eb & Ek & Hr).
  destruct (try_match_Some _ _ _ _ T) as (_ & _ & _ & _ & _ & _ & Hnr).
  pose proof (Hex b k m Hin Hk Hb Hkid T) as Hne.
  assert (Hc : mkProgress (so_far st ++ [m]) ({[BankTransaction.id b]} ∪ matched_bank_ids st)
                 ({[BookTransaction.id k]} ∪ matched_book_ids st) = commit st m).
  { unfold commit. rewrite Eb, Ek. reflexivity. }
  rewrite Hc. apply grows_one; unfold bank_id, book_id; rewrite ?Eb, ?Ek; auto.
  destruct Hr as (_ & _ & _ & Hty).
  destruct (MatchedTransaction.match_type m); auto; contradiction.
Qed.

Lemma phase3_fold_inexact (self : BankReconciliation.t) (banks : list BankTransaction.t)
    (books : list BookTransaction.t) (l : list BankTransaction.t) :
  (forall b, b ∈ l -> b ∈ banks) ->
  forall st, exacts_used self banks books st ->
  grows (fun m => MatchedTransaction.match_type m = AMOUNT_ONLY \/
                  MatchedTransaction.match_type m = FUZZY)
    st (fold_left (phase3_step self books) l st).
Proof.
  induction l as [|b l IH]; intros Hl st Hex; simpl; [apply grows_refl|].
  assert (Hstep := phase3_step_inexact self banks books st b
                     (Hl b ltac:(apply elem_of_cons; auto)) Hex).
  eapply grows_trans; [exact Hstep|]. apply IH.
  - intros b' Hb'. apply Hl, elem_of_cons. auto.
  - eapply exacts_used_later; eassumption.
Qed.

(** The matched list, phase by phase. *)
Lemma run_phases_grouped (self : BankReconciliation.t) (banks : list BankTransaction.t)
    (books : list BookTransaction.t) :
  exists exact by_ref rest,
    so_far (run_phases self banks books) = exact ++ by_ref ++ rest /\
    Forall (fun m => MatchedTransaction.match_type m = EXACT) exact /\
    Forall (fun m => MatchedTransaction.match_type m = REFERENCE) by_ref /\
    Forall (fun m => MatchedTransaction.match_type m = AMOUNT_ONLY \/
                     MatchedTransaction.match_type m = FUZZY) rest.
Proof.
  unfold run_phases.
  set (st1 := fold_left (phase1_step self books) banks no_progress).
  set (st2 := fold_left (phase2_step books) banks st1).
  assert (G1 : grows (fun m => MatchedTransaction.match_type m = EXACT) no_progress st1)
    by (apply grows_fold, phase1_step_exact).
  assert (G2 : grows by_reference st1 st2) by (apply grows_fold, phase2_step_grows).
  assert (Hex2 : exacts_used self banks books st2).
  { eapply exacts_used_later; [exact G2|apply phase1_exacts_used]. }
  pose proof (phase3_fold_inexact self banks books banks (fun b H => H) st2 Hex2) as G3.
  destruct (grows_so_far _ _ _ G1) as (exact & E1 & H1).
  destruct (grows_so_far _ _ _ G2) as (by_ref & E2 & H2).
  destruct (grows_so_far _ _ _ G3) as (rest & E3 & H3).
  exists exact, by_ref, rest. rewrite E3, E2, E1. simpl. rewrite <- app_assoc.
  split; [reflexivity|]. split; [exact H1|]. split; [|exact H3].
  eapply Forall_impl; [exact H2|]. intros m [Hm _]. exact Hm.
Qed.

(** *** Order of the unmatched items *)

Lemma filter_sorted {A} (R : relation A) (f : A -> bool) (l : list A) :
  StronglySorted R l -> StronglySorted R (List.filter f l).
Proof.
  induction 1 as [|a l _ IH Ha]; simpl; [constructor|].
  destruct (f a); [|exact IH]. constructor; [exact IH|].
  apply Forall_forall. intros x Hx. apply filter_elem in Hx as [Hx _].
  rewrite Forall_forall in Ha. apply Ha, Hx.
Qed.

Lemma map_sorted {A B} (R : relation A) (R' : relation B) (g : A -> B) (l : list A) :
  (forall x y, R x y -> R' (g x) (g y)) ->
  StronglySorted R l -> StronglySorted R' (map g l).
Proof.
  intros HR. induction 1 as [|a l _ IH Ha]; simpl; constructor; [exact IH|].
  apply Forall_forall. intros y Hy. apply list_elem_of_In, in_map_iff in Hy as (x & <- & Hx).
  rewrite Forall_forall in Ha. apply HR, Ha, list_elem_of_In, Hx.
Qed.

End BankOrder.

(** ** A batch of the duplicate detector, step by step *)

Module CardRun.
Import Py Card CardState CardDerived PyFacts CardFacts.

(** *** Confidence values *)

Lemma raw_confidence_well_capped (self : DuplicateDetector.t) (txn1 txn2 : ParsedTransaction.t)
    (date_diff : Z) (score : Score) :
  amount_signal self txn1 txn2 (date_signal date_diff) = Some score ->
  well_capped (fst (reference_signal txn1 txn2
                      (merchant_signal txn1 txn2 (description_signal txn1 txn2 score)))) = true.
Proof.
  unfold date_signal, amount_signal, description_signal, merchant_signal, reference_signal.
  destruct (date_diff =? 0)%Z;
    (destruct (Qeq_bool _ _); [|destruct (Qle_bool _ _); [|discriminate]]);
    intros [= <-];
    (destruct (PrimFloat.ltb 0.8 _); [|destruct (PrimFloat.ltb 0.5 _)]);
    (destruct (andb (nonempty _) (nonempty _)); [destruct (PrimFloat.ltb 0.8 _)|]);
    (destruct (andb (truthy _) (truthy _)); [destruct (bool_decide _)|]);
    cbn [fst]; vm_compute; reflexivity.
Qed.

Lemma verdict_medium (txn1 txn2 : ParsedTransaction.t) (score : Score) (m : DuplicateMatch.t) :
  verdict txn1 txn2 score = Some m ->
  PrimFloat.leb MEDIUM_CONFIDENCE_THRESHOLD (fst score) = true.
Proof.
  unfold verdict. destruct score as [c r]. simpl.
  destruct (PrimFloat.leb MEDIUM_CONFIDENCE_THRESHOLD c); [reflexivity|discriminate].
Qed.

(** Every reported confidence is between the two ends, and the flag says on
    which side of the high threshold it is. *)
Lemma compare_confidence (self : DuplicateDetector.t) (txn1 txn2 : ParsedTransaction.t)
    (m : DuplicateMatch.t) :
  _compare_transactions self txn1 txn2 = Some m ->
  PrimFloat.leb MEDIUM_CONFIDENCE_THRESHOLD (DuplicateMatch.confidence m) = true /\
  PrimFloat.leb (DuplicateMatch.confidence m) 1.0 = true /\
  DuplicateMatch.is_likely_duplicate m =
    PrimFloat.leb HIGH_CONFIDENCE_THRESHOLD (DuplicateMatch.confidence m).
Proof.
  unfold _compare_transactions.
  destruct (_ =? _)%nat; [discriminate|].
  case_bool_decide as Hh.
  { intros [= <-]. simpl. repeat split; vm_compute; reflexivity. }
  destruct (_ <? _)%Z; [discriminate|].
  destruct (amount_signal self txn1 txn2 _) as [score|] eqn:Ea; [|discriminate].
  intros Hv. pose proof (raw_confidence_well_capped _ _ _ _ _ Ea) as Hcap.
  pose proof (verdict_medium _ _ _ _ Hv) as Hmed.
  destruct (verdict_Some _ _ _ _ Hv) as (_ & _ & -> & ->).
  unfold well_capped in Hcap. rewrite Hmed in Hcap. simpl in Hcap.
  apply andb_true_iff in Hcap as [Hcap H3]. apply andb_true_iff in Hcap as [H1 H2].
  apply eqb_prop in H3. auto.
Qed.

(** The detector compares with its two tolerances and nothing else. *)
Lemma compare_same_tolerances (self self' : DuplicateDetector.t) (txn1 txn2 : ParsedTransaction.t) :
  DuplicateDetector.date_tolerance self' = DuplicateDetector.date_tolerance self ->
  DuplicateDetector.amount_tolerance self' = DuplicateDetector.amount_tolerance self ->
  _compare_transactions self' txn1 txn2 = _compare_transactions self txn1 txn2.
Proof.
  intros Hd Ha. unfold _compare_transactions, amount_signal. rewrite Hd, Ha. reflexivity.
Qed.

(** *** Fewer than a hundred candidates *)

Lemma find_duplicate_small (self : DuplicateDetector.t) (txn : ParsedTransaction.t)
    (candidates : list ParsedTransaction.t) :
  (length candidates < 100)%nat ->
  _find_duplicate self txn candidates = check_single self txn candidates.
Proof.
  intros Hlen. unfold _find_duplicate, check_single. f_equal.
  apply Nat.ltb_lt in Hlen. rewrite Hlen.
  induction candidates as [|c l IH] in |- *; simpl; [reflexivity|].
  rewrite orb_true_r. f_equal.
  clear IH. induction l as [|c' l IH]; simpl; [reflexivity|]. rewrite orb_true_r, IH. reflexivity.
Qed.

Lemma check_single_None (self : DuplicateDetector.t) (txn : ParsedTransaction.t)
    (existing : list ParsedTransaction.t) :
  check_single self txn existing = None <->
  forall c, c ∈ existing -> _compare_transactions self txn c = None.
Proof. unfold check_single. rewrite first_some_None, Forall_forall. reflexivity. Qed.

(** *** One step of the batch *)

Lemma check_step_filed (self : DuplicateDetector.t) (all : list ParsedTransaction.t)
    (result : Sorting) (txn : ParsedTransaction.t) :
  Permutation
    (map DuplicateMatch.transaction (reported (check_step self all result txn)) ++
     unique_transactions (check_step self all result txn))
    ((map DuplicateMatch.transaction (reported result) ++ unique_transactions result) ++ [txn]).
Proof.
  destruct (check_step_cases self all result txn) as [(m & c & _ & Hm & ->)|(_ & _ & ->)].
  - destruct (file_match_reported result m) as [Hp ->]. rewrite Hp. simpl.
    destruct (compare_Some _ _ _ _ Hm) as (-> & _).
    rewrite <- Permutation_cons_append. reflexivity.
  - unfold reported. simpl. rewrite !app_assoc. reflexivity.
Qed.

Lemma sort_fold_filed (self : DuplicateDetector.t) (all batch : list ParsedTransaction.t) :
  forall result,
  Permutation
    (map DuplicateMatch.transaction (reported (fold_left (check_step self all) batch result)) ++
     unique_transactions (fold_left (check_step self all) batch result))
    ((map DuplicateMatch.transaction (reported result) ++ unique_transactions result) ++ batch).
Proof.
  induction batch as [|txn batch IH]; intros result; simpl.
  - rewrite app_nil_r. reflexivity.
  - rewrite IH, check_step_filed, <- app_assoc. reflexivity.
Qed.

(** The unique list grows at its end, in the order of the batch. *)
Lemma sort_fold_order (self : DuplicateDetector.t) (all batch : list ParsedTransaction.t) :
  forall result, exists accepted,
    unique_transactions (fold_left (check_step self all) batch result) =
      unique_transactions result ++ accepted /\
    sublist accepted batch.
Proof.
  induction batch as [|txn batch IH]; intros result; simpl.
  - exists []. rewrite app_nil_r. split; [reflexivity|constructor].
  - destruct (IH (check_step self all result txn)) as (accepted & E & Hs). rewrite E.
    destruct (check_step_cases self all result txn) as [(m & c & _ & _ & ->)|(_ & _ & ->)].
    + destruct (file_match_reported result m) as [_ ->].
      exists accepted. split; [reflexivity|]. apply sublist_cons, Hs.
    + simpl. exists (txn :: accepted). rewrite <- app_assoc. split; [reflexivity|].
      apply sublist_skip, Hs.
Qed.

Lemma check_step_definite (self : DuplicateDetector.t) (all : list ParsedTransaction.t)
    (result : Sorting) (txn : ParsedTransaction.t) :
  Forall (fun m => PrimFloat.leb HIGH_CONFIDENCE_THRESHOLD (DuplicateMatch.confidence m) = true)
    (definite_duplicates result) ->
  Forall (fun m => PrimFloat.leb HIGH_CONFIDENCE_THRESHOLD (DuplicateMatch.confidence m) = true)
    (definite_duplicates (check_step self all result txn)).
Proof.
  intros H.
  destruct (check_step_cases self all result txn) as [(m & c & _ & _ & ->)|(_ & _ & ->)];
    [|exact H].
  unfold file_match. destruct (PrimFloat.leb _ _) eqn:E; simpl; [|exact H].
  apply Forall_app. split; [exact H|]. constructor; [exact E|constructor].
Qed.

Lemma sort_fold_definite (self : DuplicateDetector.t) (all batch : list ParsedTransaction.t) :
  forall result,
  Forall (fun m => PrimFloat.leb HIGH_CONFIDENCE_THRESHOLD (DuplicateMatch.confidence m) = true)
    (definite_duplicates result) ->
  Forall (fun m => PrimFloat.leb HIGH_CONFIDENCE_THRESHOLD (DuplicateMatch.confidence m) = true)
    (definite_duplicates (fold_left (check_step self all) batch result)).
Proof.
  induction batch as [|txn batch IH]; intros result H; simpl; [exact H|].
  apply IH, check_step_definite, H.
Qed.

End CardRun.

(** ** The index of the duplicate detector *)

Module CardIndex.
Import Py Card CardState CardDerived PyFacts CardFacts CardRun.

(** *** The index, bucket by bucket *)

Lemma index_append_lookup (key key' : IndexKey) (txn : ParsedTransaction.t)
    (index : gmap IndexKey (list ParsedTransaction.t)) :
  default [] (index_append key txn index !! key') =
  default [] (index !! key') ++ (if bool_decide (key = key') then [txn] else []).
Proof.
  unfold index_append. case_bool_decide as E.
  - subst key'. rewrite lookup_insert_eq. reflexivity.
  - rewrite lookup_insert_ne by exact E. rewrite app_nil_r. reflexivity.
Qed.

Lemma index_fold_lookup (txns : list ParsedTransaction.t) :
  forall (index : gmap IndexKey (list ParsedTransaction.t)) key,
  default []
    (fold_left (fun index txn =>
       index_append (date_key txn) txn (index_append (amount_key txn) txn index)) txns index
     !! key) =
  default [] (index !! key) ++ filed_under key txns.
Proof.
  induction txns as [|txn txns IH]; intros index key; simpl.
  - rewrite app_nil_r. reflexivity.
  - rewrite IH, !index_append_lookup, <- !app_assoc. f_equal.
    unfold filed_under. simpl.
    destruct key as [n|d]; unfold amount_key, date_key.
    + rewrite (bool_decide_eq_false_2 (inr _ = inl n)) by discriminate.
      rewrite orb_false_r. case_bool_decide; reflexivity.
    + rewrite (bool_decide_eq_false_2 (inl _ = inr d)) by discriminate.
      simpl. case_bool_decide; reflexivity.
Qed.

Lemma index_fold_None (txns : list ParsedTransaction.t) :
  forall (index : gmap IndexKey (list ParsedTransaction.t)) key,
  fold_left (fun index txn =>
       index_append (date_key txn) txn (index_append (amount_key txn) txn index)) txns index
     !! key = None <->
  index !! key = None /\ filed_under key txns = [].
Proof.
  induction txns as [|txn txns IH]; intros index key; simpl.
  - split; [auto|]. intros [H _]. exact H.
  - rewrite IH. unfold filed_under, index_append. simpl.
    destruct key as [n|d]; unfold amount_key, date_key.
    + rewrite (bool_decide_eq_false_2 (inr _ = inl n)) by discriminate.
      rewrite orb_false_r, lookup_insert_ne by discriminate.
      case_bool_decide as E.
      * rewrite E, lookup_insert_eq. split; intros [H1 H2]; discriminate.
      * rewrite lookup_insert_ne by exact E. reflexivity.
    + rewrite (bool_decide_eq_false_2 (inl _ = inr d)) by discriminate. simpl.
      case_bool_decide as E.
      * rewrite E, lookup_insert_eq. split; intros [H1 H2]; discriminate.
      * rewrite lookup_insert_ne by exact E. rewrite lookup_insert_ne by discriminate. reflexivity.
Qed.

Lemma filed_under_elem (key : IndexKey) (txns : list ParsedTransaction.t) (txn : ParsedTransaction.t) :
  txn ∈ filed_under key txns <-> txn ∈ txns /\ (amount_key txn = key \/ date_key txn = key).
Proof.
  unfold filed_under. rewrite !list_elem_of_In, filter_In, orb_true_iff, !bool_decide_eq_true.
  reflexivity.
Qed.

(** *** History duplicates that share a key *)

Lemma find_duplicate_indexed (self : DuplicateDetector.t) (existing candidates : list ParsedTransaction.t)
    (txn c : ParsedTransaction.t) :
  c ∈ existing -> c ∈ candidates ->
  amount_key c = amount_key txn \/ date_key c = date_key txn ->
  is_Some (_compare_transactions self txn c) ->
  is_Some (_find_duplicate (_build_index self existing) txn candidates).
Proof.
  intros He Hc Hkey Hm. unfold _find_duplicate.
  apply (first_some_is_Some _ _ c).
  - apply list_elem_of_In, filter_In. split; [apply list_elem_of_In, Hc|].
    apply orb_true_iff. left. apply bool_decide_eq_true.
    destruct (build_index_elem self existing c He) as [Ha Hd].
    unfold bucket_ids. apply elem_of_union.
    destruct Hkey as [E|E]; [left; rewrite <- E|right; rewrite <- E];
      apply elem_of_list_to_set, list_elem_of_In, in_map, list_elem_of_In; assumption.
  - rewrite (compare_same_tolerances self (_build_index self existing)) by reflexivity. exact Hm.
Qed.

(** What is accepted as unique had no duplicate among the history
    candidates that the index lets through. *)
Lemma sort_fold_accepted (self : DuplicateDetector.t) (all batch : list ParsedTransaction.t) :
  forall result,
  Forall (fun u => _find_duplicate self u all = None) (unique_transactions result) ->
  Forall (fun u => _find_duplicate self u all = None)
    (unique_transactions (fold_left (check_step self all) batch result)).
Proof.
  induction batch as [|txn batch IH]; intros result H; simpl; [exact H|].
  apply IH.
  destruct (check_step_cases self all result txn) as [(m & c & _ & _ & ->)|(Hn & _ & ->)].
  - destruct (file_match_reported result m) as [_ ->]. exact H.
  - simpl. apply Forall_app. split; [exact H|]. constructor; [exact Hn|constructor].
Qed.

(** *** Batches and histories of fewer than a hundred *)

Lemma check_step_clean (self : DuplicateDetector.t) (all : list ParsedTransaction.t)
    (result : Sorting) (txn : ParsedTransaction.t) :
  (length all < 100)%nat -> (length (unique_transactions result) < 100)%nat ->
  clean self all (unique_transactions result) ->
  clean self all (unique_transactions (check_step self all result txn)).
Proof.
  intros Hall Hu [Hc1 Hc2].
  destruct (check_step_cases self all result txn) as [(m & c & _ & _ & ->)|(Hn1 & Hn2 & ->)].
  - destruct (file_match_reported result m) as [_ ->]. split; assumption.
  - rewrite find_duplicate_small in Hn1 by exact Hall.
    rewrite find_duplicate_small in Hn2 by exact Hu.
    rewrite check_single_None in Hn1. rewrite check_single_None in Hn2.
    simpl. split.
    + intros u e Hin He. apply elem_of_app in Hin as [Hin|Hin]; [auto|].
      apply list_elem_of_singleton in Hin as ->. auto.
    + intros i j u v Hij Hi Hj.
      destruct (decide (j < length (unique_transactions result))%nat) as [Hlt|Hge].
      * rewrite lookup_app_l in Hi by lia. rewrite lookup_app_l in Hj by lia. eauto.
      * rewrite lookup_app_r in Hj by lia.
        destruct (j - length (unique_transactions result))%nat eqn:Ej; [|destruct n; discriminate].
        injection Hj as <-.
        rewrite lookup_app_l in Hi by lia. apply Hn2. eapply list_elem_of_lookup_2, Hi.
Qed.

Lemma check_step_unique_length (self : DuplicateDetector.t) (all : list ParsedTransaction.t)
    (result : Sorting) (txn : ParsedTransaction.t) :
  (length (unique_transactions (check_step self all result txn))
   <= S (length (unique_transactions result)))%nat.
Proof.
  destruct (check_step_cases self all result txn) as [(m & c & _ & _ & ->)|(_ & _ & ->)].
  - destruct (file_match_reported result m) as [_ ->]. lia.
  - simpl. rewrite length_app. simpl. lia.
Qed.

Lemma sort_fold_clean (self : DuplicateDetector.t) (all batch : list ParsedTransaction.t) :
  (length all < 100)%nat ->
  forall result,
  (length (unique_transactions result) + length batch <= 100)%nat ->
  clean self all (unique_transactions result) ->
  clean self all (unique_transactions (fold_left (check_step self all) batch result)).
Proof.
  intros Hall. induction batch as [|txn batch IH]; intros result Hlen Hc; simpl; [exact Hc|].
  simpl in Hlen. apply IH.
  - pose proof (check_step_unique_length self all result txn). lia.
  - apply check_step_clean; [exact Hall|lia|exact Hc].
Qed.

End CardIndex.

(** ** Totals of a parsed statement *)

Module StatementFacts.
Import Py Card Statement PyFacts.














End StatementFacts.

(** ** The order of the input and the amount gate *)

Module BankInput.
Import Py Bank BankState PyFacts.

(** Two sorted lists with the same elements are the same list, if only
    equal elements tie. *)
Lemma sorted_unique {A} (before : A -> A -> bool) (l1 l2 : list A) :
  StronglySorted (fun x y => before y x = false) l1 ->
  StronglySorted (fun x y => before y x = false) l2 ->
  (forall x y, x ∈ l1 -> y ∈ l1 -> before x y = false -> before y x = false -> x = y) ->
  l1 ≡ₚ l2 -> l1 = l2.
Proof.
  revert l2. induction l1 as [|a l1 IH]; intros l2 H1 H2 Hn Hp.
  - apply Permutation_nil in Hp. auto.
  - destruct l2 as [|b l2]; [symmetry in Hp; apply Permutation_nil in Hp; discriminate|].
    apply StronglySorted_cons in H1 as [Ha H1]. apply StronglySorted_cons in H2 as [Hb H2].
    rewrite Forall_forall in Ha. rewrite Forall_forall in Hb.
    assert (E : a = b).
    { assert (Hain : a ∈ b :: l2) by (rewrite <- Hp; apply elem_of_cons; auto).
      assert (Hbin : b ∈ a :: l1) by (rewrite Hp; apply elem_of_cons; auto).
      apply elem_of_cons in Hain as [E|Hain]; [exact E|].
      apply elem_of_cons in Hbin as [E|Hbin]; [auto|].
      apply Hn; [apply elem_of_cons; auto|apply elem_of_cons; auto| |].
      - apply Hb, Hain.
      - apply Ha, Hbin. }
    subst b. f_equal. apply IH; auto.
    + intros x y Hx Hy. apply Hn; apply elem_of_cons; auto.
    + eapply Permutation_cons_inv. exact Hp.
Qed.

Lemma key_before_asym d1 a1 d2 a2 : key_before d1 a1 d2 a2 = true -> key_before d2 a2 d1 a1 = false.
Proof.
  unfold key_before. destruct (Z.eqb_spec d1 d2) as [->|N].
  - rewrite Z.eqb_refl. intros H. apply Qlt_bool_iff in H. apply Qlt_bool_false.
    apply Qlt_le_weak, H.
  - destruct (Z.eqb_spec d2 d1) as [E|_]; [congruence|].
    intros H. apply Z.ltb_lt in H. apply Z.ltb_ge. lia.
Qed.

Lemma key_before_trans d1 a1 d2 a2 d3 a3 :
  key_before d2 a2 d1 a1 = false -> key_before d3 a3 d2 a2 = false ->
  key_before d3 a3 d1 a1 = false.
Proof.
  unfold key_before.
  destruct (Z.eqb_spec d2 d1), (Z.eqb_spec d3 d2), (Z.eqb_spec d3 d1); try lia;
    rewrite ?Qlt_bool_false, ?Z.ltb_ge; intros; try lia.
  eapply Qle_trans; eassumption.
Qed.

Lemma key_before_tie d1 a1 d2 a2 :
  key_before d1 a1 d2 a2 = false -> key_before d2 a2 d1 a1 = false ->
  d1 = d2 /\ (dval a1 == dval a2)%Q.
Proof.
  unfold key_before. destruct (Z.eqb_spec d1 d2) as [->|N].
  - rewrite Z.eqb_refl, !Qlt_bool_false. intros H1 H2. split; [reflexivity|].
    apply Qle_antisym; assumption.
  - destruct (Z.eqb_spec d2 d1) as [E|_]; [congruence|].
    rewrite !Z.ltb_ge. lia.
Qed.

Lemma bank_sorted_unique (banks banks' : list BankTransaction.t) :
  (forall x y, x ∈ banks -> y ∈ banks ->
     BankTransaction.date x = BankTransaction.date y ->
     (dval (BankTransaction.amount x) == dval (BankTransaction.amount y))%Q -> x = y) ->
  banks ≡ₚ banks' -> sorted_by bank_before banks = sorted_by bank_before banks'.
Proof.
  intros Hn Hp.
  assert (Hs : forall l, StronglySorted (fun x y => bank_before y x = false) (sorted_by bank_before l)).
  { intros l. apply sorted_by_sorted.
    - intros x y z. apply key_before_trans.
    - intros y x. apply key_before_asym.
    - auto. }
  apply (sorted_unique bank_before); [apply Hs|apply Hs| |].
  - intros x y Hx Hy H1 H2. apply sorted_by_elem in Hx. apply sorted_by_elem in Hy.
    destruct (key_before_tie _ _ _ _ H1 H2). auto.
  - rewrite !(sorted_by_perm bank_before). exact Hp.
Qed.

Lemma book_sorted_unique (books books' : list BookTransaction.t) :
  (forall x y, x ∈ books -> y ∈ books ->
     BookTransaction.date x = BookTransaction.date y ->
     (dval (BookTransaction.amount x) == dval (BookTransaction.amount y))%Q -> x = y) ->
  books ≡ₚ books' -> sorted_by book_before books = sorted_by book_before books'.
Proof.
  intros Hn Hp.
  assert (Hs : forall l, StronglySorted (fun x y => book_before y x = false) (sorted_by book_before l)).
  { intros l. apply sorted_by_sorted.
    - intros x y z. apply key_before_trans.
    - intros y x. apply key_before_asym.
    - auto. }
  apply (sorted_unique book_before); [apply Hs|apply Hs| |].
  - intros x y Hx Hy H1 H2. apply sorted_by_elem in Hx. apply sorted_by_elem in Hy.
    destruct (key_before_tie _ _ _ _ H1 H2). auto.
  - rewrite !(sorted_by_perm book_before). exact Hp.
Qed.




End BankInput.

(** ** Preprocessing of a statement file *)

Module ContentFacts.
Import Py Statement.

Lemma replace_cr_clean (content : string) : CR ∉ bytes (replace_cr content).
Proof.
  induction content as [|c rest IH]; simpl.
  - apply not_elem_of_nil.
  - apply not_elem_of_cons. split; [|exact IH].
    destruct (Ascii.eqb_spec c CR) as [->|N]; [discriminate|auto].
Qed.

Lemma replace_cr_fixed (content : string) :
  CR ∉ bytes content -> replace_cr content = content.
Proof.
  induction content as [|c rest IH]; simpl; [reflexivity|].
  intros H. apply not_elem_of_cons in H as [Hc Hrest].
  destruct (Ascii.eqb_spec c CR) as [->|N]; [contradiction|]. rewrite IH by exact Hrest. reflexivity.
Qed.

Lemma replace_cr_length (content : string) :
  String.length (replace_cr content) = String.length content.
Proof. induction content as [|c rest IH]; simpl; [reflexivity|]. rewrite IH. reflexivity. Qed.

Lemma replace_crlf_cons (c c' : ascii) (rest : string) :
  replace_crlf (String c (String c' rest)) =
  if Ascii.eqb c CR && Ascii.eqb c' LF then String LF (replace_crlf rest)
  else String c (replace_crlf (String c' rest)).
Proof. reflexivity. Qed.

Lemma replace_crlf_both (content : string) :
  ((CR ∉ bytes content -> replace_crlf content = content) /\
   String.length (replace_crlf content) <= String.length content) /\
  forall c,
    (CR ∉ bytes (String c content) -> replace_crlf (String c content) = String c content) /\
    String.length (replace_crlf (String c content)) <= String.length (String c content).
Proof.
  induction content as [|c' rest [[IH1 IH2] IH3]].
  - split; [split; [reflexivity|simpl; lia]|]. intros c. split; [reflexivity|simpl; lia].
  - split; [apply IH3|]. intros c. rewrite replace_crlf_cons.
    destruct (IH3 c') as [IH4 IH5].
    destruct (Ascii.eqb_spec c CR) as [->|N]; cbn [andb].
    + destruct (Ascii.eqb_spec c' LF) as [->|N'].
      * split; [|cbn [String.length]; lia].
        intros H. exfalso. apply H. apply elem_of_cons. auto.
      * split; [|cbn [String.length] in *; lia].
        intros H. exfalso. apply H. apply elem_of_cons. auto.
    + split; [|cbn [String.length] in *; lia].
      intros H. apply not_elem_of_cons in H as [_ H]. rewrite IH4 by exact H. reflexivity.
Qed.

Lemma replace_crlf_fixed (content : string) :
  CR ∉ bytes content -> replace_crlf content = content.
Proof. apply replace_crlf_both. Qed.

Lemma replace_crlf_length (content : string) :
  String.length (replace_crlf content) <= String.length content.
Proof. apply replace_crlf_both. Qed.

End ContentFacts.

(** ** Properties of the matching engine *)

Import Py PyFacts.


(** C10. The derived rates are total: [match_rate] always returns, and
    returns 0.0 when the matched and the unmatched-bank lists are both
    empty; the [duplicate_rate] of [check_batch] is always defined, and is 0
    on an empty batch. Neither division ever sees a zero denominator. *)
Theorem C10_rates_total :
  (forall r, is_Some (Bank.ReconciliationResult.match_rate r)) /\
  (forall entity account period_start period_end bank_opening bank_closing
          book_opening book_closing unmatched_book,
     Bank.ReconciliationResult.match_rate
       (Bank.ReconciliationResult.mk entity account period_start period_end bank_opening
          bank_closing book_opening book_closing [] [] unmatched_book) = Some 0%Q) /\
  (forall self batch existing,
     is_Some (Card.Stats.duplicate_rate
                (Card.DeduplicationResult.stats (fst (Card.check_batch self batch existing))))) /\
  (forall self existing,
     Card.Stats.duplicate_rate
       (Card.DeduplicationResult.stats (fst (Card.check_batch self [] existing))) = Some 0%Q).
Proof.
  split; [|split; [|split]].
  - intros r. unfold Bank.ReconciliationResult.match_rate.
    destruct (Z.eqb_spec (Z.of_nat (length (Bank.ReconciliationResult.matched r)) +
                          Z.of_nat (length (Bank.ReconciliationResult.unmatched_bank r))) 0)
      as [|Hne]; [eauto|].
    destruct (truediv_is_Some (Z.of_nat (length (Bank.ReconciliationResult.matched r))) _ Hne)
      as [q ->]. simpl. eauto.
  - intros. reflexivity.
  - intros self batch existing. simpl.
    destruct (Nat.ltb_spec 0 (length batch)) as [Hpos|]; [|eauto].
    apply truediv_is_Some. lia.
  - intros self existing. reflexivity.
Qed.

(** C7. Reference-phase precedence: when phase 2 reaches a bank transaction
    that is still unmatched, whose reference is not empty and is contained
    in the reference of a book transaction that is still unmatched at that
    moment, it commits a pair of type [reference] with confidence 0.9 for
    it; the pair is in place before phase 3 starts and is part of the
    result. The payroll transfer dated one day after its book entry, same
    amount and reference, is matched by reference with confidence 0.9, not
    as fuzzy. *)
Theorem C7_reference_phase_precedence :
  (forall self clock entity account banks books period_start period_end
          bank_opening bank_closing book_opening book_closing
          (earlier later : list Bank.BankTransaction.t)
          (b : Bank.BankTransaction.t) (k : Bank.BookTransaction.t),
     let bank_sorted := sorted_by Bank.bank_before banks in
     let book_sorted := sorted_by Bank.book_before books in
     let st1 := fold_left (Bank.phase1_step self book_sorted) bank_sorted Bank.no_progress in
     let st := fold_left (Bank.phase2_step book_sorted) earlier st1 in
     let st2 := fold_left (Bank.phase2_step book_sorted) bank_sorted st1 in
     bank_sorted = earlier ++ b :: later ->
     Bank.BankTransaction.id b ∉ Bank.matched_bank_ids st ->
     truthy (Bank.BankTransaction.reference b) = true ->
     k ∈ books ->
     Bank.BookTransaction.id k ∉ Bank.matched_book_ids st ->
     truthy (Bank.BookTransaction.reference k) = true ->
     contains (default EmptyString (Bank.BankTransaction.reference b))
              (default EmptyString (Bank.BookTransaction.reference k)) = true ->
     exists m,
       m ∈ Bank.so_far st2 /\
       m ∈ Bank.ReconciliationResult.matched
             (Bank.reconcile self clock entity account banks books period_start period_end
                bank_opening bank_closing book_opening book_closing) /\
       Bank.MatchedTransaction.bank_txn m = b /\
       Bank.MatchedTransaction.match_type m = Bank.REFERENCE /\
       Bank.MatchedTransaction.confidence m = 9 # 10) /\
  Bank.ReconciliationResult.matched
    (Examples.run Bank.default_engine [Examples.payroll_bank] [Examples.payroll_book]) =
  [Bank.MatchedTransaction.mk Examples.payroll_bank Examples.payroll_book Bank.REFERENCE
     (9 # 10) 1 0 ""].
Proof.
  split; [|vm_compute; reflexivity].
  intros self clock entity account banks books period_start period_end
    bank_opening bank_closing book_opening book_closing earlier later b k
    bank_sorted book_sorted st1 st st2 Hsplit Hb Href Hk Hkid Hkref Hsub.
  assert (Hscan : is_Some (Bank.phase2_scan book_sorted st b)).
  { unfold Bank.phase2_scan. apply (first_some_is_Some _ _ k).
    - apply sorted_by_elem, Hk.
    - rewrite bool_decide_eq_false_2 by exact Hkid. rewrite Hkref, Hsub. simpl. eauto. }
  destruct Hscan as [m Hscan].
  assert (Hstep : Bank.phase2_step book_sorted st b = Bank.commit st m).
  { unfold Bank.phase2_step. rewrite bool_decide_eq_false_2 by exact Hb.
    rewrite Href, Hscan. reflexivity. }
  apply BankFacts.phase2_scan_Some in Hscan as (k' & _ & _ & Hm).
  assert (H2 : m ∈ Bank.so_far st2).
  { subst st2. rewrite Hsplit, fold_left_app. simpl. fold st. rewrite Hstep.
    eapply BankFacts.grows_so_far_elem.
    - apply BankFacts.grows_fold. intros s x. apply BankFacts.phase2_step_grows.
    - simpl. apply elem_of_app. right. apply list_elem_of_singleton. reflexivity. }
  exists m. split; [exact H2|]. split.
  - change (m ∈ Bank.so_far (fold_left (Bank.phase3_step self book_sorted) bank_sorted st2)).
    eapply BankFacts.grows_so_far_elem; [|exact H2].
    apply BankFacts.grows_fold. intros s x. apply BankFacts.phase3_step_grows.
  - subst m. auto.
Qed.

(** The payroll transfer, through the general statement. *)
Lemma C7_payroll_witness :
  exists m,
    m ∈ Bank.ReconciliationResult.matched
          (Examples.run Bank.default_engine [Examples.payroll_bank] [Examples.payroll_book]) /\
    Bank.MatchedTransaction.bank_txn m = Examples.payroll_bank /\
    Bank.MatchedTransaction.match_type m = Bank.REFERENCE /\
    Bank.MatchedTransaction.confidence m = 9 # 10.
Proof.
  destruct (proj1 C7_reference_phase_precedence Bank.default_engine Examples.noon
              "solaire"%string "UB001"%string [Examples.payroll_bank] [Examples.payroll_book]
              (Some 1%Z) (Some 31%Z) (dec 0) (dec 0) (dec 0) (dec 0)
              [] [] Examples.payroll_bank Examples.payroll_book)
    as (m & _ & Hm & Hrest).
  - reflexivity.
  - apply not_elem_of_empty.
  - reflexivity.
  - apply list_elem_of_singleton. reflexivity.
  - apply not_elem_of_empty.
  - reflexivity.
  - reflexivity.
  - exists m. split; [exact Hm|exact Hrest].
Defined.




(** C2, as amended. At most one match, on the sides where the code keeps
    track. In every reconciliation run each bank id and each book id occurs
    in at most one matched pair. In every run of [check_batch] over distinct
    objects (batch and history), each batch transaction is the new side of
    at most one report, and a transaction reported as new is never the
    counterpart of a report. A counterpart, from the history or accepted
    earlier in the batch, stays in the pool and may be reported again. *)
Theorem C2_at_most_one_match_amended :
  (forall self clock entity account banks books period_start period_end
          bank_opening bank_closing book_opening book_closing,
     let matched :=
       Bank.ReconciliationResult.matched
         (Bank.reconcile self clock entity account banks books period_start period_end
            bank_opening bank_closing book_opening book_closing) in
     NoDup (map BankState.bank_id matched) /\ NoDup (map BankState.book_id matched)) /\
  (forall self batch existing,
     NoDup (map Card.ParsedTransaction.oid (batch ++ default [] existing)) ->
     let reports := CardState.duplicates (fst (Card.check_batch self batch existing)) in
     NoDup (map CardState.new_side reports) /\
     (forall m m', m ∈ reports -> m' ∈ reports ->
                   CardState.new_side m <> CardState.counterpart m')).
Proof.
  split.
  - intros self clock entity account banks books period_start period_end
      bank_opening bank_closing book_opening book_closing matched.
    destruct (BankFacts.run_phases_tracked self (sorted_by Bank.bank_before banks)
                (sorted_by Bank.book_before books)) as (_ & _ & Hb & Hk).
    split; assumption.
  - intros self batch existing Hnodup reports.
    set (all := default [] existing) in *.
    set (final := fold_left (Card.check_step (Card._build_index self all) all) batch
                    (Card.mkSorting [] [] [])).
    assert (Hreports : reports = CardState.reported final) by reflexivity.
    pose proof (CardFacts.sort_fold_placed (Card._build_index self all) all batch
                  (Card.mkSorting [] [] [])) as Hplaced.
    fold final in Hplaced. simpl in Hplaced.
    rewrite map_app in Hnodup. apply NoDup_app in Hnodup as (Hbatch & Hdisjoint & _).
    assert (Hfinal : NoDup (CardState.placed final)) by (rewrite Hplaced; exact Hbatch).
    unfold CardState.placed in Hfinal. apply NoDup_app in Hfinal as (Hnew & Hapart & _).
    rewrite Hreports. split; [exact Hnew|].
    intros m m' Hm Hm' Heq.
    assert (Hside : CardState.new_side m ∈ map CardState.new_side (CardState.reported final)).
    { apply list_elem_of_In, in_map, list_elem_of_In, Hm. }
    apply CardFacts.sort_fold_reported in Hm' as [Hm'|(_ & [Hw|Hw] & _)].
    + apply elem_of_nil in Hm'. contradiction.
    + apply (Hdisjoint (CardState.new_side m)).
      * rewrite <- Hplaced. apply elem_of_app. left. exact Hside.
      * rewrite Heq. unfold CardState.counterpart.
        apply list_elem_of_In, in_map, list_elem_of_In, Hw.
    + apply (Hapart (CardState.new_side m) Hside).
      rewrite Heq. unfold CardState.counterpart.
        apply list_elem_of_In, in_map, list_elem_of_In, Hw.
Qed.

(** C2 fails as stated: of three parses of one statement line the first is
    accepted and is then the counterpart of two reports. *)
Lemma C2_counterpart_reported_twice :
  exists m1 m2,
    Card.DeduplicationResult.definite_duplicates
      (fst (Card.check_batch Examples.detector
              [Examples.coffee 1; Examples.coffee 2; Examples.coffee 3] None)) = [m1; m2] /\
    CardState.new_side m1 <> CardState.new_side m2 /\
    Card.DuplicateMatch.matched_with m1 = Examples.coffee 1 /\
    Card.DuplicateMatch.matched_with m2 = Examples.coffee 1.
Proof.
  do 2 eexists. split; [vm_compute; reflexivity|]. split; [|split]; [|reflexivity..].
  vm_compute. discriminate.
Qed.

(** Three parses of one line: each is the new side of at most one report. *)
Lemma C2_three_parses_witness :
  NoDup (map CardState.new_side
           (CardState.duplicates
              (fst (Card.check_batch Examples.detector
                      [Examples.coffee 1; Examples.coffee 2; Examples.coffee 3] None)))).
Proof.
  apply (proj2 C2_at_most_one_match_amended Examples.detector
           [Examples.coffee 1; Examples.coffee 2; Examples.coffee 3] None).
  apply (bool_decide_unpack _). vm_compute. exact I.
Defined.

(** C3 on the code. A batch of one hundred purchases, ten days apart from
    each other, followed by a second parse of the first: every purchase is
    accepted, the second parse is hash-identical to the first accepted
    transaction and a direct comparison reports it with confidence 1.0, and
    yet [check_batch] accepts it as unique and reports nothing. With one
    purchase less in front the same transaction is a definite duplicate. The
    index is built from the history alone, so that from one hundred accepted
    transactions on the shortlist of same-batch candidates is empty. *)
Theorem C3_same_batch_duplicate_missed :
  let result := fst (Card.check_batch Examples.detector Examples.long_batch None) in
  let shorter := fst (Card.check_batch Examples.detector Examples.short_batch None) in
  length Examples.long_batch = 101%nat /\
  Card._compare_transactions Examples.detector Examples.first_again
    (Examples.card_line 0 0 100 "x" "" None)
    = Some (CardState.hash_hit Examples.first_again (Examples.card_line 0 0 100 "x" "" None)) /\
  Card.DeduplicationResult.unique_transactions result = Examples.long_batch /\
  CardState.duplicates result = [] /\
  CardState.duplicates shorter
    = [CardState.hash_hit Examples.first_again (Examples.card_line 0 0 100 "x" "" None)].
Proof.
  intros result shorter. subst result shorter.
  split; [reflexivity|].
  split; [apply CardFacts.compare_hash_hit; [discriminate|reflexivity]|].
  split; [vm_compute; reflexivity|]. split; vm_compute; reflexivity.
Qed.

(** C5, as amended. Dedup equality is the content hash of
    [ParsedTransaction], over the date, the description and the printed
    amount; neither the id nor the reference is part of it. Two transactions
    are hash-identical exactly when these three fields agree. Whatever the
    tolerances, comparing two distinct hash-identical objects returns at once
    confidence 1.0 with the single reason "Exact hash match" and the
    likely-duplicate flag, and every hash-identical pair that [check_batch]
    reports is that report and is filed as definite. *)
Theorem C5_content_hash_amended :
  (forall txn1 txn2,
     Card.ParsedTransaction.hash txn1 = Card.ParsedTransaction.hash txn2 <->
     Card.ParsedTransaction.date txn1 = Card.ParsedTransaction.date txn2 /\
     Card.ParsedTransaction.description txn1 = Card.ParsedTransaction.description txn2 /\
     Card.ParsedTransaction.amount txn1 = Card.ParsedTransaction.amount txn2) /\
  (forall self txn1 txn2,
     Card.ParsedTransaction.oid txn1 <> Card.ParsedTransaction.oid txn2 ->
     Card.ParsedTransaction.hash txn1 = Card.ParsedTransaction.hash txn2 ->
     Card._compare_transactions self txn1 txn2 =
       Some (Card.DuplicateMatch.mk txn1 txn2 1.0%float [Card.Exact_hash_match] true)) /\
  (forall self batch existing m,
     m ∈ CardState.duplicates (fst (Card.check_batch self batch existing)) ->
     Card.ParsedTransaction.hash (Card.DuplicateMatch.transaction m) =
       Card.ParsedTransaction.hash (Card.DuplicateMatch.matched_with m) ->
     m = CardState.hash_hit (Card.DuplicateMatch.transaction m) (Card.DuplicateMatch.matched_with m) /\
     m ∈ Card.DeduplicationResult.definite_duplicates
           (fst (Card.check_batch self batch existing))).
Proof.
  split; [exact CardFacts.hash_eq|]. split; [exact CardFacts.compare_hash_hit|].
  intros self batch existing m Hm Hh.
  assert (Hhit : m = CardState.hash_hit (Card.DuplicateMatch.transaction m)
                       (Card.DuplicateMatch.matched_with m)).
  { unfold CardState.duplicates in Hm. simpl in Hm.
    apply CardFacts.sort_fold_reported in Hm as [Hm|(_ & _ & Hc)];
      [apply elem_of_nil in Hm; contradiction|].
    destruct (CardFacts.compare_Some _ _ _ _ Hc) as (_ & _ & Hoid & _).
    rewrite (CardFacts.compare_hash_hit _ _ _ Hoid Hh) in Hc. congruence. }
  split; [exact Hhit|].
  unfold CardState.duplicates in Hm. simpl in Hm |- *.
  apply elem_of_app in Hm as [Hm|Hm]; [|exact Hm]. exfalso.
  pose proof (CardFacts.sort_fold_potential
                (Card._build_index self (default [] existing)) (default [] existing) batch
                (Card.mkSorting [] [] []) ltac:(constructor)) as Hpot.
  rewrite Forall_forall in Hpot. apply Hpot in Hm. rewrite Hhit in Hm.
  vm_compute in Hm. discriminate.
Qed.

(** C5 fails as stated: two parses that differ in the reference have the same
    hash. *)
Lemma C5_reference_not_hashed :
  Card.ParsedTransaction.hash (Examples.coffee 1) =
    Card.ParsedTransaction.hash Examples.coffee_with_reference /\
  Card.ParsedTransaction.reference (Examples.coffee 1) <>
    Card.ParsedTransaction.reference Examples.coffee_with_reference /\
  Card._compare_transactions Examples.detector (Examples.coffee 1) Examples.coffee_with_reference
    = Some (CardState.hash_hit (Examples.coffee 1) Examples.coffee_with_reference).
Proof.
  split; [reflexivity|]. split; [discriminate|]. vm_compute. reflexivity.
Qed.

(** A second parse of a statement line under the strict detector. *)
Lemma C5_second_parse_witness :
  Card._compare_transactions Examples.strict_detector (Examples.coffee 2) (Examples.coffee 1) =
    Some (Card.DuplicateMatch.mk (Examples.coffee 2) (Examples.coffee 1) 1.0%float
            [Card.Exact_hash_match] true).
Proof.
  apply (proj1 (proj2 C5_content_hash_amended)).
  - discriminate.
  - reflexivity.
Defined.

(** C6, as amended. Tolerance-phase selection: for a bank transaction that
    is still unmatched, the candidates are the unmatched book transactions
    that pass the amount and date gates, in the order of the sorted book
    list. The committed pair is a candidate of highest confidence, and among
    the candidates of highest confidence the first in that order: ties are
    broken by position alone. Without a candidate nothing is committed. *)
Theorem C6_best_candidate_amended
    (self : Bank.BankReconciliation.t) (book_sorted : list Bank.BookTransaction.t)
    (st : Bank.Progress) (bank_txn : Bank.BankTransaction.t) :
  Bank.BankTransaction.id bank_txn ∉ Bank.matched_bank_ids st ->
  let candidates := Bank.phase3_candidates self book_sorted st bank_txn in
  (forall m k,
     (m, k) ∈ candidates <->
     k ∈ book_sorted /\ (Bank.BookTransaction.id k ∉ Bank.matched_book_ids st) /\
     Bank._try_match self bank_txn k = Some m /\
     (Bank.MIN_CONFIDENCE_THRESHOLD <= Bank.MatchedTransaction.confidence m)%Q) /\
  (exists chosen, map snd candidates = List.filter chosen book_sorted) /\
  match Bank.best_candidate candidates with
  | None => candidates = [] /\ Bank.phase3_step self book_sorted st bank_txn = st
  | Some (best_match, best_book) =>
    (exists ahead behind,
       candidates = ahead ++ (best_match, best_book) :: behind /\
       Forall (fun c => (Bank.MatchedTransaction.confidence (fst c) <
                         Bank.MatchedTransaction.confidence best_match)%Q) ahead /\
       Forall (fun c => (Bank.MatchedTransaction.confidence (fst c) <=
                         Bank.MatchedTransaction.confidence best_match)%Q) behind) /\
    Bank.phase3_step self book_sorted st bank_txn = Bank.commit st best_match
  end.
Proof.
  intros Hb candidates. split; [|split].
  - intros m k. apply BankFacts.phase3_candidates_elem.
  - exists (fun k =>
      negb (bool_decide (Bank.BookTransaction.id k ∈ Bank.matched_book_ids st)) &&
      match Bank._try_match self bank_txn k with
      | Some m => Qle_bool Bank.MIN_CONFIDENCE_THRESHOLD (Bank.MatchedTransaction.confidence m)
      | None => false
      end).
    subst candidates. unfold Bank.phase3_candidates.
    induction book_sorted as [|k l IH]; simpl; [reflexivity|].
    rewrite map_app, IH.
    destruct (bool_decide _); simpl; [reflexivity|].
    destruct (Bank._try_match self bank_txn k) as [m|]; [|reflexivity].
    destruct (Qle_bool _ _); reflexivity.
  - pose proof (BankFacts.best_candidate_first_maximal candidates) as Hbest.
    pose proof (BankFacts.phase3_step_cases self book_sorted st bank_txn Hb) as Hstep.
    fold candidates in Hstep.
    destruct (Bank.best_candidate candidates) as [[best_match best_book]|].
    + destruct Hstep as (Hstep & _). split; [exact Hbest|exact Hstep].
    + split; [exact Hbest|exact Hstep].
Qed.

(** C6 fails as stated: both book entries are one day before the bank line
    and score 0.9; the one that is ten pesos off comes first in the sorted
    list and is committed, the one that is one peso off is not. *)
Lemma C6_tie_ignores_amount :
  exists m m',
    Bank.ReconciliationResult.matched
      (Examples.run Bank.default_engine [Examples.tied_bank]
         [Examples.tied_near; Examples.tied_far]) = [m] /\
    Bank.MatchedTransaction.book_txn m = Examples.tied_far /\
    Bank._try_match Bank.default_engine Examples.tied_bank Examples.tied_near = Some m' /\
    (Bank.MatchedTransaction.confidence m' == Bank.MatchedTransaction.confidence m)%Q /\
    Bank.MatchedTransaction.date_diff_days m' = Bank.MatchedTransaction.date_diff_days m /\
    (Bank.MatchedTransaction.amount_diff m' < Bank.MatchedTransaction.amount_diff m)%Q.
Proof.
  do 2 eexists. split; [vm_compute; reflexivity|]. split; [reflexivity|].
  split; [vm_compute; reflexivity|]. split; [reflexivity|]. split; reflexivity.
Qed.

(** The tied candidates: the first of the sorted list is committed. *)
Lemma C6_tied_candidates_witness :
  match Bank.best_candidate
          (Bank.phase3_candidates Bank.default_engine [Examples.tied_far; Examples.tied_near]
             Bank.no_progress Examples.tied_bank) with
  | None => False
  | Some (best_match, best_book) =>
    Bank.phase3_step Bank.default_engine [Examples.tied_far; Examples.tied_near]
      Bank.no_progress Examples.tied_bank = Bank.commit Bank.no_progress best_match
  end.
Proof.
  pose proof (C6_best_candidate_amended Bank.default_engine
                [Examples.tied_far; Examples.tied_near] Bank.no_progress Examples.tied_bank
                (not_elem_of_empty _)) as (_ & _ & H).
  destruct (Bank.best_candidate _) as [[best_match best_book]|] eqn:E.
  - exact (proj2 H).
  - vm_compute in E. discriminate.
Defined.




(** C4, as amended. For fixed inputs with pairwise distinct ids and a fixed
    amount tolerance, lowering the date tolerance, not below zero, never
    increases the number of pairs that [reconcile] matches. Pair by pair,
    tightening either tolerance never turns a rejected pair into an accepted
    one: what [_try_match] accepts under the tighter tolerances it accepts
    under the looser ones with the same result, what [_compare_transactions]
    reports under the tighter tolerances it reports under the looser ones
    with the same confidence and flag, and [check_single] reports under the
    looser tolerances whenever it does under the tighter ones. Lowering the
    amount tolerance of [reconcile], or either tolerance of [check_batch],
    can increase the count: an earlier commitment decides what a later
    transaction may still take. *)
Theorem C4_pairwise_monotonicity_amended :
  (forall tight wide clock entity account banks books period_start period_end
          bank_opening bank_closing book_opening book_closing,
     (0 <= Bank.BankReconciliation.DATE_TOLERANCE_DAYS tight)%Z ->
     (Bank.BankReconciliation.DATE_TOLERANCE_DAYS tight <=
      Bank.BankReconciliation.DATE_TOLERANCE_DAYS wide)%Z ->
     Bank.BankReconciliation.AMOUNT_TOLERANCE_PERCENT tight =
       Bank.BankReconciliation.AMOUNT_TOLERANCE_PERCENT wide ->
     NoDup (map Bank.BankTransaction.id banks) ->
     NoDup (map Bank.BookTransaction.id books) ->
     length (Bank.ReconciliationResult.matched
               (Bank.reconcile tight clock entity account banks books period_start period_end
                  bank_opening bank_closing book_opening book_closing)) <=
     length (Bank.ReconciliationResult.matched
               (Bank.reconcile wide clock entity account banks books period_start period_end
                  bank_opening bank_closing book_opening book_closing))) /\
  (forall tight wide bank_txn book_txn m,
     (Bank.BankReconciliation.DATE_TOLERANCE_DAYS tight <=
      Bank.BankReconciliation.DATE_TOLERANCE_DAYS wide)%Z ->
     (Bank.BankReconciliation.AMOUNT_TOLERANCE_PERCENT tight <=
      Bank.BankReconciliation.AMOUNT_TOLERANCE_PERCENT wide)%Q ->
     Bank._try_match tight bank_txn book_txn = Some m ->
     Bank._try_match wide bank_txn book_txn = Some m) /\
  (forall tight wide txn1 txn2 m,
     (Card.DuplicateDetector.date_tolerance tight <= Card.DuplicateDetector.date_tolerance wide)%Z ->
     (Card.DuplicateDetector.amount_tolerance tight <=
      Card.DuplicateDetector.amount_tolerance wide)%Q ->
     Card._compare_transactions tight txn1 txn2 = Some m ->
     exists m', Card._compare_transactions wide txn1 txn2 = Some m' /\
       Card.DuplicateMatch.transaction m' = Card.DuplicateMatch.transaction m /\
       Card.DuplicateMatch.matched_with m' = Card.DuplicateMatch.matched_with m /\
       Card.DuplicateMatch.confidence m' = Card.DuplicateMatch.confidence m /\
       Card.DuplicateMatch.is_likely_duplicate m' = Card.DuplicateMatch.is_likely_duplicate m) /\
  (forall tight wide txn existing,
     (Card.DuplicateDetector.date_tolerance tight <= Card.DuplicateDetector.date_tolerance wide)%Z ->
     (Card.DuplicateDetector.amount_tolerance tight <=
      Card.DuplicateDetector.amount_tolerance wide)%Q ->
     is_Some (Card.check_single tight txn existing) ->
     is_Some (Card.check_single wide txn existing)).
Proof.
  split; [exact BankDates.reconcile_date_monotone|].
  split; [exact BankFacts.try_match_monotone|]. split; [exact CardFacts.compare_monotone|].
  intros tight wide txn existing Hd Hp [m Hm].
  apply CardFacts.check_single_Some in Hm as (c & Hc & Hm).
  destruct (CardFacts.compare_monotone tight wide txn c m Hd Hp Hm) as (m' & Hm' & _).
  unfold Card.check_single. apply (first_some_is_Some _ _ c Hc). rewrite Hm'. eauto.
Qed.

(** C4 fails as stated. With the amount tolerance lowered from 1% to 0.5% the
    first bank line no longer takes the book entry that the second needs, and
    [reconcile] matches two pairs instead of one. In [check_batch] the second
    transaction of the chain is no longer a duplicate of the first under
    0.5%, is accepted, and is then the counterpart of the two that follow:
    two reports instead of one; the same happens along the date when the
    tolerance goes from one day to none. *)
Lemma C4_tighter_tolerance_more_matches :
  (Bank.BankReconciliation.AMOUNT_TOLERANCE_PERCENT Examples.half_percent <
   Bank.BankReconciliation.AMOUNT_TOLERANCE_PERCENT Bank.default_engine)%Q /\
  Bank.BankReconciliation.DATE_TOLERANCE_DAYS Examples.half_percent =
    Bank.BankReconciliation.DATE_TOLERANCE_DAYS Bank.default_engine /\
  length (Bank.ReconciliationResult.matched
            (Examples.run Bank.default_engine Examples.rival_banks Examples.rival_books)) = 1%nat /\
  length (Bank.ReconciliationResult.matched
            (Examples.run Examples.half_percent Examples.rival_banks Examples.rival_books)) = 2%nat /\
  length (CardState.duplicates
            (fst (Card.check_batch Examples.detector Examples.chain None))) = 1%nat /\
  length (CardState.duplicates
            (fst (Card.check_batch Examples.strict_detector Examples.chain None))) = 2%nat /\
  length (CardState.duplicates
            (fst (Card.check_batch Examples.detector Examples.day_chain None))) = 1%nat /\
  length (CardState.duplicates
            (fst (Card.check_batch Examples.same_day_detector Examples.day_chain None))) = 2%nat.
Proof.
  split; [reflexivity|]. split; [reflexivity|].
  repeat split; vm_compute; reflexivity.
Qed.

(** The rivals again: with the date tolerance lowered from three days to
    none, the default engine matches no more pairs than before. *)
Lemma C4_rival_dates_witness :
  length (Bank.ReconciliationResult.matched
            (Examples.run Examples.same_day Examples.rival_banks Examples.rival_books)) <=
  length (Bank.ReconciliationResult.matched
            (Examples.run Bank.default_engine Examples.rival_banks Examples.rival_books)).
Proof.
  apply (proj1 C4_pairwise_monotonicity_amended Examples.same_day Bank.default_engine).
  - vm_compute. discriminate.
  - vm_compute. discriminate.
  - reflexivity.
  - apply (bool_decide_unpack _). vm_compute. exact I.
  - apply (bool_decide_unpack _). vm_compute. exact I.
Defined.

(** ** Further properties of the code *)

(** X1. Every pair in [matched] joins a bank transaction of the input with a
    book transaction of the input and records the date and amount difference
    of that very pair, with empty notes. By match type: an exact pair has
    confidence 1.0, the same date and equal amounts; an amount-only pair has
    0.95, the same date and unequal amounts; a fuzzy pair is between one day
    and the date tolerance apart and has confidence max(0.7, 1 - 0.1 * days);
    a reference pair has 0.9 and two non-empty references, the bank one
    contained in the book one; no pair has type description. So every
    confidence lies between the minimum threshold 0.7 and 1. *)
Theorem X1_matched_pair_table :
  forall self clock entity account banks books period_start period_end
         bank_opening bank_closing book_opening book_closing m,
    m ∈ Bank.ReconciliationResult.matched
          (Bank.reconcile self clock entity account banks books period_start period_end
             bank_opening bank_closing book_opening book_closing) ->
    BankDerived.committed self banks books m /\
    (Bank.MIN_CONFIDENCE_THRESHOLD <= Bank.MatchedTransaction.confidence m <= 1)%Q.
Proof.
  intros self clock entity account banks books ps pe bo bc ko kc m Hm.
  unfold Bank.reconcile in Hm; simpl in Hm.
  pose proof (BankRun.run_phases_all_committed self
                (sorted_by Bank.bank_before banks) (sorted_by Bank.book_before books)) as Hall.
  rewrite Forall_forall in Hall. destruct (Hall m Hm) as (Hb & Hk & Hr).
  split.
  - split; [apply sorted_by_elem in Hb; exact Hb|].
    split; [apply sorted_by_elem in Hk; exact Hk|exact Hr].
  - apply (BankRun.recorded_confidence self), Hr.
Qed.

(** The pair that the default engine commits for the rivals is in the table. *)
Lemma X1_rival_pair_witness :
  BankDerived.committed Bank.default_engine Examples.rival_banks Examples.rival_books
    Examples.rival_pair /\
  (Bank.MIN_CONFIDENCE_THRESHOLD <= Bank.MatchedTransaction.confidence Examples.rival_pair <= 1)%Q.
Proof.
  apply (X1_matched_pair_table Bank.default_engine Examples.noon "solaire" "UB001"
           Examples.rival_banks Examples.rival_books (Some 1%Z) (Some 31%Z)
           (dec 0) (dec 0) (dec 0) (dec 0)).
  vm_compute. apply elem_of_cons. left. reflexivity.
Defined.

(** X2. With pairwise distinct bank ids, the bank transactions of the matched
    pairs together with the transactions of [unmatched_bank] are the bank
    input, rearranged: none is lost, none is added, none is counted twice.
    The same holds for the book side with pairwise distinct book ids. *)
Theorem X2_result_partitions_input :
  forall self clock entity account banks books period_start period_end
         bank_opening bank_closing book_opening book_closing,
    let r := Bank.reconcile self clock entity account banks books period_start period_end
               bank_opening bank_closing book_opening book_closing in
    (NoDup (map Bank.BankTransaction.id banks) ->
     Permutation (map inl banks)
       (map (fun m => inl (Bank.MatchedTransaction.bank_txn m)) (Bank.ReconciliationResult.matched r) ++
        map Bank.UnmatchedItem.transaction (Bank.ReconciliationResult.unmatched_bank r))) /\
    (NoDup (map Bank.BookTransaction.id books) ->
     Permutation (map inr books)
       (map (fun m => inr (Bank.MatchedTransaction.book_txn m)) (Bank.ReconciliationResult.matched r) ++
        map Bank.UnmatchedItem.transaction (Bank.ReconciliationResult.unmatched_book r))).
Proof.
  intros self clock entity account banks books ps pe bo bc ko kc r. split; intros Hnd.
  - apply BankParts.reconcile_bank_side, Hnd.
  - apply BankParts.reconcile_book_side, Hnd.
Qed.

(** The rivals: one pair, one bank line and one book entry left over. *)
Lemma X2_rivals_witness :
  let r := Examples.run Bank.default_engine Examples.rival_banks Examples.rival_books in
  Permutation (map inl Examples.rival_banks)
    (map (fun m => inl (Bank.MatchedTransaction.bank_txn m)) (Bank.ReconciliationResult.matched r) ++
     map Bank.UnmatchedItem.transaction (Bank.ReconciliationResult.unmatched_bank r)) /\
  Permutation (map inr Examples.rival_books)
    (map (fun m => inr (Bank.MatchedTransaction.book_txn m)) (Bank.ReconciliationResult.matched r) ++
     map Bank.UnmatchedItem.transaction (Bank.ReconciliationResult.unmatched_book r)).
Proof.
  pose proof (X2_result_partitions_input Bank.default_engine Examples.noon "solaire" "UB001"
                Examples.rival_banks Examples.rival_books (Some 1%Z) (Some 31%Z)
                (dec 0) (dec 0) (dec 0) (dec 0)) as [Hbank Hbook].
  split.
  - apply Hbank. apply (bool_decide_unpack _). vm_compute. exact I.
  - apply Hbook. apply (bool_decide_unpack _). vm_compute. exact I.
Defined.



(** X4. A run stops only when nothing is left to pair: for every item of
    [unmatched_bank] and every item of [unmatched_book] of a result,
    [_try_match] rejects the two transactions, and the reference test of
    phase 2 fails on them (one of the references is missing or empty, or the
    bank reference is not contained in the book reference). *)
Theorem X4_nothing_left_to_match :
  forall self clock entity account banks books period_start period_end
         bank_opening bank_closing book_opening book_closing ub uk bank_txn book_txn,
    let r := Bank.reconcile self clock entity account banks books period_start period_end
               bank_opening bank_closing book_opening book_closing in
    ub ∈ Bank.ReconciliationResult.unmatched_bank r ->
    uk ∈ Bank.ReconciliationResult.unmatched_book r ->
    Bank.UnmatchedItem.transaction ub = inl bank_txn ->
    Bank.UnmatchedItem.transaction uk = inr book_txn ->
    Bank._try_match self bank_txn book_txn = None /\
    truthy (Bank.BankTransaction.reference bank_txn) &&
    (truthy (Bank.BookTransaction.reference book_txn) &&
     contains (default EmptyString (Bank.BankTransaction.reference bank_txn))
              (default EmptyString (Bank.BookTransaction.reference book_txn))) = false.
Proof.
  intros self clock entity account banks books ps pe bo bc ko kc ub uk b k r Hub Huk Eb Ek.
  subst r. unfold Bank.reconcile in Hub, Huk; simpl in Hub, Huk.
  apply BankParts.unmatched_elem in Hub as (b' & Hb & Hbid & ->).
  apply BankParts.unmatched_elem in Huk as (k' & Hk & Hkid & ->).
  simpl in Eb, Ek. injection Eb as ->. injection Ek as ->.
  apply bool_decide_eq_false in Hbid. apply bool_decide_eq_false in Hkid.
  apply (BankLeftover.run_phases_leftover self _ _ b k Hb Hk Hbid Hkid).
Qed.

(** The two rivals that are left over do not match each other. *)
Lemma X4_rivals_witness :
  Bank._try_match Bank.default_engine (Examples.bank_line "B2" 10 1015 None)
    (Examples.book_line "Ky" 11 1000 None) = None /\
  truthy (Bank.BankTransaction.reference (Examples.bank_line "B2" 10 1015 None)) &&
  (truthy (Bank.BookTransaction.reference (Examples.book_line "Ky" 11 1000 None)) &&
   contains (default EmptyString (Bank.BankTransaction.reference (Examples.bank_line "B2" 10 1015 None)))
            (default EmptyString (Bank.BookTransaction.reference (Examples.book_line "Ky" 11 1000 None))))
  = false.
Proof.
  apply (X4_nothing_left_to_match Bank.default_engine Examples.noon "solaire" "UB001"
           Examples.rival_banks Examples.rival_books (Some 1%Z) (Some 31%Z)
           (dec 0) (dec 0) (dec 0) (dec 0)
           (Bank.UnmatchedItem.mk (inl (Examples.bank_line "B2" 10 1015 None)) "bank"
              Bank.UNMATCHED [] "")
           (Bank.UnmatchedItem.mk (inr (Examples.book_line "Ky" 11 1000 None)) "book"
              Bank.UNMATCHED [] "")).
  - vm_compute. apply elem_of_cons. left. reflexivity.
  - vm_compute. apply elem_of_cons. left. reflexivity.
  - reflexivity.
  - reflexivity.
Defined.

(** X5. An exact counterpart is never passed over: with a date tolerance of
    at least 0, for every bank transaction and book transaction of the input
    with the same date and equal amounts, the result holds an exact pair
    (confidence 1.0) that carries the id of that bank transaction or the id
    of that book transaction. *)
Theorem X5_exact_counterpart_used :
  forall self clock entity account banks books period_start period_end
         bank_opening bank_closing book_opening book_closing bank_txn book_txn,
    (0 <= Bank.BankReconciliation.DATE_TOLERANCE_DAYS self)%Z ->
    bank_txn ∈ banks -> book_txn ∈ books ->
    Bank.BankTransaction.date bank_txn = Bank.BookTransaction.date book_txn ->
    (dval (Bank.BankTransaction.amount bank_txn) == dval (Bank.BookTransaction.amount book_txn))%Q ->
    exists m,
      m ∈ Bank.ReconciliationResult.matched
            (Bank.reconcile self clock entity account banks books period_start period_end
               bank_opening bank_closing book_opening book_closing) /\
      Bank.MatchedTransaction.match_type m = Bank.EXACT /\
      Bank.MatchedTransaction.confidence m = 1%Q /\
      (Bank.BankTransaction.id (Bank.MatchedTransaction.bank_txn m) = Bank.BankTransaction.id bank_txn \/
       Bank.BookTransaction.id (Bank.MatchedTransaction.book_txn m) = Bank.BookTransaction.id book_txn).
Proof.
  intros self clock entity account banks books ps pe bo bc ko kc b k Htol Hb Hk Hd Ha.
  unfold Bank.reconcile; simpl.
  destruct (BankLeftover.run_phases_exact_counterpart self
              (sorted_by Bank.bank_before banks) (sorted_by Bank.book_before books) b k Htol)
    as (m & Hm & Hx & Hid); auto; try (apply sorted_by_elem; assumption).
  exists m. split; [exact Hm|]. split; [exact Hx|]. split; [|exact Hid].
  pose proof (BankRun.run_phases_all_committed self
                (sorted_by Bank.bank_before banks) (sorted_by Bank.book_before books)) as Hall.
  rewrite Forall_forall in Hall. destruct (Hall m Hm) as (_ & _ & _ & _ & _ & Ht).
  rewrite Hx in Ht. apply Ht.
Qed.

(** The zero-amount pair of one day is committed as an exact pair. *)
Lemma X5_zero_pair_witness :
  exists m,
    m ∈ Bank.ReconciliationResult.matched
          (Examples.run Bank.default_engine [Examples.zero_bank] [Examples.zero_book]) /\
    Bank.MatchedTransaction.match_type m = Bank.EXACT /\
    Bank.MatchedTransaction.confidence m = 1%Q /\
    (Bank.BankTransaction.id (Bank.MatchedTransaction.bank_txn m) =
       Bank.BankTransaction.id Examples.zero_bank \/
     Bank.BookTransaction.id (Bank.MatchedTransaction.book_txn m) =
       Bank.BookTransaction.id Examples.zero_book).
Proof.
  apply (X5_exact_counterpart_used Bank.default_engine Examples.noon "solaire" "UB001"
           [Examples.zero_bank] [Examples.zero_book] (Some 1%Z) (Some 31%Z)
           (dec 0) (dec 0) (dec 0) (dec 0) Examples.zero_bank Examples.zero_book).
  - vm_compute. discriminate.
  - apply elem_of_cons. left. reflexivity.
  - apply elem_of_cons. left. reflexivity.
  - reflexivity.
  - reflexivity.
Defined.

(** X6. What the unmatched items carry. An unmatched book item has source
    "book", status unmatched and no suggestions. An unmatched bank item has
    source "bank" and at most five suggestions, in ascending order of date
    difference; each suggestion describes a book transaction that is itself
    left unmatched in the result, passes the amount gate against the bank
    transaction and is more than the date tolerance away from it. The status
    is manual review if there is a suggestion and unmatched if there is
    none, and there is none exactly when no unmatched book transaction passes
    the amount gate. *)
Theorem X6_unmatched_items :
  forall self clock entity account banks books period_start period_end
         bank_opening bank_closing book_opening book_closing,
    let r := Bank.reconcile self clock entity account banks books period_start period_end
               bank_opening bank_closing book_opening book_closing in
    (forall uk, uk ∈ Bank.ReconciliationResult.unmatched_book r ->
       exists book_txn, book_txn ∈ books /\
         uk = Bank.UnmatchedItem.mk (inr book_txn) "book" Bank.UNMATCHED [] "") /\
    (forall ub, ub ∈ Bank.ReconciliationResult.unmatched_bank r ->
       exists bank_txn, bank_txn ∈ banks /\
         Bank.UnmatchedItem.transaction ub = inl bank_txn /\
         Bank.UnmatchedItem.source ub = "bank"%string /\
         Bank.UnmatchedItem.notes ub = EmptyString /\
         Bank.UnmatchedItem.status ub =
           match Bank.UnmatchedItem.possible_matches ub with
           | [] => Bank.UNMATCHED
           | _ => Bank.MANUAL_REVIEW
           end /\
         length (Bank.UnmatchedItem.possible_matches ub) <= 5 /\
         StronglySorted
           (fun p q => (Bank.PossibleMatch.date_diff_days p <= Bank.PossibleMatch.date_diff_days q)%Z)
           (Bank.UnmatchedItem.possible_matches ub) /\
         (forall p, p ∈ Bank.UnmatchedItem.possible_matches ub ->
            exists book_txn,
              Bank.UnmatchedItem.mk (inr book_txn) "book" Bank.UNMATCHED [] ""
                ∈ Bank.ReconciliationResult.unmatched_book r /\
              p = Bank.PossibleMatch.mk (Bank.BookTransaction.id book_txn)
                    (Bank.BookTransaction.amount book_txn) (Bank.BookTransaction.date book_txn)
                    (Bank.BookTransaction.description book_txn)
                    (Bank.days_apart bank_txn book_txn) /\
              Bank._amounts_match self (Bank.BankTransaction.amount bank_txn)
                (Bank.BookTransaction.amount book_txn) = true /\
              (Bank.BankReconciliation.DATE_TOLERANCE_DAYS self <
               Bank.PossibleMatch.date_diff_days p)%Z) /\
         (Bank.UnmatchedItem.possible_matches ub = [] <->
          forall book_txn,
            Bank.UnmatchedItem.mk (inr book_txn) "book" Bank.UNMATCHED [] ""
              ∈ Bank.ReconciliationResult.unmatched_book r ->
            Bank._amounts_match self (Bank.BankTransaction.amount bank_txn)
              (Bank.BookTransaction.amount book_txn) = false)).
Proof.
  intros self clock entity account banks books ps pe bo bc ko kc r.
  subst r. unfold Bank.reconcile; simpl.
  set (bank_sorted := sorted_by Bank.bank_before banks).
  set (book_sorted := sorted_by Bank.book_before books).
  set (st := Bank.run_phases self bank_sorted book_sorted).
  assert (Hleft : forall k,
            Bank.UnmatchedItem.mk (inr k) "book" Bank.UNMATCHED [] ""
              ∈ flat_map (fun book_txn =>
                   if bool_decide (Bank.BookTransaction.id book_txn ∈ Bank.matched_book_ids st)
                   then [] else [Bank.UnmatchedItem.mk (inr book_txn) "book" Bank.UNMATCHED [] ""])
                  book_sorted <->
            k ∈ book_sorted /\ Bank.BookTransaction.id k ∉ Bank.matched_book_ids st).
  { intros k. rewrite BankParts.unmatched_elem. split.
    - intros (k' & Hk & Hkid & [= ->]). apply bool_decide_eq_false in Hkid. auto.
    - intros [Hk Hkid]. exists k. rewrite bool_decide_eq_false. auto. }
  split.
  - intros uk Huk. apply BankParts.unmatched_elem in Huk as (k & Hk & _ & ->).
    exists k. split; [apply sorted_by_elem in Hk; exact Hk|reflexivity].
  - intros ub Hub. apply BankParts.unmatched_elem in Hub as (b & Hb & Hbid & ->).
    apply bool_decide_eq_false in Hbid.
    exists b. simpl. split; [apply sorted_by_elem in Hb; exact Hb|].
    do 3 (split; [reflexivity|]).
    split; [destruct (Bank._find_possible_matches _ _ _ _); reflexivity|].
    split; [apply BankLeftover.possible_sorted|].
    split; [apply BankLeftover.possible_sorted|]. split.
    + intros p Hp. apply BankLeftover.possible_elem in Hp as (k & Hk & Hkid & Ha & ->).
      exists k. split; [apply Hleft; auto|]. split; [reflexivity|]. split; [exact Ha|]. simpl.
      destruct (BankLeftover.run_phases_leftover self bank_sorted book_sorted b k Hb Hk Hbid Hkid)
        as [T _].
      unfold Bank._try_match in T. rewrite Ha in T. simpl in T.
      destruct (Z.ltb_spec (Bank.BankReconciliation.DATE_TOLERANCE_DAYS self) (Bank.days_apart b k))
        as [Hlt|_]; [exact Hlt|].
      destruct (andb _ _); [discriminate|].
      destruct (Bank.days_apart b k =? 0)%Z; discriminate.
    + rewrite BankLeftover.possible_nil. split.
      * intros H k Hk. apply Hleft in Hk as [Hk Hkid]. apply H; assumption.
      * intros H k Hk Hkid. apply H, Hleft. auto.
Qed.

(** The late entry: the bank line is left for manual review with the book
    entry, ten days away, as its one suggestion. *)
Lemma X6_late_entry_witness :
  exists bank_txn, bank_txn ∈ [Scenarios.late_bank] /\
    Bank.UnmatchedItem.transaction Scenarios.late_item = inl bank_txn /\
    Bank.UnmatchedItem.source Scenarios.late_item = "bank"%string /\
    Bank.UnmatchedItem.notes Scenarios.late_item = EmptyString /\
    Bank.UnmatchedItem.status Scenarios.late_item =
      match Bank.UnmatchedItem.possible_matches Scenarios.late_item with
      | [] => Bank.UNMATCHED
      | _ => Bank.MANUAL_REVIEW
      end /\
    length (Bank.UnmatchedItem.possible_matches Scenarios.late_item) <= 5 /\
    StronglySorted
      (fun p q => (Bank.PossibleMatch.date_diff_days p <= Bank.PossibleMatch.date_diff_days q)%Z)
      (Bank.UnmatchedItem.possible_matches Scenarios.late_item) /\
    (forall p, p ∈ Bank.UnmatchedItem.possible_matches Scenarios.late_item ->
       exists book_txn,
         Bank.UnmatchedItem.mk (inr book_txn) "book" Bank.UNMATCHED [] ""
           ∈ Bank.ReconciliationResult.unmatched_book
               (Examples.run Bank.default_engine [Scenarios.late_bank] [Scenarios.late_book]) /\
         p = Bank.PossibleMatch.mk (Bank.BookTransaction.id book_txn)
               (Bank.BookTransaction.amount book_txn) (Bank.BookTransaction.date book_txn)
               (Bank.BookTransaction.description book_txn)
               (Bank.days_apart bank_txn book_txn) /\
         Bank._amounts_match Bank.default_engine (Bank.BankTransaction.amount bank_txn)
           (Bank.BookTransaction.amount book_txn) = true /\
         (Bank.BankReconciliation.DATE_TOLERANCE_DAYS Bank.default_engine <
          Bank.PossibleMatch.date_diff_days p)%Z) /\
    (Bank.UnmatchedItem.possible_matches Scenarios.late_item = [] <->
     forall book_txn,
       Bank.UnmatchedItem.mk (inr book_txn) "book" Bank.UNMATCHED [] ""
         ∈ Bank.ReconciliationResult.unmatched_book
             (Examples.run Bank.default_engine [Scenarios.late_bank] [Scenarios.late_book]) ->
       Bank._amounts_match Bank.default_engine (Bank.BankTransaction.amount bank_txn)
         (Bank.BookTransaction.amount book_txn) = false).
Proof.
  apply (proj2 (X6_unmatched_items Bank.default_engine Examples.noon "solaire" "UB001"
                  [Scenarios.late_bank] [Scenarios.late_book] (Some 1%Z) (Some 31%Z)
                  (dec 0) (dec 0) (dec 0) (dec 0)) Scenarios.late_item).
  vm_compute. apply elem_of_cons. left. reflexivity.
Defined.

(** X7. [auto_reconcile_from_db] raises without a database connection. With
    one it reconciles against the fetched rows for the period given, with the
    book closing balance and both opening balances left at zero. The fetched
    book transactions carry no reference, so no pair of the result is a
    reference pair: every pair is one that [_try_match] accepts. Because
    the book closing balance stays zero, a statement whose last line carries
    a balance of a cent or more is never reported as reconciled. If the
    query fails, nothing is matched, there is no unmatched book item and
    every bank transaction is an unmatched bank item. *)
Theorem X7_auto_reconcile_from_db :
  forall self clock entity account banks period_start period_end,
    BankDerived.auto_reconcile_from_db self None clock entity account banks
      period_start period_end = None /\
    forall db, exists r,
      BankDerived.auto_reconcile_from_db self (Some db) clock entity account banks
        period_start period_end = Some r /\
      Bank.ReconciliationResult.period_start r = period_start /\
      Bank.ReconciliationResult.period_end r = period_end /\
      Bank.ReconciliationResult.bank_opening_balance r = dec 0 /\
      Bank.ReconciliationResult.book_opening_balance r = dec 0 /\
      Bank.ReconciliationResult.book_closing_balance r = dec 0 /\
      (forall m, m ∈ Bank.ReconciliationResult.matched r ->
         Bank.MatchedTransaction.match_type m <> Bank.REFERENCE /\
         Bank.BookTransaction.reference (Bank.MatchedTransaction.book_txn m) = None /\
         Bank._try_match self (Bank.MatchedTransaction.bank_txn m)
           (Bank.MatchedTransaction.book_txn m) = Some m) /\
      (forall bank_txn balance,
         last banks = Some bank_txn ->
         Bank.BankTransaction.balance bank_txn = Some balance ->
         (1 # 100 <= Qabs (dval balance))%Q ->
         Bank.ReconciliationResult.bank_closing_balance r = balance /\
         Bank.ReconciliationResult.is_reconciled r = false) /\
      (db entity period_start period_end = None ->
       Bank.ReconciliationResult.matched r = [] /\
       Bank.ReconciliationResult.unmatched_book r = [] /\
       length (Bank.ReconciliationResult.unmatched_bank r) = length banks).
Proof.
  intros self clock entity account banks ps pe. split; [reflexivity|].
  intros db. eexists. split; [reflexivity|].
  do 5 (split; [reflexivity|]).
  set (books := BankDerived._fetch_book_transactions (Some db) entity ps pe).
  split; [|split].
  - intros m Hm. unfold Bank.reconcile in Hm. simpl in Hm.
    pose proof (BankRun.run_phases_all_committed self
                  (sorted_by Bank.bank_before banks) (sorted_by Bank.book_before books)) as Hall.
    rewrite Forall_forall in Hall. destruct (Hall m Hm) as (_ & Hk & Hr).
    apply sorted_by_elem in Hk.
    destruct (BankAuto.fetched_without_reference _ _ _ _ _ Hk) as [Href _].
    assert (Hty : Bank.MatchedTransaction.match_type m <> Bank.REFERENCE).
    { intros E. destruct Hr as (_ & _ & _ & Ht). rewrite E in Ht.
      destruct Ht as (_ & _ & Ht & _). rewrite Href in Ht. discriminate. }
    split; [exact Hty|]. split; [exact Href|].
    pose proof (BankFacts.run_phases_origin self
                  (sorted_by Bank.bank_before banks) (sorted_by Bank.book_before books)) as Ho.
    rewrite Forall_forall in Ho. destruct (Ho m Hm) as [[E _]|H]; [contradiction|exact H].
  - intros b d Hlast Hbal Hd.
    assert (Hc : BankDerived.closing_balance banks = d).
    { unfold BankDerived.closing_balance. rewrite Hlast, Hbal.
      destruct (Qeq_bool (dval d) 0) eqn:E; [|reflexivity].
      apply Qeq_bool_iff, Qabs_wd in E.
      assert (E' : (Qabs (dval d) == 0)%Q) by exact E. exfalso.
      clear E. revert Hd E'. generalize (Qabs (dval d)). intros q Hd E'. lra. }
    split; [exact Hc|].
    unfold Bank.ReconciliationResult.is_reconciled, Bank.ReconciliationResult.difference.
    unfold Bank.reconcile.
    cbn [Bank.ReconciliationResult.bank_closing_balance Bank.ReconciliationResult.book_closing_balance].
    rewrite Hc. apply andb_false_intro1. apply Qlt_bool_false.
    assert (E : (dval d - dval (dec 0) == dval d)%Q) by (change (dval (dec 0)) with 0%Q; ring).
    rewrite E. exact Hd.
  - intros Hq. subst books. unfold BankDerived._fetch_book_transactions. rewrite Hq.
    unfold Bank.reconcile. simpl.
    rewrite BankAuto.run_phases_no_books. simpl. split; [reflexivity|]. split; [reflexivity|].
    rewrite <- (Permutation_length (sorted_by_perm Bank.bank_before banks)).
    induction (sorted_by Bank.bank_before banks) as [|b l IH]; simpl; [reflexivity|].
    rewrite bool_decide_eq_false_2 by set_solver. simpl. f_equal. exact IH.
Qed.

(** A statement that closes at 50000 is not reconciled against the ledger. *)
Lemma X7_ledger_witness :
  exists r,
    BankDerived.auto_reconcile_from_db Bank.default_engine (Some Scenarios.ledger) Examples.noon
      "solaire" "UB001" [Scenarios.balance_line "BT001" 15 50000 50000] 1 31 = Some r /\
    Bank.ReconciliationResult.bank_closing_balance r = dec 50000 /\
    Bank.ReconciliationResult.is_reconciled r = false.
Proof.
  destruct (X7_auto_reconcile_from_db Bank.default_engine Examples.noon "solaire" "UB001"
              [Scenarios.balance_line "BT001" 15 50000 50000] 1 31) as [_ H].
  destruct (H Scenarios.ledger) as (r & E & _ & _ & _ & _ & _ & _ & Hbal & _).
  exists r. split; [exact E|].
  apply (Hbal (Scenarios.balance_line "BT001" 15 50000 50000) (dec 50000)).
  - reflexivity.
  - reflexivity.
  - vm_compute. discriminate.
Defined.

(** X8. [match_rate] is a percentage: on every result it is defined and lies
    between 0 and 100. *)
Theorem X8_match_rate_is_a_percentage (r : Bank.ReconciliationResult.t) :
  exists q, Bank.ReconciliationResult.match_rate r = Some q /\ (0 <= q <= 100)%Q.
Proof.
  destruct (BankAuto.match_rate_range r) as (q & E & H). exists q. split; [exact E|exact H].
Qed.

(** X9. [check_batch] accounts for every transaction of the batch exactly
    once: the new sides of the potential and definite duplicates together
    with the unique transactions are the batch, rearranged, and the unique
    transactions are in batch order. The stats are the lengths of the three
    lists, [total_checked] is their sum, and [duplicate_rate] is a share
    between 0 and 1. *)
Theorem X9_batch_accounting :
  forall self transactions existing_transactions,
    let r := fst (Card.check_batch self transactions existing_transactions) in
    Permutation transactions
      (map Card.DuplicateMatch.transaction (CardState.duplicates r) ++
       Card.DeduplicationResult.unique_transactions r) /\
    sublist (Card.DeduplicationResult.unique_transactions r) transactions /\
    Card.Stats.total_checked (Card.DeduplicationResult.stats r) = length transactions /\
    Card.Stats.unique (Card.DeduplicationResult.stats r) =
      length (Card.DeduplicationResult.unique_transactions r) /\
    Card.Stats.potential_duplicates (Card.DeduplicationResult.stats r) =
      length (Card.DeduplicationResult.potential_duplicates r) /\
    Card.Stats.definite_duplicates (Card.DeduplicationResult.stats r) =
      length (Card.DeduplicationResult.definite_duplicates r) /\
    Card.Stats.total_checked (Card.DeduplicationResult.stats r) =
      Card.Stats.unique (Card.DeduplicationResult.stats r) +
      Card.Stats.potential_duplicates (Card.DeduplicationResult.stats r) +
      Card.Stats.definite_duplicates (Card.DeduplicationResult.stats r) /\
    exists q, Card.Stats.duplicate_rate (Card.DeduplicationResult.stats r) = Some q /\
              (0 <= q <= 1)%Q.
Proof.
  intros self transactions existing r. subst r. unfold Card.check_batch, Card.sort_batch. simpl.
  set (self' := Card._build_index self (default [] existing)).
  set (result := fold_left (Card.check_step self' (default [] existing)) transactions
                   (Card.mkSorting [] [] [])).
  pose proof (CardRun.sort_fold_filed self' (default [] existing) transactions
                (Card.mkSorting [] [] [])) as Hperm.
  fold result in Hperm. simpl in Hperm.
  assert (Hlen : length transactions =
                 length (Card.unique_transactions result) +
                 length (Card.potential_duplicates result) +
                 length (Card.definite_duplicates result)).
  { apply Permutation_length in Hperm. unfold CardState.reported in Hperm.
    rewrite length_app, length_map, length_app in Hperm. lia. }
  split; [symmetry; exact Hperm|]. split.
  { destruct (CardRun.sort_fold_order self' (default [] existing) transactions
                (Card.mkSorting [] [] [])) as (accepted & E & Hs).
    fold result in E. simpl in E. rewrite E. exact Hs. }
  do 4 (split; [reflexivity|]). split; [exact Hlen|].
  destruct transactions as [|t ts] eqn:Et; [exists 0%Q; split; [reflexivity|lra]|].
  rewrite <- Et in *. 
  assert (Hpos : (0 < length transactions)%nat) by (rewrite Et; simpl; lia).
  apply Nat.ltb_lt in Hpos. rewrite Hpos. unfold truediv.
  apply Nat.ltb_lt in Hpos.
  destruct (Z.eqb_spec (Z.of_nat (length transactions)) 0) as [E0|_]; [lia|].
  eexists. split; [reflexivity|].
  set (d := (length (Card.potential_duplicates result) +
             length (Card.definite_duplicates result))%nat) in *.
  change (Z.of_nat d # 1) with (inject_Z (Z.of_nat d)).
  change (Z.of_nat (length transactions) # 1) with (inject_Z (Z.of_nat (length transactions))).
  assert (Hn : (0 < inject_Z (Z.of_nat (length transactions)))%Q).
  { change 0%Q with (inject_Z 0). rewrite <- Zlt_Qlt. lia. }
  assert (Hd0 : (0 <= inject_Z (Z.of_nat d))%Q).
  { change 0%Q with (inject_Z 0). rewrite <- Zle_Qle. lia. }
  assert (Hdn : (inject_Z (Z.of_nat d) <= inject_Z (Z.of_nat (length transactions)))%Q).
  { rewrite <- Zle_Qle. lia. }
  split.
  - apply Qle_shift_div_l; [exact Hn|lra].
  - apply Qle_shift_div_r; [exact Hn|lra].
Qed.

(** X10. Every reported confidence lies between the medium threshold 0.7 and
    1.0, and [is_likely_duplicate] is set exactly when the reported
    confidence reaches the high threshold 0.9, although the flag is taken
    from the confidence before it is capped at 1.0. So [check_batch], which
    files by the reported confidence, puts a report among the definite
    duplicates exactly when its flag is set and among the potential ones
    when it is not. *)
Theorem X10_confidence_and_flag :
  (forall self txn1 txn2 m,
     Card._compare_transactions self txn1 txn2 = Some m ->
     PrimFloat.leb Card.MEDIUM_CONFIDENCE_THRESHOLD (Card.DuplicateMatch.confidence m) = true /\
     PrimFloat.leb (Card.DuplicateMatch.confidence m) 1.0 = true /\
     Card.DuplicateMatch.is_likely_duplicate m =
       PrimFloat.leb Card.HIGH_CONFIDENCE_THRESHOLD (Card.DuplicateMatch.confidence m)) /\
  (forall self transactions existing_transactions m,
     let r := fst (Card.check_batch self transactions existing_transactions) in
     (m ∈ Card.DeduplicationResult.definite_duplicates r ->
      Card.DuplicateMatch.is_likely_duplicate m = true) /\
     (m ∈ Card.DeduplicationResult.potential_duplicates r ->
      Card.DuplicateMatch.is_likely_duplicate m = false)).
Proof.
  split; [exact CardRun.compare_confidence|].
  intros self transactions existing m r. subst r. unfold Card.check_batch, Card.sort_batch. simpl.
  set (self' := Card._build_index self (default [] existing)).
  assert (Hrep : forall m, m ∈ CardState.reported
                   (fold_left (Card.check_step self' (default [] existing)) transactions
                      (Card.mkSorting [] [] [])) ->
            Card.DuplicateMatch.is_likely_duplicate m =
              PrimFloat.leb Card.HIGH_CONFIDENCE_THRESHOLD (Card.DuplicateMatch.confidence m)).
  { intros m' Hm'. apply CardFacts.sort_fold_reported in Hm' as [Hm'|(_ & _ & Hm')].
    - apply elem_of_nil in Hm'. destruct Hm'.
    - apply CardRun.compare_confidence in Hm'. apply Hm'. }
  split; intros Hm.
  - rewrite Hrep by (apply elem_of_app; right; exact Hm).
    pose proof (CardRun.sort_fold_definite self' (default [] existing) transactions
                  (Card.mkSorting [] [] []) ltac:(constructor)) as Hall.
    rewrite Forall_forall in Hall. apply Hall, Hm.
  - rewrite Hrep by (apply elem_of_app; left; exact Hm).
    pose proof (CardFacts.sort_fold_potential self' (default [] existing) transactions
                  (Card.mkSorting [] [] []) ltac:(constructor)) as Hall.
    rewrite Forall_forall in Hall. apply Hall, Hm.
Qed.

(** The report of a second parse of the coffee line. *)
Lemma X10_second_parse_witness :
  PrimFloat.leb Card.MEDIUM_CONFIDENCE_THRESHOLD
    (Card.DuplicateMatch.confidence (CardState.hash_hit (Examples.coffee 2) (Examples.coffee 1)))
    = true /\
  PrimFloat.leb
    (Card.DuplicateMatch.confidence (CardState.hash_hit (Examples.coffee 2) (Examples.coffee 1)))
    1.0 = true /\
  Card.DuplicateMatch.is_likely_duplicate (CardState.hash_hit (Examples.coffee 2) (Examples.coffee 1)) =
    PrimFloat.leb Card.HIGH_CONFIDENCE_THRESHOLD
      (Card.DuplicateMatch.confidence (CardState.hash_hit (Examples.coffee 2) (Examples.coffee 1))).
Proof.
  apply (proj1 X10_confidence_and_flag Examples.detector (Examples.coffee 2) (Examples.coffee 1)).
  vm_compute. reflexivity.
Defined.

(** X11. With fewer than a hundred candidates [_find_duplicate] does not use
    the index: it is [check_single] on the candidates. So for a history of
    fewer than 100 transactions and a batch of at most 100, the unique
    transactions are free of duplicates: [_compare_transactions] reports no
    unique transaction against a transaction of the history, and none
    against a unique transaction that comes before it. *)
Theorem X11_small_batches_compared_in_full :
  forall self transactions existing_transactions,
    (forall txn candidates,
       (length candidates < 100)%nat ->
       Card._find_duplicate self txn candidates = Card.check_single self txn candidates) /\
    ((length (default [] existing_transactions) < 100)%nat ->
     (length transactions <= 100)%nat ->
     let r := fst (Card.check_batch self transactions existing_transactions) in
     (forall u e,
        u ∈ Card.DeduplicationResult.unique_transactions r ->
        e ∈ default [] existing_transactions ->
        Card._compare_transactions self u e = None) /\
     (forall i j u v,
        (i < j)%nat ->
        Card.DeduplicationResult.unique_transactions r !! i = Some u ->
        Card.DeduplicationResult.unique_transactions r !! j = Some v ->
        Card._compare_transactions self v u = None)).
Proof.
  intros self transactions existing. split; [intros; apply CardRun.find_duplicate_small; assumption|].
  intros Hall Hlen r. subst r. unfold Card.check_batch, Card.sort_batch. simpl.
  set (self' := Card._build_index self (default [] existing)).
  assert (Hc : CardDerived.clean self' (default [] existing)
                 (Card.unique_transactions
                    (fold_left (Card.check_step self' (default [] existing)) transactions
                       (Card.mkSorting [] [] [])))).
  { apply CardIndex.sort_fold_clean; [exact Hall|simpl; lia|].
    split.
    - intros u e Hu. apply elem_of_nil in Hu. destruct Hu.
    - intros i j u v _ Hi. destruct i; discriminate. }
  destruct Hc as [Hc1 Hc2]. split.
  - intros u e Hu He.
    rewrite <- (CardRun.compare_same_tolerances self self') by reflexivity. eauto.
  - intros i j u v Hij Hi Hj.
    rewrite <- (CardRun.compare_same_tolerances self self') by reflexivity. eauto.
Qed.

(** A lunch and a second parse of the coffee against a history of one. *)
Lemma X11_three_parses_witness :
  let r := fst (Card.check_batch Examples.detector
                  [Scenarios.lunch; Examples.coffee 2] (Some [Examples.coffee 1])) in
  (forall u e,
     u ∈ Card.DeduplicationResult.unique_transactions r ->
     e ∈ [Examples.coffee 1] ->
     Card._compare_transactions Examples.detector u e = None) /\
  (forall i j u v,
     (i < j)%nat ->
     Card.DeduplicationResult.unique_transactions r !! i = Some u ->
     Card.DeduplicationResult.unique_transactions r !! j = Some v ->
     Card._compare_transactions Examples.detector v u = None).
Proof.
  apply (proj2 (X11_small_batches_compared_in_full Examples.detector
                  [Scenarios.lunch; Examples.coffee 2] (Some [Examples.coffee 1]))).
  - simpl. lia.
  - simpl. lia.
Defined.

(** X12. Whatever the sizes of the batch and the history, a unique
    transaction has no duplicate in the history among the transactions that
    share its index key: [_compare_transactions] reports no unique transaction
    against a history transaction with the same whole-peso amount or the same
    calendar day. In particular no unique transaction has the content hash of
    a history transaction that is another object. *)
Theorem X12_indexed_history_duplicates_caught :
  forall self transactions existing u e,
    u ∈ Card.DeduplicationResult.unique_transactions
          (fst (Card.check_batch self transactions (Some existing))) ->
    e ∈ existing ->
    (Card.amount_key e = Card.amount_key u \/ Card.date_key e = Card.date_key u ->
     Card._compare_transactions self u e = None) /\
    (Card.ParsedTransaction.oid u <> Card.ParsedTransaction.oid e ->
     Card.ParsedTransaction.hash u <> Card.ParsedTransaction.hash e).
Proof.
  intros self transactions existing u e Hu He.
  unfold Card.check_batch, Card.sort_batch in Hu. simpl in Hu.
  pose proof (CardIndex.sort_fold_accepted (Card._build_index self existing) existing transactions
                (Card.mkSorting [] [] []) ltac:(constructor)) as Hall.
  rewrite Forall_forall in Hall. specialize (Hall u Hu).
  assert (Hkey : Card.amount_key e = Card.amount_key u \/ Card.date_key e = Card.date_key u ->
                 Card._compare_transactions self u e = None).
  { intros Hk. destruct (Card._compare_transactions self u e) as [m|] eqn:E; [|reflexivity].
    destruct (CardIndex.find_duplicate_indexed self existing existing u e He He Hk) as [m' Hm'].
    - rewrite E. eauto.
    - rewrite Hm' in Hall. discriminate. }
  split; [exact Hkey|].
  intros Hoid Hhash.
  rewrite (CardFacts.compare_hash_hit self u e Hoid Hhash) in Hkey.
  apply CardFacts.hash_eq in Hhash as (Hd & _ & Ha).
  assert (Some (CardState.hash_hit u e) = None) as [=].
  apply Hkey. left. unfold Card.amount_key. rewrite Ha. reflexivity.
Qed.

(** The lunch is accepted although it shares the day of the coffee in the
    history: the two are not reported against each other. *)
Lemma X12_lunch_witness :
  (Card.amount_key (Examples.coffee 1) = Card.amount_key Scenarios.lunch \/
   Card.date_key (Examples.coffee 1) = Card.date_key Scenarios.lunch ->
   Card._compare_transactions Examples.detector Scenarios.lunch (Examples.coffee 1) = None) /\
  (Card.ParsedTransaction.oid Scenarios.lunch <> Card.ParsedTransaction.oid (Examples.coffee 1) ->
   Card.ParsedTransaction.hash Scenarios.lunch <> Card.ParsedTransaction.hash (Examples.coffee 1)).
Proof.
  apply (X12_indexed_history_duplicates_caught Examples.detector
           [Scenarios.lunch; Examples.coffee 2] [Examples.coffee 1]).
  - vm_compute. apply elem_of_cons. left. reflexivity.
  - apply elem_of_cons. left. reflexivity.
Defined.

(** X13. [_build_index] files every transaction twice, under its whole-peso
    amount and under its calendar day, and nowhere else: the bucket of a key
    holds the transactions with that key, in the order given, and a key is
    absent exactly when no transaction has it. The index is built from
    scratch (what an earlier call has filed is gone), the tolerances are
    kept, and after [reset] every key is absent. *)
Theorem X13_index_buckets :
  forall self earlier transactions key,
    let index := Card.DuplicateDetector._transaction_index (Card._build_index self transactions) in
    default [] (index !! key) = CardDerived.filed_under key transactions /\
    (forall txn, txn ∈ default [] (index !! key) <->
       txn ∈ transactions /\ (Card.amount_key txn = key \/ Card.date_key txn = key)) /\
    (index !! key = None <->
     forall txn, txn ∈ transactions -> Card.amount_key txn <> key /\ Card.date_key txn <> key) /\
    Card._build_index (Card._build_index self earlier) transactions =
      Card._build_index self transactions /\
    Card.DuplicateDetector.date_tolerance (Card._build_index self transactions) =
      Card.DuplicateDetector.date_tolerance self /\
    Card.DuplicateDetector.amount_tolerance (Card._build_index self transactions) =
      Card.DuplicateDetector.amount_tolerance self /\
    Card.DuplicateDetector._transaction_index (Card.reset (Card._build_index self transactions))
      !! key = None.
Proof.
  intros self earlier transactions key index. subst index. unfold Card._build_index. simpl.
  assert (Hb : default []
            (fold_left (fun index txn =>
               Card.index_append (Card.date_key txn) txn
                 (Card.index_append (Card.amount_key txn) txn index)) transactions ∅ !! key) =
          CardDerived.filed_under key transactions).
  { rewrite CardIndex.index_fold_lookup, lookup_empty. reflexivity. }
  split; [exact Hb|]. split.
  { intros txn. rewrite Hb. apply CardIndex.filed_under_elem. }
  split.
  { rewrite CardIndex.index_fold_None, lookup_empty. split.
    - intros [_ H] txn Htxn. split; intros E.
      + assert (Hin : txn ∈ CardDerived.filed_under key transactions)
          by (apply CardIndex.filed_under_elem; auto).
        rewrite H in Hin. apply elem_of_nil in Hin. exact Hin.
      + assert (Hin : txn ∈ CardDerived.filed_under key transactions)
          by (apply CardIndex.filed_under_elem; auto).
        rewrite H in Hin. apply elem_of_nil in Hin. exact Hin.
    - intros H. split; [reflexivity|].
      destruct (CardDerived.filed_under key transactions) as [|txn l] eqn:E; [reflexivity|].
      assert (Hin : txn ∈ CardDerived.filed_under key transactions)
        by (rewrite E; apply elem_of_cons; auto).
      apply CardIndex.filed_under_elem in Hin as [Hin [Hk|Hk]];
        destruct (H txn Hin); contradiction. }
  split; [reflexivity|]. split; [reflexivity|]. split; [reflexivity|]. apply lookup_empty.
Qed.

(** X14. [check_single] reports the first match in the order of the list,
    not the best one: what it returns is the report of
    [_compare_transactions] on some listed transaction, another object than
    the one checked, and no transaction listed before that one is reported;
    it returns nothing exactly when no listed transaction is reported. *)
Theorem X14_check_single_first_match :
  forall self transaction existing_transactions,
    (forall m,
       Card.check_single self transaction existing_transactions = Some m ->
       exists ahead existing behind,
         existing_transactions = ahead ++ existing :: behind /\
         Card._compare_transactions self transaction existing = Some m /\
         Card.DuplicateMatch.transaction m = transaction /\
         Card.DuplicateMatch.matched_with m = existing /\
         Card.ParsedTransaction.oid transaction <> Card.ParsedTransaction.oid existing /\
         forall c, c ∈ ahead -> Card._compare_transactions self transaction c = None) /\
    (Card.check_single self transaction existing_transactions = None <->
     forall c, c ∈ existing_transactions -> Card._compare_transactions self transaction c = None).
Proof.
  intros self txn existing. split; [|apply CardRun.check_single_None].
  intros m Hm. unfold Card.check_single in Hm.
  apply first_some_Some in Hm as (ahead & c & behind & -> & Hc & Hahead).
  exists ahead, c, behind. destruct (CardFacts.compare_Some _ _ _ _ Hc) as (Ht & Hw & Hoid & _).
  repeat split; auto. rewrite Forall_forall in Hahead. exact Hahead.
Qed.

(** The second parse is reported against the first coffee of the list, past
    the lunch and ahead of the third parse. *)
Lemma X14_second_parse_witness :
  exists ahead existing behind,
    [Scenarios.lunch; Examples.coffee 1; Examples.coffee 3] = ahead ++ existing :: behind /\
    Card._compare_transactions Examples.detector (Examples.coffee 2) existing =
      Some (CardState.hash_hit (Examples.coffee 2) (Examples.coffee 1)) /\
    Card.DuplicateMatch.transaction (CardState.hash_hit (Examples.coffee 2) (Examples.coffee 1)) =
      Examples.coffee 2 /\
    Card.DuplicateMatch.matched_with (CardState.hash_hit (Examples.coffee 2) (Examples.coffee 1)) =
      existing /\
    Card.ParsedTransaction.oid (Examples.coffee 2) <> Card.ParsedTransaction.oid existing /\
    forall c, c ∈ ahead -> Card._compare_transactions Examples.detector (Examples.coffee 2) c = None.
Proof.
  apply (proj1 (X14_check_single_first_match Examples.detector (Examples.coffee 2)
                  [Scenarios.lunch; Examples.coffee 1; Examples.coffee 3])).
  vm_compute. reflexivity.
Defined.

(** X15. The same day and the same amount are enough for a report: with a
    date tolerance of at least 0, two distinct transaction objects whose
    time difference is zero whole days and whose amounts are equal are
    always reported by [_compare_transactions], whatever their descriptions,
    merchants and references. *)
Theorem X15_same_day_same_amount_reported :
  forall self txn1 txn2,
    (0 <= Card.DuplicateDetector.date_tolerance self)%Z ->
    Card.ParsedTransaction.oid txn1 <> Card.ParsedTransaction.oid txn2 ->
    Card.timedelta_days (Card.ParsedTransaction.date txn1) (Card.ParsedTransaction.date txn2) = 0%Z ->
    (dval (Card.ParsedTransaction.amount txn1) == dval (Card.ParsedTransaction.amount txn2))%Q ->
    exists m, Card._compare_transactions self txn1 txn2 = Some m /\
      Card.DuplicateMatch.transaction m = txn1 /\ Card.DuplicateMatch.matched_with m = txn2.
Proof.
  intros self txn1 txn2 Htol Hoid Hd Ha.
  assert (Hsome : is_Some (Card._compare_transactions self txn1 txn2)).
  { unfold Card._compare_transactions.
    apply Nat.eqb_neq in Hoid. rewrite Hoid.
    case_bool_decide; [eauto|]. rewrite Hd. change (Z.abs 0) with 0%Z. cbv zeta.
    destruct (Z.ltb_spec (Card.DuplicateDetector.date_tolerance self) 0) as [|_]; [lia|].
    unfold Card.date_signal. change (0 =? 0)%Z with true. cbv iota.
    unfold Card.amount_signal.
    assert (Hz : Qeq_bool (dabs (dsub (dval (Card.ParsedTransaction.amount txn1))
                                      (dval (Card.ParsedTransaction.amount txn2)))) 0 = true).
    { apply Qeq_bool_iff, Rounding.apart_diag, Ha. }
    rewrite Hz.
    unfold Card.description_signal, Card.merchant_signal, Card.reference_signal, Card.verdict.
    (destruct (PrimFloat.ltb 0.8 _); [|destruct (PrimFloat.ltb 0.5 _)]);
    (destruct (andb (Card.nonempty _) (Card.nonempty _)); [destruct (PrimFloat.ltb 0.8 _)|]);
    (destruct (andb (truthy _) (truthy _)); [destruct (bool_decide _)|]);
    match goal with
    | |- is_Some (if ?b then _ else _) =>
      let v := eval vm_compute in b in change b with v
    end; eauto. }
  destruct Hsome as [m Hm]. exists m. split; [exact Hm|].
  destruct (CardFacts.compare_Some _ _ _ _ Hm) as (Ht & Hw & _). auto.
Qed.


(** Tea and coffee of the same day and price: reported, with nothing else in
    common. *)
Lemma X15_tea_witness :
  exists m, Card._compare_transactions Examples.detector Scenarios.tea (Examples.coffee 1) = Some m /\
    Card.DuplicateMatch.transaction m = Scenarios.tea /\
    Card.DuplicateMatch.matched_with m = Examples.coffee 1.
Proof.
  apply (X15_same_day_same_amount_reported Examples.detector Scenarios.tea (Examples.coffee 1)).
  - vm_compute. discriminate.
  - vm_compute. discriminate.
  - reflexivity.
  - reflexivity.
Defined.


(** X17. The phases show in the order of [matched]: first the exact pairs,
    then the reference pairs, then the amount-only and fuzzy pairs. Phase 1
    uses up every exact match, so the tolerance phase never commits an exact
    pair. The unmatched bank items and the unmatched book items are listed
    in ascending order of date. *)
Theorem X17_result_order :
  forall self clock entity account banks books period_start period_end
         bank_opening bank_closing book_opening book_closing,
    let r := Bank.reconcile self clock entity account banks books period_start period_end
               bank_opening bank_closing book_opening book_closing in
    (exists exact by_reference rest,
       Bank.ReconciliationResult.matched r = exact ++ by_reference ++ rest /\
       Forall (fun m => Bank.MatchedTransaction.match_type m = Bank.EXACT) exact /\
       Forall (fun m => Bank.MatchedTransaction.match_type m = Bank.REFERENCE) by_reference /\
       Forall (fun m => Bank.MatchedTransaction.match_type m = Bank.AMOUNT_ONLY \/
                        Bank.MatchedTransaction.match_type m = Bank.FUZZY) rest) /\
    StronglySorted
      (fun x y => (BankDerived.transaction_date x <= BankDerived.transaction_date y)%Z)
      (map Bank.UnmatchedItem.transaction (Bank.ReconciliationResult.unmatched_bank r)) /\
    StronglySorted
      (fun x y => (BankDerived.transaction_date x <= BankDerived.transaction_date y)%Z)
      (map Bank.UnmatchedItem.transaction (Bank.ReconciliationResult.unmatched_book r)).
Proof.
  intros self clock entity account banks books ps pe bo bc ko kc r.
  subst r. unfold Bank.reconcile; simpl.
  set (bank_sorted := sorted_by Bank.bank_before banks).
  set (book_sorted := sorted_by Bank.book_before books).
  split; [apply BankOrder.run_phases_grouped|]. split.
  - rewrite (BankParts.unmatched_transactions inl
               (fun b => bool_decide (Bank.BankTransaction.id b ∈
                            Bank.matched_bank_ids (Bank.run_phases self bank_sorted book_sorted))))
      by reflexivity.
    apply (BankOrder.map_sorted BankState.bank_by_date); [auto|].
    apply BankOrder.filter_sorted, BankDates.bank_sorted_by_date.
  - rewrite (BankParts.unmatched_transactions inr
               (fun k => bool_decide (Bank.BookTransaction.id k ∈
                            Bank.matched_book_ids (Bank.run_phases self bank_sorted book_sorted))))
      by reflexivity.
    apply (BankOrder.map_sorted BankState.book_by_date); [auto|].
    apply BankOrder.filter_sorted, BankDates.book_sorted_by_date.
Qed.

(** X18. [_string_similarity] does not depend on the order of its two
    arguments, and it is 0.0 as soon as one of them holds no word (it is
    empty or all white space). *)
Theorem X18_string_similarity_symmetric :
  forall s1 s2,
    Card._string_similarity s1 s2 = Card._string_similarity s2 s1 /\
    (split s1 = [] -> Card._string_similarity s1 s2 = 0.0%float) /\
    (split s2 = [] -> Card._string_similarity s1 s2 = 0.0%float).
Proof.
  intros s1 s2. unfold Card._string_similarity. split; [|split].
  - assert (Hi : forall a b : gset string, a ∩ b = b ∩ a)
      by (intros a b; apply leibniz_equiv; set_solver).
    assert (Hu : forall a b : gset string, a ∪ b = b ∪ a)
      by (intros a b; apply leibniz_equiv; set_solver).
    rewrite (orb_comm (bool_decide (s1 = EmptyString))).
    rewrite (orb_comm (bool_decide (list_to_set (split s1) = (∅ : gset string)))).
    rewrite (Hi (list_to_set (split s1))), (Hu (list_to_set (split s1))). reflexivity.
  - intros E. rewrite E. simpl.
    destruct (bool_decide (s1 = EmptyString) || bool_decide (s2 = EmptyString)); reflexivity.
  - intros E. rewrite E. simpl.
    destruct (bool_decide (s1 = EmptyString) || bool_decide (s2 = EmptyString)); [reflexivity|].
    rewrite orb_true_r. reflexivity.
Qed.

(** A description of blanks only is similar to nothing. *)
Lemma X18_blank_description_witness :
  Card._string_similarity "   " "JOLLIBEE MAKATI" = 0.0%float.
Proof.
  apply (proj1 (proj2 (X18_string_similarity_symmetric "   " "JOLLIBEE MAKATI"))).
  reflexivity.
Defined.

(** X19. The result does not depend on the order in which the transactions
    are passed, as long as no two different bank transactions share date and
    amount and no two different book transactions do: [reconcile] returns
    the same result for rearranged inputs. (Among transactions that tie on
    date and amount the order of the input decides.) *)
Theorem X19_input_order_irrelevant :
  forall self clock entity account banks banks' books books' period_start period_end
         bank_opening bank_closing book_opening book_closing,
    (forall x y, x ∈ banks -> y ∈ banks ->
       Bank.BankTransaction.date x = Bank.BankTransaction.date y ->
       (dval (Bank.BankTransaction.amount x) == dval (Bank.BankTransaction.amount y))%Q -> x = y) ->
    (forall x y, x ∈ books -> y ∈ books ->
       Bank.BookTransaction.date x = Bank.BookTransaction.date y ->
       (dval (Bank.BookTransaction.amount x) == dval (Bank.BookTransaction.amount y))%Q -> x = y) ->
    Permutation banks banks' -> Permutation books books' ->
    Bank.reconcile self clock entity account banks books period_start period_end
      bank_opening bank_closing book_opening book_closing =
    Bank.reconcile self clock entity account banks' books' period_start period_end
      bank_opening bank_closing book_opening book_closing.
Proof.
  intros self clock entity account banks banks' books books' ps pe bo bc ko kc Hb Hk Pb Pk.
  unfold Bank.reconcile.
  rewrite (BankInput.bank_sorted_unique banks banks' Hb Pb).
  rewrite (BankInput.book_sorted_unique books books' Hk Pk).
  reflexivity.
Qed.

(** The rivals, each list the other way round. *)
Lemma X19_rivals_witness :
  Examples.run Bank.default_engine Examples.rival_banks Examples.rival_books =
  Examples.run Bank.default_engine (rev Examples.rival_banks) (rev Examples.rival_books).
Proof.
  apply (X19_input_order_irrelevant Bank.default_engine Examples.noon "solaire" "UB001"
           Examples.rival_banks (rev Examples.rival_banks)
           Examples.rival_books (rev Examples.rival_books)).
  - intros x y Hx Hy Hd Ha.
    apply elem_of_cons in Hx as [->|Hx]; [|apply elem_of_cons in Hx as [->|Hx]; [|inversion Hx]];
    (apply elem_of_cons in Hy as [->|Hy]; [|apply elem_of_cons in Hy as [->|Hy]; [|inversion Hy]]);
    try reflexivity; vm_compute in Ha; discriminate.
  - intros x y Hx Hy Hd Ha.
    apply elem_of_cons in Hx as [->|Hx]; [|apply elem_of_cons in Hx as [->|Hx]; [|inversion Hx]];
    (apply elem_of_cons in Hy as [->|Hy]; [|apply elem_of_cons in Hy as [->|Hy]; [|inversion Hy]]);
    try reflexivity; vm_compute in Hd; discriminate.
  - apply perm_swap.
  - apply perm_swap.
Defined.



(** X21. [_preprocess_content] leaves no carriage return in the content and
    never makes it longer. Content that has no byte order mark in front and
    no carriage return is returned as it is, so preprocessing a second time
    changes nothing unless a second byte order mark followed the first. A
    byte order mark in front is dropped, once. *)
Theorem X21_preprocess_content :
  forall content,
    (Statement.CR ∉ Statement.bytes (Statement._preprocess_content content)) /\
    String.length (Statement._preprocess_content content) <= String.length content /\
    (String.prefix Statement.BOM content = false ->
     Statement.CR ∉ Statement.bytes content ->
     Statement._preprocess_content content = content) /\
    (String.prefix Statement.BOM (Statement._preprocess_content content) = false ->
     Statement._preprocess_content (Statement._preprocess_content content) =
       Statement._preprocess_content content) /\
    Statement._preprocess_content (Statement.BOM +:+ content) =
      Statement.replace_cr (Statement.replace_crlf content).
Proof.
  intros content.
  assert (Hfix : forall s, String.prefix Statement.BOM s = false ->
                   Statement.CR ∉ Statement.bytes s -> Statement._preprocess_content s = s).
  { intros s Hb Hc. unfold Statement._preprocess_content. rewrite Hb.
    rewrite (ContentFacts.replace_crlf_fixed s Hc). apply ContentFacts.replace_cr_fixed, Hc. }
  split; [apply ContentFacts.replace_cr_clean|]. split; [|split; [apply Hfix|split]].
  - unfold Statement._preprocess_content. rewrite ContentFacts.replace_cr_length.
    etransitivity; [apply ContentFacts.replace_crlf_length|].
    destruct (String.prefix Statement.BOM content); [|lia].
    destruct content as [|c1 [|c2 [|c3 rest]]]; simpl; lia.
  - intros Hb. apply Hfix; [exact Hb|apply ContentFacts.replace_cr_clean].
  - unfold Statement._preprocess_content.
    assert (E : String.prefix Statement.BOM (Statement.BOM +:+ content) = true).
    { unfold Statement.BOM. simpl. destruct content; reflexivity. }
    rewrite E. reflexivity.
Qed.

(** An export without byte order mark and carriage return comes back as it
    is. *)
Lemma X21_clean_export_witness :
  Statement._preprocess_content "2024-01-15,500" = "2024-01-15,500"%string.
Proof.
  apply (proj1 (proj2 (proj2 (X21_preprocess_content _)))).
  - reflexivity.
  - vm_compute. intros H. repeat (apply elem_of_cons in H as [H|H]; [discriminate|]).
    apply elem_of_nil in H. exact H.
Defined.

(** X22. Empty inputs of [reconcile]. Without bank transactions nothing is
    matched, no bank item is unmatched, every book transaction is listed as
    unmatched, in sorted order, and the match rate is 0. Without book
    transactions nothing is matched, no book item is unmatched, every bank
    transaction is listed in sorted order with status unmatched and no
    suggestion, and the match rate is 0. *)
Theorem X22_empty_inputs :
  forall self clock entity account banks books period_start period_end
         bank_opening bank_closing book_opening book_closing,
    (let r := Bank.reconcile self clock entity account [] books period_start period_end
                bank_opening bank_closing book_opening book_closing in
     Bank.ReconciliationResult.matched r = [] /\
     Bank.ReconciliationResult.unmatched_bank r = [] /\
     Bank.ReconciliationResult.unmatched_book r =
       map (fun book_txn => Bank.UnmatchedItem.mk (inr book_txn) "book" Bank.UNMATCHED [] "")
         (sorted_by Bank.book_before books) /\
     Bank.ReconciliationResult.match_rate r = Some 0%Q) /\
    (let r := Bank.reconcile self clock entity account banks [] period_start period_end
                bank_opening bank_closing book_opening book_closing in
     Bank.ReconciliationResult.matched r = [] /\
     Bank.ReconciliationResult.unmatched_book r = [] /\
     Bank.ReconciliationResult.unmatched_bank r =
       map (fun bank_txn => Bank.UnmatchedItem.mk (inl bank_txn) "bank" Bank.UNMATCHED [] "")
         (sorted_by Bank.bank_before banks) /\
     exists q, Bank.ReconciliationResult.match_rate r = Some q /\ (q == 0)%Q).
Proof.
  intros self clock entity account banks books ps pe bo bc ko kc. split.
  - unfold Bank.reconcile. simpl. repeat split.
  - intros r.
    assert (Hm : Bank.ReconciliationResult.matched r = []).
    { subst r. unfold Bank.reconcile. cbn [sorted_by fold_right].
      rewrite BankAuto.run_phases_no_books. reflexivity. }
    assert (Hk : Bank.ReconciliationResult.unmatched_book r = []) by reflexivity.
    assert (Hu : Bank.ReconciliationResult.unmatched_bank r =
               map (fun bank_txn => Bank.UnmatchedItem.mk (inl bank_txn) "bank" Bank.UNMATCHED [] "")
                 (sorted_by Bank.bank_before banks)).
    { subst r. unfold Bank.reconcile. cbn [sorted_by fold_right].
      rewrite BankAuto.run_phases_no_books.
      cbn [Bank.ReconciliationResult.unmatched_bank Bank.no_progress
           Bank.matched_bank_ids Bank.matched_book_ids].
      induction (sorted_by Bank.bank_before banks) as [|b l IH]; simpl; [reflexivity|].
      f_equal. }
    split; [exact Hm|]. split; [exact Hk|]. split; [exact Hu|].
    unfold Bank.ReconciliationResult.match_rate. rewrite Hm, Hu, length_map.
    destruct (length (sorted_by Bank.bank_before banks)) as [|n].
    + exists 0%Q. split; reflexivity.
    + unfold truediv.
      destruct (Z.eqb_spec (Z.of_nat (length (@nil Bank.MatchedTransaction.t)) + Z.of_nat (S n)) 0)
        as [E|_]; [simpl in E; lia|].
      eexists. split; [reflexivity|].
      change (Z.of_nat (length (@nil Bank.MatchedTransaction.t)) # 1) with 0%Q.
      unfold Qdiv. rewrite !Qmult_0_l. reflexivity.
Qed.

(** X23. Empty inputs of the detector. [check_single] against an empty list
    reports nothing. [check_batch] on an empty batch returns three empty
    lists and stats that are all 0, whatever the history. Without history,
    the first transaction of a batch is always accepted as unique: it is the
    first entry of [unique_transactions]. *)
Theorem X23_detector_empty_inputs :
  forall self txn rest existing_transactions,
    Card.check_single self txn [] = None /\
    fst (Card.check_batch self [] existing_transactions) =
      Card.DeduplicationResult.mk [] [] [] (Card.Stats.mk 0 0 0 0 (Some 0%Q)) /\
    head (Card.DeduplicationResult.unique_transactions
            (fst (Card.check_batch self (txn :: rest) None))) = Some txn /\
    head (Card.DeduplicationResult.unique_transactions
            (fst (Card.check_batch self (txn :: rest) (Some [])))) = Some txn.
Proof.
  intros self txn rest existing. split; [reflexivity|]. split; [reflexivity|].
  assert (H : head (Card.unique_transactions
                (fold_left (Card.check_step (Card._build_index self []) []) (txn :: rest)
                   (Card.mkSorting [] [] []))) = Some txn).
  { simpl.
    destruct (CardRun.sort_fold_order (Card._build_index self []) [] rest
                (Card.check_step (Card._build_index self []) [] (Card.mkSorting [] [] []) txn))
      as (accepted & E & _).
    rewrite E. reflexivity. }
  split; exact H.
Qed.
